(** * git-remote-branch-manager: branch classification, selection and deletion

    A shallow embedding of [main.go].  Go strings are byte strings, so a Go
    [string] is a list of 8-bit characters.  The functions of Go's standard
    packages that [main.go] calls ([unicode/utf8], [unicode], [strings],
    and the compiled pattern [ansiStripper]) are modelled first, then the
    functions of [main.go] itself, then [main] as a program over an explicit
    world of external processes. *)

From Stdlib Require Import Ascii String.
From Stdlib Require Import NArith ZArith Lia Bool Arith List.
Import ListNotations.

Local Open Scope char_scope.
Local Open Scope nat_scope.
Local Open Scope list_scope.

(** A Go string: an immutable sequence of bytes. *)
Definition gostring : Type := list ascii.

(** A Go string literal; backslash-n is its only escape sequence here
    (the escape for ESC is spelled out where it occurs). *)
Fixpoint str (s : string) : gostring :=
  match s with
  | EmptyString => []
  | String c s' =>
    match s' with
    | String "n" s'' =>
      if Ascii.eqb c "092" then "010" :: str s'' else c :: str s'
    | _ => c :: str s'
    end
  end.

(** [a == b] on Go strings. *)
Fixpoint eqs (a b : gostring) : bool :=
  match a, b with
  | [], [] => true
  | c :: a', d :: b' => Ascii.eqb c d && eqs a' b'
  | _, _ => false
  end.

(* ================================================================= *)
(** ** Package [unicode/utf8] and [unicode.IsSpace] *)

Module Utf8.

Definition RuneError : N := 65533.
Definition RuneSelf : N := 128.
Definition UTFMax : Z := 4.

Definition byte (c : ascii) : N := N_of_ascii c.

(** The table [first] together with [acceptRanges]: for a leading byte of a
    multi-byte encoding, the size of the encoding and the range accepted
    for the second byte; [None] for the bytes marked invalid ([xx]). ASCII
    bytes are handled before the table is consulted. *)
Definition first (s0 : N) : option (nat * N * N) :=
  (if s0 <? 194 then None
   else if s0 <? 224 then Some (2%nat, 128, 191)
   else if s0 =? 224 then Some (3%nat, 160, 191)
   else if s0 <? 237 then Some (3%nat, 128, 191)
   else if s0 =? 237 then Some (3%nat, 128, 159)
   else if s0 <? 240 then Some (3%nat, 128, 191)
   else if s0 =? 240 then Some (4%nat, 144, 191)
   else if s0 <? 244 then Some (4%nat, 128, 191)
   else if s0 =? 244 then Some (4%nat, 128, 143)
   else None)%N.

(** [locb <= b <= hicb]: a continuation byte. *)
Definition cont (b : N) : bool := ((128 <=? b) && (b <=? 191))%N.

(** [utf8.DecodeRuneInString]: the first rune of [s] and its width in
    bytes; [(RuneError, 0)] on the empty string and [(RuneError, 1)] on an
    invalid encoding. *)
Definition DecodeRuneInString (s : gostring) : N * nat :=
  match s with
  | [] => (RuneError, 0)
  | c0 :: t0 =>
    let s0 := byte c0 in
    if (s0 <? RuneSelf)%N then (s0, 1)
    else
      match first s0 with
      | None => (RuneError, 1)
      | Some (sz, lo, hi) =>
        if length s <? sz then (RuneError, 1)
        else
          match t0 with
          | [] => (RuneError, 1)
          | c1 :: t1 =>
            let s1 := byte c1 in
            if ((s1 <? lo) || (hi <? s1))%N then (RuneError, 1)
            else if sz <=? 2
            then (N.lor (N.shiftl (N.land s0 31) 6) (N.land s1 63), 2)
            else
              match t1 with
              | [] => (RuneError, 1)
              | c2 :: t2 =>
                let s2 := byte c2 in
                if negb (cont s2) then (RuneError, 1)
                else if sz <=? 3
                then (N.lor (N.lor (N.shiftl (N.land s0 15) 12)
                                   (N.shiftl (N.land s1 63) 6))
                            (N.land s2 63), 3)
                else
                  match t2 with
                  | [] => (RuneError, 1)
                  | c3 :: _ =>
                    let s3 := byte c3 in
                    if negb (cont s3) then (RuneError, 1)
                    else (N.lor (N.lor (N.lor (N.shiftl (N.land s0 7) 18)
                                              (N.shiftl (N.land s1 63) 12))
                                       (N.shiftl (N.land s2 63) 6))
                                (N.land s3 63), 4)
                  end
              end
          end
      end
  end.

(** [utf8.RuneStart]: the byte is not a continuation byte. *)
Definition RuneStart (b : N) : bool := negb (N.land b 192 =? 128)%N.

(** [s[i]] for an index held in a Go [int]. *)
Definition at_ (s : gostring) (i : Z) : N := byte (nth (Z.to_nat i) s zero).

(** The backward scan of [DecodeLastRuneInString]:
    [for start--; start >= lim; start-- { if RuneStart(s[start]) { break } }],
    entered after the first decrement. *)
Fixpoint scanBack (fuel : nat) (s : gostring) (lim start : Z) : Z :=
  match fuel with
  | O => start
  | S fuel' =>
    if (start <? lim)%Z then start
    else if RuneStart (at_ s start) then start
    else scanBack fuel' s lim (start - 1)
  end.

(** [utf8.DecodeLastRuneInString]: the last rune of [s] and its width. The
    scan visits at most [UTFMax] positions, which bounds its fuel. *)
Definition DecodeLastRuneInString (s : gostring) : N * nat :=
  let end_ := Z.of_nat (length s) in
  if (end_ =? 0)%Z then (RuneError, 0)
  else
    let start := (end_ - 1)%Z in
    let r := at_ s start in
    if (r <? RuneSelf)%N then (r, 1)
    else
      let lim := (if end_ - UTFMax <? 0 then 0 else end_ - UTFMax)%Z in
      let start := scanBack 4 s lim (start - 1) in
      let start := (if start <? 0 then 0 else start)%Z in
      let '(r, size) := DecodeRuneInString (skipn (Z.to_nat start) s) in
      if (start + Z.of_nat size =? end_)%Z then (r, size) else (RuneError, 1).

(** [unicode.IsSpace]: the Latin-1 cases, then the [White_Space] table. *)
Definition IsSpace (r : N) : bool :=
  (if r <=? 255
   then (r =? 9) || (r =? 10) || (r =? 11) || (r =? 12) || (r =? 13)
        || (r =? 32) || (r =? 133) || (r =? 160)
   else (r =? 5760) || ((8192 <=? r) && (r <=? 8202))
        || (r =? 8232) || (r =? 8233) || (r =? 8239) || (r =? 8287)
        || (r =? 12288))%N.

End Utf8.

(* ================================================================= *)
(** ** Package [strings] *)

Module Strings.

(** [strings.HasPrefix]. *)
Fixpoint HasPrefix (s prefix : gostring) {struct prefix} : bool :=
  match prefix with
  | [] => true
  | p :: prefix' =>
    match s with
    | [] => false
    | c :: s' => Ascii.eqb c p && HasPrefix s' prefix'
    end
  end.

(** [strings.HasSuffix]:
    [len(s) >= len(suffix) && s[len(s)-len(suffix):] == suffix]. *)
Definition HasSuffix (s suffix : gostring) : bool :=
  (length suffix <=? length s)
  && eqs (skipn (length s - length suffix) s) suffix.

(** [strings.Index]: the index of the first instance of [substr] in [s];
    [None] stands for -1. *)
Fixpoint Index (s substr : gostring) : option nat :=
  if HasPrefix s substr then Some 0
  else match s with
       | [] => None
       | _ :: s' => option_map S (Index s' substr)
       end.

(** [strings.Contains]. *)
Definition Contains (s substr : gostring) : bool :=
  match Index s substr with Some _ => true | None => false end.

(** The loop of [strings.genSplit] for a non-empty separator: cut at most
    [n] times at the first instance of [sep]. *)
Fixpoint genSplit (s sep : gostring) (n : nat) : list gostring :=
  match n with
  | O => [s]
  | S n' =>
    match Index s sep with
    | None => [s]
    | Some m => firstn m s :: genSplit (skipn (m + length sep) s) sep n'
    end
  end.

(** [strings.SplitN(s, sep, n)] for [n >= 0] and a non-empty [sep]: at most
    [n] pieces, the last one the unsplit remainder. [genSplit] caps [n] at
    [len(s)+1] before it allocates. *)
Definition SplitN (s sep : gostring) (n : nat) : list gostring :=
  match n with
  | O => []
  | S k => genSplit s sep (Nat.min k (length s))
  end.

(** [strings.Split(s, sep)] for a non-empty [sep]: all the pieces; there
    are at most [len(s)+1] of them. *)
Definition Split (s sep : gostring) : list gostring :=
  genSplit s sep (length s).

(** Width of the white-space rune [s] starts with, 0 when [s] does not
    start with one. *)
Definition leadSpace (s : gostring) : nat :=
  let '(r, size) := Utf8.DecodeRuneInString s in
  if Utf8.IsSpace r then size else 0.

(** Width of the white-space rune [s] ends with, 0 when there is none. *)
Definition trailSpace (s : gostring) : nat :=
  let '(r, size) := Utf8.DecodeLastRuneInString s in
  if Utf8.IsSpace r then size else 0.

(** The scan of [TrimLeftFunc(s, unicode.IsSpace)]: runes are decoded from
    the left until one is not white space. [skip] counts the bytes of the
    current rune still to step over. *)
Fixpoint dropLeading (skip : nat) (s : gostring) : gostring :=
  match s with
  | [] => []
  | _ :: s' =>
    match skip with
    | S k => dropLeading k s'
    | O =>
      match leadSpace s with
      | O => s
      | S k => dropLeading k s'
      end
    end
  end.

(** The scan of [TrimRightFunc(s, unicode.IsSpace)] over the reversed
    string [rs]: runes are decoded from the right with
    [DecodeLastRuneInString] until one is not white space. *)
Fixpoint dropTrailing (skip : nat) (rs : gostring) : gostring :=
  match rs with
  | [] => []
  | _ :: rs' =>
    match skip with
    | S k => dropTrailing k rs'
    | O =>
      match trailSpace (rev rs) with
      | O => rs
      | S k => dropTrailing k rs'
      end
    end
  end.

Definition TrimLeftSpace (s : gostring) : gostring := dropLeading 0 s.

Definition TrimRightSpace (s : gostring) : gostring :=
  rev (dropTrailing 0 (rev s)).

(** [strings.TrimSpace]: [s] without its leading and trailing white space,
    as defined by Unicode; that is [TrimFunc(s, unicode.IsSpace)], the
    right trim of the left trim. *)
Definition TrimSpace (s : gostring) : gostring :=
  TrimRightSpace (TrimLeftSpace s).

End Strings.

Import Strings.

(* ================================================================= *)
(** ** [main.go]: constants and pure functions *)

Definition ESC : ascii := "027".

(** ANSI escape codes for colors. *)
Definition ColorGreen : gostring := ESC :: str "[32m".
Definition ColorRed : gostring := ESC :: str "[31m".
Definition ColorYellow : gostring := ESC :: str "[33m".
Definition ColorReset : gostring := ESC :: str "[0m".

(** The bracket expression of [ansiStripper]. The pattern text is
    ESC [[0-9;]*m : its first bracket is not escaped, so it opens the
    bracket expression, whose members are the bracket itself, the digits
    and the semicolon. *)
Definition ansiClass (c : ascii) : bool :=
  Ascii.eqb c "[" || Ascii.eqb c ";"
  || ((48 <=? nat_of_ascii c) && (nat_of_ascii c <=? 57)).

(** After the ESC: the number of bytes up to and including the closing [m],
    when the bytes before it all belong to the bracket expression. The
    repetition is greedy, and since [m] is not in the bracket expression
    there is at most one way to match. *)
Fixpoint ansiTail (s : gostring) : option nat :=
  match s with
  | [] => None
  | c :: s' =>
    if Ascii.eqb c "m" then Some 1
    else if ansiClass c then option_map S (ansiTail s')
    else None
  end.

(** Length of the match of [ansiStripper] anchored at the start of [s]. *)
Definition ansiMatch (s : gostring) : option nat :=
  match s with
  | c :: s' => if Ascii.eqb c ESC then option_map S (ansiTail s') else None
  | [] => None
  end.

(** The left-to-right scan of [ReplaceAllString(s, "")]: each leftmost
    match is dropped and the scan resumes after it; a byte where no match
    starts is copied. [skip] counts the bytes of the current match still to
    drop. *)
Fixpoint ansiScan (skip : nat) (s : gostring) : gostring :=
  match s with
  | [] => []
  | c :: s' =>
    match skip with
    | S k => ansiScan k s'
    | O =>
      match ansiMatch s with
      | Some (S k) => ansiScan k s'
      | _ => c :: ansiScan 0 s'
      end
    end
  end.

(** [ansiStripper.ReplaceAllString(s, "")]. *)
Definition ansiStripper_ReplaceAllString (s : gostring) : gostring :=
  ansiScan 0 s.

(** [cleanBranchName] removes color codes and merge indicators from a
    branch name. *)
Definition cleanBranchName (branchName : gostring) : gostring :=
  let cleaned := ansiStripper_ReplaceAllString branchName in
  let parts := SplitN cleaned (str " (") 2 in
  TrimSpace (nth 0 parts []).

(** [isProtectedBranch] checks if a given branch name is a protected
    branch. *)
Definition isProtectedBranch (branchName : gostring) : bool :=
  let protectedBranches := [str "main"; str "master"] in
  let parts := SplitN branchName (str "/") 2 in
  let cleanBranchName :=
    if length parts =? 2 then nth 1 parts [] else branchName in
  existsb (fun protected => eqs cleanBranchName protected) protectedBranches.

(* ================================================================= *)
(** ** The world outside the program *)

(** A Go [error] returned by [os/exec]: its text, and the exit code when
    it is an [*exec.ExitError]. *)
Record error : Type := mkError { err_text : gostring; err_exit : option Z }.

(** What [CombinedOutput] returns. *)
Definition CmdResult : Type := (gostring * option error)%type.

(** The message identifiers of the locale files. *)
Inductive MessageID : Type :=
| HelpUsage | HelpDescription | HelpFlag | HelpLangFlag
| FzfNotFound | InstallFzf | ErrorGettingRemoteBranches
| ProtectedIndicator | MergedIndicator | UnmergedIndicator
| NoRemoteBranches | DeletionCancelled | NoBranchesSelected
| ProtectedBranchSkipped | ConfirmDeletion | Branch | Remote
| ErrorDeletingBranch | BranchDeletedSuccessfully.

(** [TemplateData]: the named values a message is rendered with. *)
Definition TemplateData : Type := list (gostring * gostring).

(** What [survey.AskOne] did: it stores the answer through the pointer it
    was given, or fails and leaves the pointed variable as it was. *)
Inductive AskResult : Type :=
| Answered (answer : bool)
| AskFailed (e : error).

(** An external process started through [exec.Command], or the prompt. *)
Inductive Command : Type :=
| GitLog (ref : gostring)
| GitBranchRemote
| GitBranchMerged
| Fzf (preview : gostring) (stdin : list gostring)
| AskConfirm (message : gostring) (default : bool)
| GitPushDelete (remoteName branchName : gostring).

(** Everything the run reads from outside: the parsed flags, the
    environment, the messages of the embedded locale files (a parameter
    of the run, as the files are data and not code), and the answer of
    every external process. The merged-branch query and the delete command
    may be run several times; their answer may depend on how many times
    they were run before. *)
Record Env : Type := mkEnv {
  flag_lang : gostring;
  flag_help : bool;
  flag_get_remote_log : gostring;
  getenv_LANG : gostring;
  localize : gostring -> MessageID -> TemplateData -> gostring;
  lookPath_fzf : option error;
  os_Executable : gostring * option error;
  stdinPipe : option error;
  git_log : gostring -> option error;
  git_branch_r : CmdResult;
  git_branch_merged : nat -> CmdResult;
  fzf : gostring -> list gostring -> gostring * option error;
  survey_AskOne : AskResult;
  git_push_delete : nat -> gostring -> gostring -> CmdResult
}.

(** A call of [fmt.Println], [fmt.Printf] or [fmt.Fprintf]. *)
Inductive Print : Type :=
| Println (line : gostring)
| Printf (format : gostring) (args : list gostring).

(** What the run has done so far: what [main.go] itself wrote on its two
    streams with its print calls, and which commands it ran, oldest
    first. A child process that is handed the streams of the run (the log
    command, and fzf for its errors) writes there on its own: that text is
    not part of this record. *)
Record World : Type := mkWorld {
  stdout : list Print;
  stderr : list Print;
  trace : list Command
}.

Definition emptyWorld : World := mkWorld [] [] [].

(** A step of the program either hands on a value or ends the process
    with [os.Exit]. *)
Inductive Outcome (A : Type) : Type :=
| Done (a : A)
| Exit (code : Z).

Arguments Done {A} a.
Arguments Exit {A} code.

Definition M (A : Type) : Type := World -> Outcome A * World.

Definition ret {A} (a : A) : M A := fun w => (Done a, w).

Definition bind {A B} (m : M A) (k : A -> M B) : M B :=
  fun w =>
    match m w with
    | (Done a, w') => k a w'
    | (Exit code, w') => (Exit code, w')
    end.

Declare Scope prog_scope.
Delimit Scope prog_scope with prog.
Notation "x <- m ;; k" := (bind m (fun x => k))
  (at level 61, m at next level, right associativity) : prog_scope.
Notation "m ;; k" := (bind m (fun _ => k))
  (at level 61, right associativity) : prog_scope.
Local Open Scope prog_scope.

Definition os_Exit {A} (code : Z) : M A := fun w => (Exit code, w).

Definition print (p : Print) : M unit :=
  fun w => (Done tt, mkWorld (stdout w ++ [p]) (stderr w) (trace w)).

Definition eprint (p : Print) : M unit :=
  fun w => (Done tt, mkWorld (stdout w) (stderr w ++ [p]) (trace w)).

Definition run (c : Command) : M unit :=
  fun w => (Done tt, mkWorld (stdout w) (stderr w) (trace w ++ [c])).

Definition isMergedQuery (c : Command) : bool :=
  match c with GitBranchMerged => true | _ => false end.

Definition isDelete (c : Command) : bool :=
  match c with GitPushDelete _ _ => true | _ => false end.

(** How many commands of one kind were run so far. *)
Definition ran (kind : Command -> bool) (w : World) : nat :=
  length (filter kind (trace w)).

(** [exec.Command("git", "branch", "-r", "--merged", "HEAD").CombinedOutput()] *)
Definition gitBranchMerged (env : Env) : M CmdResult :=
  fun w => (run GitBranchMerged ;; ret (git_branch_merged env (ran isMergedQuery w))) w.

(** [exec.Command("git", "push", remoteName, "--delete", branchName).CombinedOutput()] *)
Definition gitPushDelete (env : Env) (remoteName branchName : gostring)
  : M CmdResult :=
  fun w => (run (GitPushDelete remoteName branchName) ;;
            ret (git_push_delete env (ran isDelete w) remoteName branchName)) w.

(* ================================================================= *)
(** ** [main.go]: the functions that run commands, and [main] *)

Definition newline : gostring := ["010"].

Definition isMergedToHead (env : Env) (branch : gostring) : M bool :=
  r <- gitBranchMerged env ;;
  let '(output, err) := r in
  match err with
  | Some e =>
    (* Log error but continue, as this is not critical *)
    eprint (Printf (str "Warning: Could not get merged branches: %v\n")
                   [err_text e]) ;;
    ret false
  | None =>
    let mergedBranches := Split output newline in
    ret (existsb (fun mergedBranch =>
                    eqs (TrimSpace mergedBranch) (TrimSpace branch))
                 mergedBranches)
  end.

(** [fmt.Sprintf("%s%s %s%s", color, trimmedBranch, indicator, ColorReset)] *)
Definition decorate (color trimmedBranch indicator : gostring) : gostring :=
  color ++ trimmedBranch ++ " " :: indicator ++ ColorReset.

(** The loop over [allRemoteBranches] that fills [fzfItems]; [L] is the
    localizer. *)
Fixpoint listBranches (env : Env) (L : MessageID -> TemplateData -> gostring)
    (allRemoteBranches : list gostring) (fzfItems : list gostring)
  : M (list gostring) :=
  match allRemoteBranches with
  | [] => ret fzfItems
  | branch :: rest =>
    let trimmedBranch := TrimSpace branch in
    if negb (eqs trimmedBranch [])
       && negb (HasSuffix trimmedBranch (str "/HEAD"))
    then
      ic <- (if isProtectedBranch trimmedBranch
             then ret (L ProtectedIndicator [], ColorYellow)
             else
               merged <- isMergedToHead env trimmedBranch ;;
               if merged : bool
               then ret (L MergedIndicator [], ColorGreen)
               else ret (L UnmergedIndicator [], ColorRed)) ;;
      let '(indicator, color) := ic in
      listBranches env L rest
                   (fzfItems ++ [decorate color trimmedBranch indicator])
    else listBranches env L rest fzfItems
  end.

(** The loop that cleans the selected lines and filters out the protected
    branches; it returns [(branchesToDelete, protectedBranchesSelected)]. *)
Fixpoint partitionSelected (selected : list gostring)
    (branchesToDelete protectedBranchesSelected : list gostring)
  : list gostring * list gostring :=
  match selected with
  | [] => (branchesToDelete, protectedBranchesSelected)
  | selectedItem :: rest =>
    let cleanedBranch := cleanBranchName selectedItem in
    if isProtectedBranch cleanedBranch
    then partitionSelected rest branchesToDelete
                           (protectedBranchesSelected ++ [cleanedBranch])
    else partitionSelected rest (branchesToDelete ++ [cleanedBranch])
                           protectedBranchesSelected
  end.

(** The loop that notifies the user about skipped protected branches. *)
Fixpoint notifySkipped (L : MessageID -> TemplateData -> gostring)
    (protectedBranchesSelected : list gostring) : M unit :=
  match protectedBranchesSelected with
  | [] => ret tt
  | protectedBranch :: rest =>
    print (Println (L ProtectedBranchSkipped
                      [(str "Branch", protectedBranch)])) ;;
    notifySkipped L rest
  end.

(** The rows of the confirmation table. *)
Fixpoint printRows (branchesToDelete : list gostring) : M unit :=
  match branchesToDelete with
  | [] => ret tt
  | branch :: rest =>
    let parts := SplitN branch (str "/") 2 in
    (if length parts =? 2
     then print (Printf (str "%-40s %s\n") [nth 1 parts []; nth 0 parts []])
     else print (Printf (str "%-40s %s\n") [branch; str "(unknown)"])) ;;
    printRows rest
  end.

(** The deletion loop. *)
Fixpoint deleteBranches (env : Env)
    (L : MessageID -> TemplateData -> gostring)
    (branchesToDelete : list gostring) : M unit :=
  match branchesToDelete with
  | [] => ret tt
  | branch :: rest =>
    let parts := SplitN branch (str "/") 2 in
    (if negb (length parts =? 2)
     then print (Printf (str "Skipping invalid branch format: %s\n") [branch])
     else
       let remoteName := nth 0 parts [] in
       let branchName := nth 1 parts [] in
       r <- gitPushDelete env remoteName branchName ;;
       let '(deleteOutput, err) := r in
       match err with
       | Some e =>
         print (Println (L ErrorDeletingBranch
                           [(str "Branch", branch); (str "Error", err_text e)])) ;;
         print (Println deleteOutput)
       | None =>
         print (Println (L BranchDeletedSuccessfully [(str "Branch", branch)])) ;;
         print (Println deleteOutput)
       end) ;;
    deleteBranches env L rest
  end.

(** [survey.AskOne(confirmPrompt, &confirm)]: the value of [confirm]
    afterwards. The error it returns is dropped by [main]. *)
Definition askOne (env : Env) (message : gostring) (default : bool)
    (confirm : bool) : M bool :=
  run (AskConfirm message default) ;;
  match survey_AskOne env with
  | Answered answer => ret answer
  | AskFailed _ => ret confirm
  end.

(** [main] from the confirmation display to its end. *)
Definition confirmAndDelete (env : Env)
    (L : MessageID -> TemplateData -> gostring)
    (branchesToDelete : list gostring) : M unit :=
  print (Printf (str "\n%s\n") [L ConfirmDeletion []]) ;;
  print (Printf (str "%-40s %s\n") [L Branch []; L Remote []]) ;;
  print (Println (repeat "-" 60)) ;;
  printRows branchesToDelete ;;
  print (Println (repeat "-" 60)) ;;
  (* Use survey.Confirm for final confirmation *)
  confirm <- askOne env (str "Proceed with deletion?") false false ;;
  (if negb confirm
   then print (Println (L DeletionCancelled [])) ;; os_Exit 0
   else ret tt) ;;
  (* Proceed with deletion *)
  deleteBranches env L branchesToDelete.

(** [main] from the selector's output to its end. *)
Definition planAndDelete (env : Env)
    (L : MessageID -> TemplateData -> gostring)
    (fzfStdout : gostring) : M unit :=
  let selectedBranchesStr := TrimSpace fzfStdout in
  (if eqs selectedBranchesStr []
   then print (Println (L NoBranchesSelected [])) ;; os_Exit 0
   else ret tt) ;;
  let '(branchesToDelete, protectedBranchesSelected) :=
    partitionSelected (Split selectedBranchesStr newline) [] [] in
  notifySkipped L protectedBranchesSelected ;;
  (if length branchesToDelete =? 0
   then print (Println (L NoBranchesSelected [])) ;; os_Exit 0
   else ret tt) ;;
  confirmAndDelete env L branchesToDelete.

(** The language the messages are shown in. *)
Definition selectLang (env : Env) : gostring :=
  let selectedLang :=
    if negb (eqs (flag_lang env) []) then flag_lang env
    else if Contains (getenv_LANG env) (str "ja") then str "ja"
    else str "en" in
  (* Fallback to English if the selected language is not explicitly supported *)
  if negb (eqs selectedLang (str "ja")) then str "en" else selectedLang.

(** [main] from the check of [fzfItems] to its end: the selector is run
    on the items and its output handed on. *)
Definition selectAndDelete (env : Env)
    (L : MessageID -> TemplateData -> gostring)
    (fzfItems : list gostring) : M unit :=
  (if length fzfItems =? 0
   then print (Println (L NoRemoteBranches [])) ;; os_Exit 0
   else ret tt) ;;
  (* Prepare fzf command *)
  let '(executablePath, err) := os_Executable env in
  match err with
  | Some e =>
    eprint (Printf (str "Error getting executable path: %v\n") [err_text e]) ;;
    os_Exit 1
  | None =>
    let preview := executablePath ++ str " -get-remote-log {}" in
    match stdinPipe env with
    | Some e =>
      eprint (Printf (str "Error creating stdin pipe for fzf: %v\n")
                     [err_text e]) ;;
      os_Exit 1
    | None =>
      (* Run fzf; the items are written to its standard input *)
      run (Fzf preview fzfItems) ;;
      let '(fzfStdout, err) := fzf env preview fzfItems in
      match err with
      | Some e =>
        match err_exit e with
        | Some 130%Z =>
          (* User cancelled (Ctrl+C or Esc) *)
          print (Println (L DeletionCancelled [])) ;; os_Exit 0
        | _ =>
          eprint (Printf (str "Error running fzf: %v\n") [err_text e]) ;;
          os_Exit 1
        end
      | None => planAndDelete env L fzfStdout
      end
    end
  end.

(** [main] from the listing of the remote branches to its end. *)
Definition manageBranches (env : Env)
    (L : MessageID -> TemplateData -> gostring) : M unit :=
  (* Get all remote branches *)
  run GitBranchRemote ;;
  let '(output, err) := git_branch_r env in
  match err with
  | Some e =>
    print (Println (L ErrorGettingRemoteBranches [(str "Error", err_text e)])) ;;
    os_Exit 1
  | None =>
    let allRemoteBranches := Split output newline in
    fzfItems <- listBranches env L allRemoteBranches [] ;;
    selectAndDelete env L fzfItems
  end.

(** [main], from the return of [flag.Parse] on: the flags of [env] are the
    parsed ones. *)
Definition main (env : Env) : M unit :=
  let L := localize env (selectLang env) in
  (* Handle internal fzf preview request *)
  (if negb (eqs (flag_get_remote_log env) [])
   then
     let cleanName := cleanBranchName (flag_get_remote_log env) in
     run (GitLog cleanName) ;;
     match git_log env cleanName with
     | Some e =>
       eprint (Printf (str "Error getting log for %s: %v\n")
                      [cleanName; err_text e]) ;;
       os_Exit 1
     | None => os_Exit 0
     end
   else ret tt) ;;
  (if flag_help env
   then
     print (Printf (str "%s\n\n%s\n\nOptions:\n  -h, --help    %s\n  -lang string  %s\n")
                   [L HelpUsage []; L HelpDescription []; L HelpFlag [];
                    L HelpLangFlag []]) ;;
     os_Exit 0
   else ret tt) ;;
  (* Check if fzf is installed *)
  match lookPath_fzf env with
  | Some _ =>
    print (Println (L FzfNotFound [])) ;;
    print (Println (L InstallFzf [])) ;;
    os_Exit 1
  | None => manageBranches env L
  end.

(** The exit status of the process: the code given to [os.Exit], or 0 when
    [main] returns. *)
Definition exitStatus (r : Outcome unit * World) : Z :=
  match fst r with Done _ => 0%Z | Exit code => code end.

(* ================================================================= *)
(** ** Notions the properties are stated with *)

(** The name portion of a branch argument: what follows its first "/"
    separator, or the whole argument when it has no separator. *)
Inductive NamePortion : gostring -> gostring -> Prop :=
| NamePortion_after (remote name : gostring) :
    ~ In "/" remote -> NamePortion (remote ++ "/" :: name) name
| NamePortion_whole (b : gostring) :
    ~ In "/" b -> NamePortion b b.

(** The candidate branches of a raw listing: the trimmed lines that are
    not blank and do not end in "/HEAD", in the order of the listing. *)
Definition candidates (lines : list gostring) : list gostring :=
  filter (fun trimmed => negb (eqs trimmed [])
                         && negb (HasSuffix trimmed (str "/HEAD")))
         (map TrimSpace lines).

(** The membership test of the merged-branch query: [branch] is, up to
    surrounding white space, one of the lines of [output]. *)
Definition mergedIn (output branch : gostring) : bool :=
  existsb (fun line => eqs (TrimSpace line) (TrimSpace branch))
          (Split output newline).

(** The three statuses and how each one is shown. *)
Inductive BranchStatus : Type := Protected | Merged | Unmerged.

Definition decorated (L : MessageID -> TemplateData -> gostring)
    (status : BranchStatus) (branch : gostring) : gostring :=
  match status with
  | Protected => decorate ColorYellow branch (L ProtectedIndicator [])
  | Merged => decorate ColorGreen branch (L MergedIndicator [])
  | Unmerged => decorate ColorRed branch (L UnmergedIndicator [])
  end.

(** The statuses of the candidates when the merged-branch query is run
    anew for every candidate that is not protected; [n] queries were run
    before. A query that fails gives Unmerged. *)
Fixpoint statuses (env : Env) (n : nat) (cands : list gostring)
  : list BranchStatus :=
  match cands with
  | [] => []
  | b :: rest =>
    if isProtectedBranch b then Protected :: statuses env n rest
    else
      (match git_branch_merged env n with
       | (output, None) => if mergedIn output b then Merged else Unmerged
       | (_, Some _) => Unmerged
       end) :: statuses env (S n) rest
  end.

(** The decorated lines of the candidates. *)
Definition classified (env : Env)
    (L : MessageID -> TemplateData -> gostring) (n : nat)
    (cands : list gostring) : list gostring :=
  map (fun p => decorated L (fst p) (snd p))
      (combine (statuses env n cands) cands).

(** The warnings of the queries that failed. *)
Fixpoint warnings (env : Env) (n : nat) (cands : list gostring)
  : list Print :=
  match cands with
  | [] => []
  | b :: rest =>
    if isProtectedBranch b then warnings env n rest
    else
      match snd (git_branch_merged env n) with
      | Some e =>
        Printf (str "Warning: Could not get merged branches: %v\n")
               [err_text e] :: warnings env (S n) rest
      | None => warnings env (S n) rest
      end
  end.

(** The candidates that are not protected: those the query is run for. *)
Definition unprotected (cands : list gostring) : list gostring :=
  filter (fun b => negb (isProtectedBranch b)) cands.

(** The run gets as far as listing the remote branches. *)
Definition reachesListing (env : Env) : bool :=
  eqs (flag_get_remote_log env) [] && negb (flag_help env)
  && match lookPath_fzf env with None => true | Some _ => false end
  && match snd (git_branch_r env) with None => true | Some _ => false end.

(** A step of the program that only runs commands of the kind [P]. *)
Definition adds {A} (P : Command -> bool) (m : M A) : Prop :=
  forall w, exists cs,
      trace (snd (m w)) = trace w ++ cs /\ forallb P cs = true.

(** The delete commands of a trace. *)
Definition deletes (w : World) : list Command := filter isDelete (trace w).

(** The delete command of a branch to delete, when the branch has a remote
    and a name. *)
Definition deleteCommand (branch : gostring) : list Command :=
  match SplitN branch (str "/") 2 with
  | [remoteName; branchName] => [GitPushDelete remoteName branchName]
  | _ => []
  end.

(** The rows of the confirmation table. *)
Definition tableRow (branch : gostring) : Print :=
  let parts := SplitN branch (str "/") 2 in
  if length parts =? 2
  then Printf (str "%-40s %s\n") [nth 1 parts []; nth 0 parts []]
  else Printf (str "%-40s %s\n") [branch; str "(unknown)"].

(** The confirmation table. *)
Definition confirmationTable (L : MessageID -> TemplateData -> gostring)
    (branchesToDelete : list gostring) : list Print :=
  [Printf (str "\n%s\n") [L ConfirmDeletion []];
   Printf (str "%-40s %s\n") [L Branch []; L Remote []];
   Println (repeat "-" 60)]
  ++ map tableRow branchesToDelete
  ++ [Println (repeat "-" 60)].

(** The prompt. *)
Definition thePrompt : Command :=
  AskConfirm (str "Proceed with deletion?") false.

(** What the deletion loop writes, when [n] delete commands were run
    before: for every branch with a remote and a name, the message for the
    outcome of its own delete command and then the output of that
    command. *)
Fixpoint deletionReport (env : Env)
    (L : MessageID -> TemplateData -> gostring) (n : nat)
    (branchesToDelete : list gostring) : list Print :=
  match branchesToDelete with
  | [] => []
  | branch :: rest =>
    match SplitN branch (str "/") 2 with
    | [remoteName; branchName] =>
      match git_push_delete env n remoteName branchName with
      | (deleteOutput, Some e) =>
        [Println (L ErrorDeletingBranch
                    [(str "Branch", branch); (str "Error", err_text e)]);
         Println deleteOutput]
      | (deleteOutput, None) =>
        [Println (L BranchDeletedSuccessfully [(str "Branch", branch)]);
         Println deleteOutput]
      end ++ deletionReport env L (S n) rest
    | _ =>
      Printf (str "Skipping invalid branch format: %s\n") [branch]
      :: deletionReport env L n rest
    end
  end.

(** The same outside world with another answer to the prompt. *)
Definition withAnswer (env : Env) (answer : AskResult) : Env :=
  mkEnv (flag_lang env) (flag_help env) (flag_get_remote_log env)
        (getenv_LANG env) (localize env) (lookPath_fzf env)
        (os_Executable env) (stdinPipe env) (git_log env)
        (git_branch_r env) (git_branch_merged env) (fzf env)
        answer (git_push_delete env).

(** *** Sample worlds *)

(** The identifier of a message. *)
Definition messageName (id : MessageID) : gostring :=
  match id with
  | HelpUsage => str "HelpUsage"
  | HelpDescription => str "HelpDescription"
  | HelpFlag => str "HelpFlag"
  | HelpLangFlag => str "HelpLangFlag"
  | FzfNotFound => str "FzfNotFound"
  | InstallFzf => str "InstallFzf"
  | ErrorGettingRemoteBranches => str "ErrorGettingRemoteBranches"
  | ProtectedIndicator => str "ProtectedIndicator"
  | MergedIndicator => str "MergedIndicator"
  | UnmergedIndicator => str "UnmergedIndicator"
  | NoRemoteBranches => str "NoRemoteBranches"
  | DeletionCancelled => str "DeletionCancelled"
  | NoBranchesSelected => str "NoBranchesSelected"
  | ProtectedBranchSkipped => str "ProtectedBranchSkipped"
  | ConfirmDeletion => str "ConfirmDeletion"
  | Branch => str "Branch"
  | Remote => str "Remote"
  | ErrorDeletingBranch => str "ErrorDeletingBranch"
  | BranchDeletedSuccessfully => str "BranchDeletedSuccessfully"
  end.

(** A localizer with the three indicators of the README, "(merged)",
    "(unmerged)" and "(protected)"; the other messages are shown by their
    identifier. *)
Definition sampleLocalize (lang : gostring) (id : MessageID)
    (data : TemplateData) : gostring :=
  match id with
  | ProtectedIndicator => str "(protected)"
  | MergedIndicator => str "(merged)"
  | UnmergedIndicator => str "(unmerged)"
  | _ => messageName id
  end.

(** A selector whose user selects every line. *)
Definition selectAll (preview : gostring) (items : list gostring)
  : gostring * option error :=
  (concat (map (fun item => item ++ newline) items), None).

(** A world with no flags set, where the listing prints [listing], the
    n-th merged-branch query answers [merged n], the user selects every
    line and answers [answer], and the n-th delete command answers
    [push n]. *)
Definition sampleEnv (listing : gostring) (merged : nat -> CmdResult)
    (answer : AskResult) (push : nat -> CmdResult) : Env :=
  mkEnv [] false [] (str "en_US.UTF-8") sampleLocalize None
        (str "/usr/local/bin/git-remote-branch-manager", None) None
        (fun _ => None) (listing, None) merged selectAll answer
        (fun n _ _ => push n).

Definition exitError (code : Z) : error :=
  mkError (str "exit status " ++ [ascii_of_nat (48 + Z.to_nat code)])
          (Some code).

(** The scenario of the end-to-end example: the remote has main and
    feature-x, feature-x is merged, the user selects both lines and
    answers yes, and the delete command succeeds. *)
Definition scenarioEnv : Env :=
  sampleEnv (str "  origin/main\n  origin/feature-x\n")
            (fun _ => (str "  origin/main\n  origin/feature-x\n", None))
            (Answered true)
            (fun _ => (str " - [deleted]         feature-x\n", None)).

(** A world with two branches that are not protected. *)
Definition twoBranchesEnv : Env :=
  sampleEnv (str "  origin/a\n  origin/b\n")
            (fun _ => (str "  origin/a\n", None))
            (Answered false)
            (fun _ => ([], None)).

(** A world where the merged-branch query fails. *)
Definition failingQueryEnv : Env :=
  sampleEnv (str "  origin/main\n  origin/a\n  origin/b\n")
            (fun _ => (str "fatal: not a git repository\n",
                       Some (exitError 128)))
            (Answered false)
            (fun _ => ([], None)).

(** A world where the prompt fails, its input being closed. *)
Definition closedInputEnv : Env :=
  sampleEnv (str "  origin/a\n  origin/b\n")
            (fun _ => (str "  origin/a\n", None))
            (AskFailed (mkError (str "EOF") None))
            (fun _ => ([], None)).

(** A world where the first delete command fails and the later ones
    succeed. *)
Definition firstDeleteFailsEnv : Env :=
  sampleEnv (str "  origin/a\n  origin/b\n")
            (fun _ => (str "  origin/a\n  origin/b\n", None))
            (Answered true)
            (fun n => if n =? 0
                      then (str "error: unable to delete 'a': remote ref does not exist\n",
                            Some (exitError 1))
                      else (str " - [deleted]         b\n", None)).

(** Any command but the prompt. *)
Definition notPrompt (c : Command) : bool :=
  match c with AskConfirm _ _ => false | _ => true end.

(** The prompt was run. *)
Definition prompted (w : World) : Prop :=
  exists message default, In (AskConfirm message default) (trace w).

(** A step of the program that either runs no prompt or is, from some
    point on, the confirmation of a list of branches to delete. *)
Definition viaConfirm (env : Env)
    (L : MessageID -> TemplateData -> gostring) (m : M unit) : Prop :=
  forall w, ~ prompted w ->
            ~ prompted (snd (m w))
            \/ exists branchesToDelete w',
                m w = confirmAndDelete env L branchesToDelete w'
                /\ branchesToDelete <> [].

(* ================================================================= *)
(** ** [getRemoteBranchDetail] *)

Record BranchDetail : Type := mkBranchDetail {
  Name : gostring;
  Hash : gostring;
  Author : gostring;
  Date : gostring;
  Message : gostring
}.

(** The two errors [getRemoteBranchDetail] makes with [fmt.Errorf]:
    "git log failed: %w\n%s" of the error and the output, and
    "unexpected git log output: %s" of the output. *)
Inductive DetailError : Type :=
| GitLogFailed (err : error) (output : gostring)
| UnexpectedOutput (output : gostring).

(** [getRemoteBranchDetail]; [git_log_1 ref] is what
    [exec.Command("git", "log", "-1", "--pretty=format:%H%n%an%n%ad%n%s", ref).CombinedOutput()]
    returns. *)
Definition getRemoteBranchDetail (git_log_1 : gostring -> CmdResult)
    (branchName : gostring) : BranchDetail + DetailError :=
  let cleanName := cleanBranchName branchName in
  let '(output, err) := git_log_1 cleanName in
  match err with
  | Some e => inr (GitLogFailed e output)
  | None =>
    let lines := Split (TrimSpace output) newline in
    if length lines <? 4
    then inr (UnexpectedOutput output)
    else inl (mkBranchDetail cleanName (nth 0 lines []) (nth 1 lines [])
                             (nth 2 lines []) (nth 3 lines []))
  end.

(** *** Notions the further properties are stated with *)

(** The world after more was written on the standard output, on the
    standard error, or more commands were run. *)
Definition addOut (w : World) (ps : list Print) : World :=
  mkWorld (stdout w ++ ps) (stderr w) (trace w).

Definition addErr (w : World) (ps : list Print) : World :=
  mkWorld (stdout w) (stderr w ++ ps) (trace w).

Definition addCmd (w : World) (cs : list Command) : World :=
  mkWorld (stdout w) (stderr w) (trace w ++ cs).

Definition isFzf (c : Command) : bool :=
  match c with Fzf _ _ => true | _ => false end.

Definition isPrompt (c : Command) : bool :=
  match c with AskConfirm _ _ => true | _ => false end.

(** The notice of a skipped protected branch. *)
Definition skipNotice (L : MessageID -> TemplateData -> gostring)
    (protectedBranch : gostring) : Print :=
  Println (L ProtectedBranchSkipped [(str "Branch", protectedBranch)]).

(** The number of line breaks of a string. *)
Definition lineBreaks (s : gostring) : nat :=
  count_occ ascii_dec s "010".

(** A delete command that names a protected branch. *)
Definition deletesProtected (c : Command) : bool :=
  match c with
  | GitPushDelete _ branchName =>
    eqs branchName (str "main") || eqs branchName (str "master")
  | _ => false
  end.

(** *** The runs of [main] *)

(** The localizer of a run. *)
Definition localizer (env : Env) : MessageID -> TemplateData -> gostring :=
  localize env (selectLang env).

(** The candidates of the listing of a run. *)
Definition listingCandidates (env : Env) : list gostring :=
  candidates (Split (fst (git_branch_r env)) newline).

(** The world after the listing loop. *)
Definition listedWorld (env : Env) : World :=
  mkWorld [] (warnings env 0 (listingCandidates env))
          (GitBranchRemote
           :: repeat GitBranchMerged
                     (length (unprotected (listingCandidates env)))).

(** The lines given to the selector and its preview command. *)
Definition selectorItems (env : Env) : list gostring :=
  classified env (localizer env) 0 (listingCandidates env).

Definition previewCommand (env : Env) : gostring :=
  fst (os_Executable env) ++ str " -get-remote-log {}".

(** The world after the selector was run, and what was selected. *)
Definition selectedWorld (env : Env) : World :=
  addCmd (listedWorld env) [Fzf (previewCommand env) (selectorItems env)].

Definition selectorResult (env : Env) : gostring * option error :=
  fzf env (previewCommand env) (selectorItems env).

Definition selection (env : Env) : gostring :=
  TrimSpace (fst (selectorResult env)).

(** The branches to delete and the protected branches skipped. *)
Definition toDelete (env : Env) : list gostring :=
  fst (partitionSelected (Split (selection env) newline) [] []).

Definition skipped (env : Env) : list gostring :=
  snd (partitionSelected (Split (selection env) newline) [] []).

(** The world after the notices, and after the prompt. *)
Definition plannedWorld (env : Env) : World :=
  addOut (selectedWorld env) (map (skipNotice (localizer env)) (skipped env)).

Definition promptedWorld (env : Env) : World :=
  mkWorld (stdout (plannedWorld env)
           ++ confirmationTable (localizer env) (toDelete env))
          (stderr (plannedWorld env))
          (trace (plannedWorld env) ++ [thePrompt]).

(** How far a run gets. *)
Definition reachesSelector (env : Env) : Prop :=
  reachesListing env = true /\ listingCandidates env <> []
  /\ snd (os_Executable env) = None /\ stdinPipe env = None.

Definition reachesPlan (env : Env) : Prop :=
  reachesSelector env /\ snd (selectorResult env) = None.

Definition reachesPrompt (env : Env) : Prop :=
  reachesPlan env /\ selection env <> [] /\ toDelete env <> [].

(** The ways [main] runs, each with how the run ends. *)
Inductive Run (env : Env) : Outcome unit * World -> Prop :=
| Run_log (r : option error) :
    flag_get_remote_log env <> [] ->
    git_log env (cleanBranchName (flag_get_remote_log env)) = r ->
    Run env
        (match r with
         | None =>
           (Exit 0%Z,
            mkWorld [] [] [GitLog (cleanBranchName (flag_get_remote_log env))])
         | Some e =>
           (Exit 1%Z,
            mkWorld [] [Printf (str "Error getting log for %s: %v\n")
                               [cleanBranchName (flag_get_remote_log env);
                                err_text e]]
                    [GitLog (cleanBranchName (flag_get_remote_log env))])
         end)
| Run_help :
    flag_get_remote_log env = [] -> flag_help env = true ->
    Run env
        (Exit 0%Z,
         mkWorld [Printf (str "%s\n\n%s\n\nOptions:\n  -h, --help    %s\n  -lang string  %s\n")
                         [localizer env HelpUsage [];
                          localizer env HelpDescription [];
                          localizer env HelpFlag [];
                          localizer env HelpLangFlag []]] [] [])
| Run_no_fzf (e : error) :
    flag_get_remote_log env = [] -> flag_help env = false ->
    lookPath_fzf env = Some e ->
    Run env
        (Exit 1%Z,
         mkWorld [Println (localizer env FzfNotFound []);
                  Println (localizer env InstallFzf [])] [] [])
| Run_listing_failed (e : error) :
    flag_get_remote_log env = [] -> flag_help env = false ->
    lookPath_fzf env = None -> snd (git_branch_r env) = Some e ->
    Run env
        (Exit 1%Z,
         mkWorld [Println (localizer env ErrorGettingRemoteBranches
                                     [(str "Error", err_text e)])]
                 [] [GitBranchRemote])
| Run_no_branches :
    reachesListing env = true -> listingCandidates env = [] ->
    Run env
        (Exit 0%Z,
         addOut (listedWorld env) [Println (localizer env NoRemoteBranches [])])
| Run_no_executable (e : error) :
    reachesListing env = true -> listingCandidates env <> [] ->
    snd (os_Executable env) = Some e ->
    Run env
        (Exit 1%Z,
         addErr (listedWorld env)
                [Printf (str "Error getting executable path: %v\n") [err_text e]])
| Run_no_pipe (e : error) :
    reachesListing env = true -> listingCandidates env <> [] ->
    snd (os_Executable env) = None -> stdinPipe env = Some e ->
    Run env
        (Exit 1%Z,
         addErr (listedWorld env)
                [Printf (str "Error creating stdin pipe for fzf: %v\n")
                        [err_text e]])
| Run_selector_cancelled (e : error) :
    reachesSelector env -> snd (selectorResult env) = Some e ->
    err_exit e = Some 130%Z ->
    Run env
        (Exit 0%Z,
         addOut (selectedWorld env)
                [Println (localizer env DeletionCancelled [])])
| Run_selector_failed (e : error) :
    reachesSelector env -> snd (selectorResult env) = Some e ->
    err_exit e <> Some 130%Z ->
    Run env
        (Exit 1%Z,
         addErr (selectedWorld env)
                [Printf (str "Error running fzf: %v\n") [err_text e]])
| Run_nothing_selected :
    reachesPlan env -> selection env = [] ->
    Run env
        (Exit 0%Z,
         addOut (selectedWorld env)
                [Println (localizer env NoBranchesSelected [])])
| Run_nothing_to_delete :
    reachesPlan env -> selection env <> [] -> toDelete env = [] ->
    Run env
        (Exit 0%Z,
         addOut (plannedWorld env)
                [Println (localizer env NoBranchesSelected [])])
| Run_not_confirmed :
    reachesPrompt env -> survey_AskOne env <> Answered true ->
    Run env
        (Exit 0%Z,
         addOut (promptedWorld env)
                [Println (localizer env DeletionCancelled [])])
| Run_deleted :
    reachesPrompt env -> survey_AskOne env = Answered true ->
    Run env
        (Done tt,
         mkWorld (stdout (promptedWorld env)
                  ++ deletionReport env (localizer env) 0 (toDelete env))
                 (stderr (promptedWorld env))
                 (trace (promptedWorld env)
                  ++ flat_map deleteCommand (toDelete env))).

(** *** More sample worlds *)

(** The same outside world with other flags, another selector, or without
    fzf. *)
Definition withFlags (env : Env) (help : bool) (log : gostring) : Env :=
  mkEnv (flag_lang env) help log
        (getenv_LANG env) (localize env) (lookPath_fzf env)
        (os_Executable env) (stdinPipe env) (git_log env)
        (git_branch_r env) (git_branch_merged env) (fzf env)
        (survey_AskOne env) (git_push_delete env).

Definition withSelector (env : Env)
    (selector : gostring -> list gostring -> gostring * option error) : Env :=
  mkEnv (flag_lang env) (flag_help env) (flag_get_remote_log env)
        (getenv_LANG env) (localize env) (lookPath_fzf env)
        (os_Executable env) (stdinPipe env) (git_log env)
        (git_branch_r env) (git_branch_merged env) selector
        (survey_AskOne env) (git_push_delete env).

Definition withoutFzf (env : Env) : Env :=
  mkEnv (flag_lang env) (flag_help env) (flag_get_remote_log env)
        (getenv_LANG env) (localize env)
        (Some (mkError (str "exec: fzf: executable file not found in $PATH") None))
        (os_Executable env) (stdinPipe env) (git_log env)
        (git_branch_r env) (git_branch_merged env) (fzf env)
        (survey_AskOne env) (git_push_delete env).

(** A world where the preview of the line of origin/feature-x is asked
    for. *)
Definition previewEnv : Env :=
  withFlags scenarioEnv false
            (decorate ColorGreen (str "origin/feature-x") (str "(merged)")).

(** A world where the merged-branch query fails the first time it is run
    and succeeds afterwards, when it reports origin/a and origin/b as
    merged. *)
Definition transientFailureEnv : Env :=
  sampleEnv (str "  origin/a\n  origin/b\n")
            (fun n => if n =? 0
                      then (str "fatal: unable to read tree\n",
                            Some (exitError 1))
                      else (str "  origin/a\n  origin/b\n", None))
            (Answered false)
            (fun _ => ([], None)).

(** A world where the user leaves the selector with Esc. *)
Definition cancelledEnv : Env :=
  withSelector scenarioEnv
               (fun _ _ => ([], Some (mkError (str "exit status 130")
                                              (Some 130%Z)))).

(** A world where the remote has main and master only. *)
Definition onlyProtectedEnv : Env :=
  sampleEnv (str "  origin/main\n  origin/master\n")
            (fun _ => (str "  origin/main\n", None))
            (Answered true)
            (fun _ => ([], None)).

(** A world where the listing has the pointer of the remote only, as a
    line that ends in "/HEAD". *)
Definition emptyListingEnv : Env :=
  sampleEnv (str "\n  origin/HEAD\n")
            (fun _ => ([], None))
            (Answered true)
            (fun _ => ([], None)).

(* ================================================================= *)
(** * Properties *)

(** ** Strings *)

Section StringFacts.

Lemma eqs_eq (a b : gostring) : eqs a b = true <-> a = b.
Proof.
  revert b; induction a as [|c a IH]; intros [|d b]; simpl;
    try (split; [discriminate | discriminate]); [tauto|].
  rewrite andb_true_iff, Ascii.eqb_eq, IH.
  split; [intros [-> ->]; reflexivity | intros H; inversion H; auto].
Qed.

Lemma eqs_refl (a : gostring) : eqs a a = true.
Proof. apply eqs_eq; reflexivity. Qed.

Lemma eqs_neq (a b : gostring) : eqs a b = false <-> a <> b.
Proof.
  rewrite <- eqs_eq. destruct (eqs a b); split; congruence.
Qed.

Lemma HasPrefix_iff (s p : gostring) :
  HasPrefix s p = true <-> exists t, s = p ++ t.
Proof.
  revert s; induction p as [|c p IH]; intros s; simpl.
  - split; [intros _; exists s; reflexivity | reflexivity].
  - destruct s as [|d s].
    + split; [discriminate | intros [t H]; discriminate].
    + rewrite andb_true_iff, Ascii.eqb_eq, IH. split.
      * intros [-> [t ->]]. exists t; reflexivity.
      * intros [t H]; inversion H; subst. split; [reflexivity | exists t; reflexivity].
Qed.

Lemma HasPrefix_nil_l (p : gostring) : p <> [] -> HasPrefix [] p = false.
Proof. destruct p; [congruence | reflexivity]. Qed.

(** [Index] finds the first position where [sep] starts. *)
Lemma Index_Some (s sep : gostring) (m : nat) :
  Index s sep = Some m ->
  m <= length s /\ HasPrefix (skipn m s) sep = true
  /\ forall j, j < m -> HasPrefix (skipn j s) sep = false.
Proof.
  revert m; induction s as [|c s IH]; intros m; simpl.
  - destruct (HasPrefix [] sep) eqn:E; [|discriminate].
    intros H; inversion H; subst. repeat split; auto. intros j Hj; lia.
  - destruct (HasPrefix (c :: s) sep) eqn:E.
    + intros H; inversion H; subst. repeat split; auto; [lia | intros j Hj; lia].
    + destruct (Index s sep) as [k|] eqn:Ek; simpl; [|discriminate].
      intros H; inversion H; subst.
      destruct (IH k eq_refl) as (Hle & Hp & Hmin).
      repeat split; [lia | exact Hp |].
      intros [|j] Hj; simpl; [exact E | apply Hmin; lia].
Qed.

Lemma Index_None (s sep : gostring) :
  Index s sep = None -> forall j, HasPrefix (skipn j s) sep = false.
Proof.
  induction s as [|c s IH]; simpl.
  - destruct (HasPrefix [] sep) eqn:E; [discriminate|].
    intros _ j. rewrite skipn_nil. exact E.
  - destruct (HasPrefix (c :: s) sep) eqn:E; [discriminate|].
    destruct (Index s sep) eqn:Ek; simpl; [discriminate|].
    intros _ [|j]; simpl; [exact E | apply IH; reflexivity].
Qed.

(** Conversely, the first position where [sep] starts is what [Index]
    returns. *)
Lemma Index_first (s sep : gostring) (m : nat) :
  HasPrefix (skipn m s) sep = true ->
  (forall j, j < m -> HasPrefix (skipn j s) sep = false) ->
  m <= length s ->
  Index s sep = Some m.
Proof.
  revert m; induction s as [|c s IH]; intros m Hp Hmin Hle; simpl in *.
  - assert (m = 0) by lia; subst. simpl in Hp. rewrite Hp. reflexivity.
  - destruct m as [|m].
    + simpl in Hp. rewrite Hp. reflexivity.
    + pose proof (Hmin 0 ltac:(lia)) as H0; simpl in H0; rewrite H0.
      rewrite (IH m); [reflexivity | exact Hp | | lia].
      intros j Hj. apply (Hmin (S j)). lia.
Qed.

Lemma Index_absent (s sep : gostring) :
  (forall j, HasPrefix (skipn j s) sep = false) -> Index s sep = None.
Proof.
  induction s as [|c s IH]; intros H; simpl.
  - pose proof (H 0) as H0; simpl in H0; rewrite H0. reflexivity.
  - pose proof (H 0) as H0; simpl in H0; rewrite H0. rewrite IH; [reflexivity|].
    intros j. apply (H (S j)).
Qed.

(** [SplitN(s, sep, 2)]: cut once at the first [sep], if there is one. *)
Lemma SplitN_2 (s sep : gostring) :
  sep <> [] ->
  SplitN s sep 2 =
  match Index s sep with
  | Some m => [firstn m s; skipn (m + length sep) s]
  | None => [s]
  end.
Proof.
  intros Hsep. unfold SplitN. destruct s as [|c s].
  - simpl. rewrite HasPrefix_nil_l by exact Hsep. reflexivity.
  - replace (Nat.min 1 (length (c :: s))) with 1 by (simpl; lia).
    cbn [genSplit]. destruct (Index (c :: s) sep); reflexivity.
Qed.

(** A one-byte separator starts exactly where that byte is. *)
Lemma Index_byte_absent (s : gostring) (c : ascii) :
  ~ In c s -> Index s [c] = None.
Proof.
  induction s as [|d s IH]; intros Hn; simpl; [reflexivity|].
  destruct (Ascii.eqb_spec d c) as [->|Hdc]; simpl.
  - exfalso; apply Hn; left; reflexivity.
  - rewrite IH; [reflexivity | intros Hin; apply Hn; right; exact Hin].
Qed.

Lemma Index_byte_first (r t : gostring) (c : ascii) :
  ~ In c r -> Index (r ++ c :: t) [c] = Some (length r).
Proof.
  induction r as [|d r IH]; intros Hn; simpl.
  - rewrite Ascii.eqb_refl. reflexivity.
  - destruct (Ascii.eqb_spec d c) as [->|Hdc]; simpl.
    + exfalso; apply Hn; left; reflexivity.
    + rewrite IH; [reflexivity | intros Hin; apply Hn; right; exact Hin].
Qed.

Lemma Index_byte_Some (s : gostring) (c : ascii) (m : nat) :
  Index s [c] = Some m ->
  exists r t, s = r ++ c :: t /\ ~ In c r /\ m = length r.
Proof.
  revert m; induction s as [|d s IH]; intros m; simpl; [discriminate|].
  destruct (Ascii.eqb_spec d c) as [->|Hdc]; simpl.
  - intros H; inversion H; subst. exists [], s. auto.
  - destruct (Index s [c]) as [k|] eqn:Ek; simpl; [|discriminate].
    intros H; inversion H; subst.
    destruct (IH k eq_refl) as (r & t & -> & Hn & ->).
    exists (d :: r), t. repeat split; auto.
    intros [->|Hin]; [congruence | auto].
Qed.

Lemma Index_byte_None (s : gostring) (c : ascii) :
  Index s [c] = None -> ~ In c s.
Proof.
  induction s as [|d s IH]; simpl; [auto|].
  destruct (Ascii.eqb_spec d c) as [->|Hdc]; simpl; [discriminate|].
  destruct (Index s [c]) eqn:Ek; simpl; [discriminate|].
  intros _ [->|Hin]; [congruence | exact (IH eq_refl Hin)].
Qed.

End StringFacts.

Lemma Some_ne_None {A} (a : A) : Some a <> None.
Proof. discriminate. Qed.

(** ** [isProtectedBranch] *)

Section Protected.

Lemma NamePortion_compute (b n : gostring) :
  NamePortion b n ->
  (if length (SplitN b (str "/") 2) =? 2
   then nth 1 (SplitN b (str "/") 2) [] else b) = n.
Proof.
  intros H. rewrite SplitN_2 by discriminate.
  destruct H as [r n Hr|b Hb].
  - change (str "/") with ["/"]. rewrite (Index_byte_first r n "/" Hr).
    simpl. rewrite skipn_app.
    replace (length r + 1 - length r) with 1 by lia.
    rewrite skipn_all2 by lia. reflexivity.
  - change (str "/") with ["/"]. rewrite (Index_byte_absent b "/" Hb).
    reflexivity.
Qed.

(** The name [isProtectedBranch] compares is the name portion. *)
Lemma SplitN_slash_name (b : gostring) :
  NamePortion b
    (if length (SplitN b (str "/") 2) =? 2
     then nth 1 (SplitN b (str "/") 2) [] else b).
Proof.
  rewrite SplitN_2 by discriminate.
  destruct (Index b (str "/")) as [m|] eqn:E.
  - apply Index_byte_Some in E. destruct E as (r & t & -> & Hr & ->).
    simpl. rewrite skipn_app.
    replace (length r + 1 - length r) with 1 by lia.
    rewrite skipn_all2 by lia. simpl.
    apply NamePortion_after. exact Hr.
  - simpl. apply NamePortion_whole. apply Index_byte_None. exact E.
Qed.

(** C5. [isProtectedBranch] returns true exactly when the portion of its
    argument after the first "/" (the whole argument when there is no "/")
    is, byte for byte, "main" or "master"; so it holds of "origin/main" and
    of "main", and not of "origin/main2". *)
Theorem isProtectedBranch_iff :
  (forall b : gostring,
      isProtectedBranch b = true <->
      exists name, NamePortion b name
                   /\ (name = str "main" \/ name = str "master"))
  /\ isProtectedBranch (str "origin/main") = true
  /\ isProtectedBranch (str "origin/main2") = false
  /\ isProtectedBranch (str "main") = true.
Proof.
  split; [|repeat split; reflexivity].
  intros b. unfold isProtectedBranch.
  pose proof (SplitN_slash_name b) as Hn.
  set (name := if length (SplitN b (str "/") 2) =? 2
               then nth 1 (SplitN b (str "/") 2) [] else b) in *.
  cbn [existsb]. rewrite orb_false_r, orb_true_iff, !eqs_eq.
  split.
  - intros H. exists name. split; assumption.
  - intros (n & Hn' & H). subst name.
    rewrite (NamePortion_compute _ _ Hn'). exact H.
Qed.

End Protected.

(** ** The color-code pattern *)

Section AnsiFacts.

Lemma ansiTail_bound (s : gostring) (n : nat) :
  ansiTail s = Some n -> 1 <= n <= length s.
Proof.
  revert n; induction s as [|c s IH]; intros n; simpl; [discriminate|].
  destruct (Ascii.eqb c "m").
  - intros H; inversion H; lia.
  - destruct (ansiClass c); [|discriminate].
    destruct (ansiTail s) as [k|]; simpl; [|discriminate].
    intros H; inversion H; subst. specialize (IH k eq_refl). lia.
Qed.

Lemma ansiMatch_bound (s : gostring) (n : nat) :
  ansiMatch s = Some n -> 2 <= n <= length s.
Proof.
  destruct s as [|c s]; simpl; [discriminate|].
  destruct (Ascii.eqb c ESC); [|discriminate].
  destruct (ansiTail s) as [k|] eqn:E; simpl; [|discriminate].
  intros H; inversion H; subst. apply ansiTail_bound in E. lia.
Qed.

(** Skipping the rest of a match is dropping that many bytes. *)
Lemma ansiScan_skip (k : nat) (s : gostring) :
  ansiScan k s = ansiScan 0 (skipn k s).
Proof.
  revert k; induction s as [|c s IH]; intros [|k]; try reflexivity.
  simpl skipn. rewrite <- IH. reflexivity.
Qed.

(** One step of the scan. *)
Lemma ansiScan_step (c : ascii) (s : gostring) :
  ansiScan 0 (c :: s) =
  match ansiMatch (c :: s) with
  | Some n => ansiScan 0 (skipn n (c :: s))
  | None => c :: ansiScan 0 s
  end.
Proof.
  cbn [ansiScan]. destruct (ansiMatch (c :: s)) as [[|k]|] eqn:E.
  - apply ansiMatch_bound in E. lia.
  - simpl skipn. apply ansiScan_skip.
  - reflexivity.
Qed.

Lemma ansiScan_length (k : nat) (s : gostring) :
  length (ansiScan k s) <= length s - k.
Proof.
  revert k; induction s as [|c s IH]; intros k; [simpl; lia|].
  destruct k as [|k]; cbn [ansiScan].
  - destruct (ansiMatch (c :: s)) as [[|n]|]; cbn [length].
    + specialize (IH 0); lia.
    + specialize (IH n); lia.
    + specialize (IH 0); lia.
  - cbn [length]. specialize (IH k). lia.
Qed.

(** A string the scan leaves as it is has no match at its start, and the
    scan leaves its tail as it is. *)
Lemma ansiScan_fixed_cons (c : ascii) (s : gostring) :
  ansiScan 0 (c :: s) = c :: s ->
  ansiMatch (c :: s) = None /\ ansiScan 0 s = s.
Proof.
  intros H. rewrite ansiScan_step in H.
  destruct (ansiMatch (c :: s)) as [n|] eqn:E.
  - exfalso. apply ansiMatch_bound in E.
    pose proof (ansiScan_length 0 (skipn n (c :: s))) as L.
    rewrite H, length_skipn in L. cbn [length] in *. lia.
  - split; [reflexivity | congruence].
Qed.

(** A match never extends over a space. *)
Lemma ansiTail_space (s t : gostring) :
  ansiTail s = None -> ansiTail (s ++ " " :: t) = None.
Proof.
  induction s as [|c s IH]; simpl; [reflexivity|].
  destruct (Ascii.eqb c "m"); [discriminate|].
  destruct (ansiClass c); [|reflexivity].
  destruct (ansiTail s); simpl; [discriminate|].
  intros _. rewrite IH; reflexivity.
Qed.

Lemma ansiMatch_space (s t : gostring) :
  s <> [] -> ansiMatch s = None -> ansiMatch (s ++ " " :: t) = None.
Proof.
  destruct s as [|c s]; [congruence|]. intros _. simpl.
  destruct (Ascii.eqb c ESC); [|reflexivity].
  destruct (ansiTail s) eqn:E; simpl; [discriminate|].
  intros _. rewrite ansiTail_space by exact E. reflexivity.
Qed.

(** The scan copies a string without color codes that is followed by a
    space, and goes on after the space. *)
Lemma ansiScan_fixed_space (b t : gostring) :
  ansiScan 0 b = b ->
  ansiScan 0 (b ++ " " :: t) = b ++ " " :: ansiScan 0 t.
Proof.
  induction b as [|c b IH]; intros H.
  - reflexivity.
  - apply ansiScan_fixed_cons in H. destruct H as [Hm Hb].
    change ((c :: b) ++ " " :: t) with (c :: (b ++ " " :: t)).
    rewrite ansiScan_step.
    change (c :: (b ++ " " :: t)) with ((c :: b) ++ " " :: t).
    rewrite ansiMatch_space by (congruence || exact Hm).
    rewrite IH by exact Hb. reflexivity.
Qed.

(** The scan drops each of the three color codes. *)
Lemma ansiScan_color (color t : gostring) :
  In color [ColorGreen; ColorRed; ColorYellow] ->
  ansiScan 0 (color ++ t) = ansiScan 0 t.
Proof.
  intros [<-|[<-|[<-|[]]]]; reflexivity.
Qed.

End AnsiFacts.

(** ** White space *)

Section TrimFacts.

Lemma first_size (b : N) (sz : nat) (lo hi : N) :
  Utf8.first b = Some (sz, lo, hi) -> sz = 2 \/ sz = 3 \/ sz = 4.
Proof.
  unfold Utf8.first.
  repeat match goal with
         | |- context [if ?c then _ else _] => destruct c
         end; intros H; inversion H; auto.
Qed.

Ltac decode_error :=
  let D := fresh "D" in
  intros D; exfalso; revert D;
  repeat match goal with
         | |- context [if ?c then _ else _] => destruct c
         end;
  intros D; inversion D; congruence.

(** A rune that decodes without error decodes the same when more bytes
    follow. *)
Lemma DecodeRuneInString_app (r t : gostring) (x : N) (n : nat) :
  Utf8.DecodeRuneInString r = (x, n) -> x <> Utf8.RuneError ->
  Utf8.DecodeRuneInString (r ++ t) = (x, n).
Proof.
  intros D Hx.
  destruct r as [|c0 r]; [inversion D; congruence|].
  revert D. cbn [app]. unfold Utf8.DecodeRuneInString.
  destruct (Utf8.byte c0 <? Utf8.RuneSelf)%N; [auto|].
  destruct (Utf8.first (Utf8.byte c0)) as [[[sz lo] hi]|] eqn:F; [|auto].
  apply first_size in F.
  destruct r as [|c1 r].
  - destruct F as [F|[F|F]]; subst sz; cbn; decode_error.
  - cbn [app].
    destruct ((Utf8.byte c1 <? lo)%N || (hi <? Utf8.byte c1)%N).
    + destruct F as [F|[F|F]]; subst sz; cbn; first [solve [auto] | decode_error].
    + destruct F as [F|[F|F]]; subst sz.
      * cbn; auto.
      * destruct r as [|c2 r]; [cbn; decode_error|]. cbn. auto.
      * destruct r as [|c2 r]; [cbn; decode_error|].
        destruct r as [|c3 r]; [cbn; decode_error|]. cbn. auto.
Qed.

Lemma leadSpace_app (r t : gostring) (k : nat) :
  leadSpace r = S k -> leadSpace (r ++ t) = S k.
Proof.
  unfold leadSpace.
  destruct (Utf8.DecodeRuneInString r) as [x n] eqn:D.
  destruct (Utf8.IsSpace x) eqn:I; [|discriminate].
  intros ->. rewrite (DecodeRuneInString_app r t x (S k) D).
  - rewrite I. reflexivity.
  - intros ->. discriminate.
Qed.

Lemma leadSpace_nil : leadSpace [] = 0.
Proof. reflexivity. Qed.

Lemma trailSpace_nil : trailSpace [] = 0.
Proof. reflexivity. Qed.

(** The left trim is a suffix that starts with no white space. *)
Lemma dropLeading_suffix (n : nat) (s : gostring) :
  exists k, dropLeading n s = skipn k s.
Proof.
  revert n; induction s as [|c s IH]; intros n.
  - exists 0; reflexivity.
  - cbn [dropLeading]. destruct n as [|n].
    + destruct (leadSpace (c :: s)) as [|m].
      * exists 0; reflexivity.
      * destruct (IH m) as [k Hk]. exists (S k). exact Hk.
    + destruct (IH n) as [k Hk]. exists (S k). exact Hk.
Qed.

Lemma dropLeading_done (n : nat) (s : gostring) :
  leadSpace (dropLeading n s) = 0.
Proof.
  revert n; induction s as [|c s IH]; intros n.
  - reflexivity.
  - cbn [dropLeading]. destruct n as [|n]; [|apply IH].
    destruct (leadSpace (c :: s)) as [|m] eqn:E; [exact E | apply IH].
Qed.

Lemma TrimLeftSpace_id (s : gostring) :
  leadSpace s = 0 -> TrimLeftSpace s = s.
Proof.
  unfold TrimLeftSpace. destruct s as [|c s]; [reflexivity|].
  intros H. cbn [dropLeading]. rewrite H. reflexivity.
Qed.

(** The right trim is a prefix that ends with no white space. *)
Lemma dropTrailing_suffix (n : nat) (rs : gostring) :
  exists k, dropTrailing n rs = skipn k rs.
Proof.
  revert n; induction rs as [|c rs IH]; intros n.
  - exists 0; reflexivity.
  - cbn [dropTrailing]. destruct n as [|n].
    + destruct (trailSpace (rev (c :: rs))) as [|m].
      * exists 0; reflexivity.
      * destruct (IH m) as [k Hk]. exists (S k). exact Hk.
    + destruct (IH n) as [k Hk]. exists (S k). exact Hk.
Qed.

Lemma dropTrailing_done (n : nat) (rs : gostring) :
  trailSpace (rev (dropTrailing n rs)) = 0.
Proof.
  revert n; induction rs as [|c rs IH]; intros n.
  - reflexivity.
  - cbn [dropTrailing]. destruct n as [|n]; [|apply IH].
    destruct (trailSpace (rev (c :: rs))) as [|m] eqn:E; [exact E | apply IH].
Qed.

Lemma TrimRightSpace_prefix (s : gostring) :
  exists k, TrimRightSpace s = firstn k s.
Proof.
  unfold TrimRightSpace.
  destruct (dropTrailing_suffix 0 (rev s)) as [k ->].
  exists (length s - k). rewrite skipn_rev, rev_involutive. reflexivity.
Qed.

Lemma TrimRightSpace_id (s : gostring) :
  trailSpace s = 0 -> TrimRightSpace s = s.
Proof.
  unfold TrimRightSpace. intros H.
  destruct (rev s) as [|c rs] eqn:E.
  - apply (f_equal (@rev ascii)) in E. rewrite rev_involutive in E. subst; reflexivity.
  - cbn [dropTrailing]. rewrite <- E, rev_involutive, H, rev_involutive.
    reflexivity.
Qed.

(** The trimmed string is a contiguous piece of the string. *)
Lemma TrimSpace_piece (s : gostring) :
  exists i k, TrimSpace s = firstn k (skipn i s).
Proof.
  unfold TrimSpace, TrimLeftSpace.
  destruct (dropLeading_suffix 0 s) as [i ->].
  destruct (TrimRightSpace_prefix (skipn i s)) as [k ->].
  exists i, k; reflexivity.
Qed.

(** The trimmed string neither starts nor ends with white space. *)
Lemma TrimSpace_done (s : gostring) :
  leadSpace (TrimSpace s) = 0 /\ trailSpace (TrimSpace s) = 0.
Proof.
  unfold TrimSpace. split.
  - destruct (TrimRightSpace_prefix (TrimLeftSpace s)) as [k Hk].
    destruct (leadSpace (TrimRightSpace (TrimLeftSpace s))) as [|m] eqn:E;
      [reflexivity|].
    exfalso.
    apply (leadSpace_app _ (skipn k (TrimLeftSpace s))) in E.
    rewrite Hk, firstn_skipn in E.
    unfold TrimLeftSpace in E. rewrite dropLeading_done in E. discriminate.
  - unfold TrimRightSpace. apply dropTrailing_done.
Qed.

(** A string that neither starts nor ends with white space is left as it
    is. *)
Lemma TrimSpace_id (s : gostring) :
  leadSpace s = 0 -> trailSpace s = 0 -> TrimSpace s = s.
Proof.
  intros Hl Hr. unfold TrimSpace.
  rewrite TrimLeftSpace_id by exact Hl. apply TrimRightSpace_id. exact Hr.
Qed.

Lemma TrimSpace_idempotent (s : gostring) :
  TrimSpace (TrimSpace s) = TrimSpace s.
Proof.
  destruct (TrimSpace_done s) as [Hl Hr]. apply TrimSpace_id; assumption.
Qed.

End TrimFacts.

(** ** [cleanBranchName] *)

Section CleanFacts.

Lemma skipn_app_le {A} (j : nat) (l1 l2 : list A) :
  j <= length l1 -> skipn j (l1 ++ l2) = skipn j l1 ++ l2.
Proof.
  intros H. rewrite skipn_app. replace (j - length l1) with 0 by lia.
  reflexivity.
Qed.

(** Pieces of a string without [sep] are without [sep]. *)
Lemma Index_None_skipn (p sep : gostring) (i : nat) :
  Index p sep = None -> Index (skipn i p) sep = None.
Proof.
  intros H. apply Index_absent. intros j. rewrite skipn_skipn.
  apply Index_None. exact H.
Qed.

Lemma Index_None_firstn (p sep : gostring) (k : nat) :
  sep <> [] -> Index p sep = None -> Index (firstn k p) sep = None.
Proof.
  intros Hsep H. apply Index_absent. intros j.
  destruct (HasPrefix (skipn j (firstn k p)) sep) eqn:E; [|reflexivity].
  exfalso. apply HasPrefix_iff in E. destruct E as [t E].
  destruct (le_lt_dec j (length (firstn k p))) as [Hj|Hj].
  - pose proof (Index_None p sep H j) as N.
    rewrite <- (firstn_skipn k p), skipn_app_le, E in N by exact Hj.
    rewrite <- app_assoc in N.
    assert (HasPrefix (sep ++ t ++ skipn k p) sep = true) as P
      by (apply HasPrefix_iff; eexists; reflexivity).
    congruence.
  - rewrite skipn_all2 in E by lia. destruct sep; [congruence | discriminate].
Qed.

Lemma Index_Some_firstn (s sep : gostring) (m : nat) :
  sep <> [] -> Index s sep = Some m -> Index (firstn m s) sep = None.
Proof.
  intros Hsep H. apply Index_Some in H. destruct H as (Hle & Hp & Hmin).
  apply Index_absent. intros j.
  destruct (HasPrefix (skipn j (firstn m s)) sep) eqn:E; [|reflexivity].
  exfalso. apply HasPrefix_iff in E. destruct E as [t E].
  assert (Hlen : length (skipn j (firstn m s)) = length sep + length t)
    by (rewrite E, length_app; reflexivity).
  rewrite length_skipn, length_firstn in Hlen.
  assert (0 < length sep) by (destruct sep; [congruence | simpl; lia]).
  assert (Hj : j < m) by lia.
  pose proof (Hmin j Hj) as N.
  rewrite <- (firstn_skipn m s), skipn_app_le, E, <- app_assoc in N
    by (rewrite length_firstn; lia).
  assert (HasPrefix (sep ++ t ++ skipn m s) sep = true) as P
    by (apply HasPrefix_iff; eexists; reflexivity).
  congruence.
Qed.

(** The first part of a split has no separator in it. *)
Lemma SplitN_2_first (s sep : gostring) :
  sep <> [] -> Index (nth 0 (SplitN s sep 2) []) sep = None.
Proof.
  intros Hsep. rewrite SplitN_2 by exact Hsep.
  destruct (Index s sep) as [m|] eqn:E; simpl.
  - apply Index_Some_firstn; assumption.
  - exact E.
Qed.

Lemma SplitN_2_none (s sep : gostring) :
  sep <> [] -> Index s sep = None -> nth 0 (SplitN s sep 2) [] = s.
Proof.
  intros Hsep H. rewrite SplitN_2, H by exact Hsep. reflexivity.
Qed.

(** The first " (" of a string without " (" that is followed by " (" is
    the one that follows it. *)
Lemma HasPrefix_paren_app (u z : gostring) :
  u <> [] -> HasPrefix u (str " (") = false ->
  HasPrefix (u ++ " " :: z) (str " (") = false.
Proof.
  destruct u as [|c [|d u]]; [congruence | |]; intros _; simpl.
  - intros _. destruct (Ascii.eqb c " "); reflexivity.
  - auto.
Qed.

Lemma Index_paren_app (b w : gostring) :
  Index b (str " (") = None ->
  Index (b ++ " " :: "(" :: w) (str " (") = Some (length b).
Proof.
  intros H. apply Index_first.
  - rewrite skipn_app_le, skipn_all by lia. reflexivity.
  - intros j Hj. rewrite skipn_app_le by lia.
    apply HasPrefix_paren_app.
    + intros E. apply (f_equal (@length ascii)) in E.
      rewrite length_skipn in E. simpl in E. lia.
    + apply Index_None. exact H.
  - rewrite length_app. lia.
Qed.

(** Stripping the decoration of a line gives back the branch it was made
    from, when the branch is trimmed, has no color code and no " (" in it,
    and the indicator starts with a parenthesis. *)
Lemma clean_decorate (b rest color : gostring) :
  TrimSpace b = b ->
  ansiStripper_ReplaceAllString b = b ->
  Index b (str " (") = None ->
  In color [ColorGreen; ColorRed; ColorYellow] ->
  cleanBranchName (decorate color b ("(" :: rest)) = b.
Proof.
  intros Ht Ha Hp Hc. unfold cleanBranchName, decorate,
    ansiStripper_ReplaceAllString in *.
  rewrite ansiScan_color by exact Hc.
  rewrite ansiScan_fixed_space by exact Ha.
  change (("(" :: rest) ++ ColorReset) with ("(" :: (rest ++ ColorReset)).
  rewrite ansiScan_step. cbn [ansiMatch]. 
  change (Ascii.eqb "(" ESC) with false. cbv iota.
  rewrite SplitN_2 by discriminate.
  rewrite Index_paren_app by exact Hp.
  cbn [nth]. rewrite firstn_app, Nat.sub_diag, firstn_all, firstn_O, app_nil_r.
  exact Ht.
Qed.

(** A string is free of color codes when the scan leaves it as it is;
    that is when no match starts anywhere in it. *)
Lemma ansiScan_fixed_iff (s : gostring) :
  ansiScan 0 s = s <-> forall j, ansiMatch (skipn j s) = None.
Proof.
  induction s as [|c s IH].
  - split; [intros _ j; rewrite skipn_nil; reflexivity | reflexivity].
  - split.
    + intros H. apply ansiScan_fixed_cons in H. destruct H as [Hm Hs].
      intros [|j]; [exact Hm | simpl; apply IH; exact Hs].
    + intros H. rewrite ansiScan_step.
      pose proof (H 0) as H0; cbn [skipn] in H0. rewrite H0.
      f_equal. apply IH. intros j. apply (H (S j)).
Qed.

Lemma ansiTail_app (s t : gostring) (n : nat) :
  ansiTail s = Some n -> ansiTail (s ++ t) = Some n.
Proof.
  revert n; induction s as [|c s IH]; intros n; simpl; [discriminate|].
  destruct (Ascii.eqb c "m"); [auto|].
  destruct (ansiClass c); [|discriminate].
  destruct (ansiTail s) as [k|]; simpl; [|discriminate].
  intros H. rewrite (IH k eq_refl). exact H.
Qed.

Lemma ansiMatch_app (s t : gostring) (n : nat) :
  ansiMatch s = Some n -> ansiMatch (s ++ t) = Some n.
Proof.
  destruct s as [|c s]; simpl; [discriminate|].
  destruct (Ascii.eqb c ESC); [|discriminate].
  destruct (ansiTail s) as [k|] eqn:E; simpl; [|discriminate].
  intros H. rewrite (ansiTail_app s t k E). exact H.
Qed.

(** Pieces of a string without color codes are without color codes. *)
Lemma ansiScan_fixed_piece (s : gostring) (i k : nat) :
  ansiScan 0 s = s ->
  ansiScan 0 (firstn k (skipn i s)) = firstn k (skipn i s).
Proof.
  rewrite !ansiScan_fixed_iff. intros H j.
  destruct (ansiMatch (skipn j (firstn k (skipn i s)))) as [n|] eqn:E;
    [|reflexivity].
  exfalso.
  destruct (le_lt_dec j (length (firstn k (skipn i s)))) as [Hj|Hj].
  - apply (ansiMatch_app _ (skipn k (skipn i s))) in E.
    rewrite <- skipn_app_le, firstn_skipn, skipn_skipn in E by exact Hj.
    rewrite H in E. discriminate.
  - rewrite skipn_all2 in E by lia. discriminate.
Qed.

(** The scan shortens every string it changes. *)
Lemma ansiScan_length_fixed (s : gostring) :
  length (ansiScan 0 s) = length s -> ansiScan 0 s = s.
Proof.
  induction s as [|c s IH]; [reflexivity|].
  rewrite ansiScan_step.
  destruct (ansiMatch (c :: s)) as [n|] eqn:E.
  - apply ansiMatch_bound in E.
    pose proof (ansiScan_length 0 (skipn n (c :: s))) as L.
    rewrite length_skipn in L. cbn [length] in *. lia.
  - cbn [length]. intros H. f_equal. apply IH. lia.
Qed.

Lemma TrimSpace_length (s : gostring) : length (TrimSpace s) <= length s.
Proof.
  destruct (TrimSpace_piece s) as (i & k & ->).
  rewrite length_firstn, length_skipn. lia.
Qed.

Lemma SplitN_2_first_length (s sep : gostring) :
  sep <> [] -> length (nth 0 (SplitN s sep 2) []) <= length s.
Proof.
  intros Hsep. rewrite SplitN_2 by exact Hsep.
  destruct (Index s sep); simpl; [rewrite length_firstn|]; lia.
Qed.

(** The cleaned name is a piece of the stripped name, trimmed and without
    " (". *)
Lemma cleanBranchName_piece (x : gostring) :
  exists i k,
    cleanBranchName x =
    firstn k (skipn i (ansiStripper_ReplaceAllString x)).
Proof.
  unfold cleanBranchName.
  set (cleaned := ansiStripper_ReplaceAllString x).
  destruct (TrimSpace_piece (nth 0 (SplitN cleaned (str " (") 2) []))
    as (i & k & ->).
  rewrite SplitN_2 by discriminate.
  destruct (Index cleaned (str " (")) as [m|]; simpl.
  - exists i, (Nat.min k (m - i)).
    rewrite skipn_firstn_comm, firstn_firstn. reflexivity.
  - exists i, k. reflexivity.
Qed.

Lemma cleanBranchName_no_paren (x : gostring) :
  Index (cleanBranchName x) (str " (") = None.
Proof.
  unfold cleanBranchName.
  destruct (TrimSpace_piece
              (nth 0 (SplitN (ansiStripper_ReplaceAllString x) (str " (") 2) []))
    as (i & k & ->).
  apply Index_None_firstn; [discriminate|].
  apply Index_None_skipn. apply SplitN_2_first. discriminate.
Qed.

(** Cleaning a cleaned name that has no color code changes nothing. *)
Lemma clean_clean_fixed (x : gostring) :
  ansiStripper_ReplaceAllString (cleanBranchName x) = cleanBranchName x ->
  cleanBranchName (cleanBranchName x) = cleanBranchName x.
Proof.
  intros H. unfold cleanBranchName at 1. rewrite H.
  rewrite SplitN_2_none by (discriminate || apply cleanBranchName_no_paren).
  unfold cleanBranchName. apply TrimSpace_idempotent.
Qed.

End CleanFacts.

(** C3. Cleaning twice is cleaning once exactly when the cleaned name has
    no color code left in it, which holds whenever stripping the color
    codes of the argument once leaves none. *)
Theorem cleanBranchName_idempotent_iff (x : gostring) :
  (cleanBranchName (cleanBranchName x) = cleanBranchName x <->
   ansiStripper_ReplaceAllString (cleanBranchName x) = cleanBranchName x)
  /\ (ansiStripper_ReplaceAllString (ansiStripper_ReplaceAllString x)
      = ansiStripper_ReplaceAllString x ->
      cleanBranchName (cleanBranchName x) = cleanBranchName x).
Proof.
  split; [split|].
  - intros H. apply ansiScan_length_fixed.
    apply Nat.le_antisymm; [pose proof (ansiScan_length 0 (cleanBranchName x)); lia|].
    rewrite <- H at 1. unfold cleanBranchName at 1.
    etransitivity; [apply TrimSpace_length|].
    apply SplitN_2_first_length. discriminate.
  - apply clean_clean_fixed.
  - intros H. apply clean_clean_fixed.
    destruct (cleanBranchName_piece x) as (i & k & ->).
    apply ansiScan_fixed_piece. exact H.
Qed.

Lemma cleanBranchName_idempotent_iff_witness :
  let x := ColorGreen ++ str "  origin/foo (merged)" ++ ColorReset in
  cleanBranchName (cleanBranchName x) = cleanBranchName x.
Proof.
  refine (proj2 (cleanBranchName_idempotent_iff
                   (ColorGreen ++ str "  origin/foo (merged)" ++ ColorReset))
                _).
  vm_compute. reflexivity.
Defined.

(** C3, as stated: cleaning is not idempotent on a string in which removing
    one color code puts another one together. *)
Lemma cleanBranchName_not_idempotent :
  let x := [ESC; ESC; "m"; "m"] in
  cleanBranchName (cleanBranchName x) <> cleanBranchName x.
Proof. vm_compute. discriminate. Qed.

(** C4. The decoration of a branch is undone by [cleanBranchName] when the
    branch is trimmed, contains no color code and no " (", and the status
    indicator starts with a parenthesis. *)
Theorem decoration_reversible (b indicator rest color : gostring) :
  TrimSpace b = b ->
  ansiStripper_ReplaceAllString b = b ->
  Index b (str " (") = None ->
  indicator = "(" :: rest ->
  In color [ColorGreen; ColorRed; ColorYellow] ->
  cleanBranchName (decorate color b indicator) = b.
Proof.
  intros Ht Ha Hp -> Hc. apply clean_decorate; assumption.
Qed.

Lemma decoration_reversible_witness :
  cleanBranchName (decorate ColorGreen (str "origin/feature-x") (str "(merged)"))
  = str "origin/feature-x".
Proof.
  apply (decoration_reversible (str "origin/feature-x") (str "(merged)")
                               (str "merged)") ColorGreen);
    [reflexivity | reflexivity | reflexivity | reflexivity | simpl; auto].
Defined.

(** C4, as stated: a trimmed line with a color code of its own, or with
    " (" in it, is not recovered from its decoration. *)
Lemma decoration_not_reversible :
  let colored := ESC :: str "[31morigin/foo" ++ ESC :: str "[m" in
  let paren := str "origin/a (b" in
  (TrimSpace colored = colored
   /\ cleanBranchName (decorate ColorRed colored (str "(unmerged)")) <> colored)
  /\ (TrimSpace paren = paren
      /\ cleanBranchName (decorate ColorRed paren (str "(unmerged)")) <> paren).
Proof. vm_compute. repeat split; discriminate. Qed.

(** ** The program and its world *)

Section WorldFacts.

Variable env : Env.
Variable L : MessageID -> TemplateData -> gostring.

Lemma ran_app (kind : Command -> bool) (w : World) (so se : list Print)
    (cs : list Command) :
  ran kind (mkWorld so se (trace w ++ cs)) = ran kind w + length (filter kind cs).
Proof. unfold ran. simpl. rewrite filter_app, length_app. reflexivity. Qed.

(** One merged-branch query: the command is run, and the answer is tested
    for the branch or, when the command failed, a warning is written. *)
Lemma isMergedToHead_spec (branch : gostring) (w : World) :
  isMergedToHead env branch w =
  match git_branch_merged env (ran isMergedQuery w) with
  | (output, None) =>
    (Done (mergedIn output branch),
     mkWorld (stdout w) (stderr w) (trace w ++ [GitBranchMerged]))
  | (_, Some e) =>
    (Done false,
     mkWorld (stdout w)
             (stderr w ++ [Printf (str "Warning: Could not get merged branches: %v\n")
                                  [err_text e]])
             (trace w ++ [GitBranchMerged]))
  end.
Proof.
  unfold isMergedToHead, gitBranchMerged, bind, run, ret, eprint.
  destruct (git_branch_merged env (ran isMergedQuery w)) as [output [e|]];
    reflexivity.
Qed.

Lemma candidates_cons (line : gostring) (lines : list gostring) :
  candidates (line :: lines) =
  if negb (eqs (TrimSpace line) [])
     && negb (HasSuffix (TrimSpace line) (str "/HEAD"))
  then TrimSpace line :: candidates lines
  else candidates lines.
Proof. reflexivity. Qed.

(** The listing loop never ends the run; it decorates the candidates in
    order, runs one query for each candidate that is not protected and
    writes one warning for each query that failed. *)
Lemma listBranches_spec (lines : list gostring) :
  forall (fzfItems : list gostring) (w : World),
    listBranches env L lines fzfItems w =
    (Done (fzfItems
           ++ classified env L (ran isMergedQuery w) (candidates lines)),
     mkWorld (stdout w)
             (stderr w ++ warnings env (ran isMergedQuery w) (candidates lines))
             (trace w ++ repeat GitBranchMerged
                               (length (unprotected (candidates lines))))).
Proof.
  induction lines as [|line lines IH]; intros items [so se tr].
  - unfold classified; simpl. rewrite !app_nil_r. reflexivity.
  - rewrite candidates_cons. cbn [listBranches].
    destruct (negb (eqs (TrimSpace line) [])
              && negb (HasSuffix (TrimSpace line) (str "/HEAD"))).
    + unfold bind at 1. unfold classified, unprotected.
      cbn [statuses warnings combine map filter].
      destruct (isProtectedBranch (TrimSpace line)) eqn:Hp; cbn [negb].
      * unfold ret at 1. cbv iota beta. rewrite IH.
        rewrite <- app_assoc. reflexivity.
      * unfold bind at 1. rewrite isMergedToHead_spec.
        set (n := ran isMergedQuery (mkWorld so se tr)).
        destruct (git_branch_merged env n) as [output [e|]] eqn:Eq;
          cbn [snd fst]; cbv iota beta.
        -- unfold ret at 1. cbv iota beta. rewrite IH.
           rewrite (ran_app isMergedQuery (mkWorld so se tr)).
           fold n. cbn [trace stdout stderr filter isMergedQuery length repeat].
           replace (n + 1) with (S n) by lia.
           rewrite <- !app_assoc. reflexivity.
        -- destruct (mergedIn output (TrimSpace line)); unfold ret at 1;
             cbv iota beta; rewrite IH;
             rewrite (ran_app isMergedQuery (mkWorld so se tr));
             fold n; cbn [trace stdout stderr filter isMergedQuery length repeat];
             replace (n + 1) with (S n) by lia;
             rewrite <- !app_assoc; reflexivity.
    + apply IH.
Qed.

Lemma classified_length (n : nat) (cands : list gostring) :
  length (classified env L n cands) = length cands.
Proof.
  unfold classified. rewrite length_map, length_combine.
  assert (H : forall m, length (statuses env m cands) = length cands).
  { induction cands as [|b cands IH]; intros m; simpl; [reflexivity|].
    destruct (isProtectedBranch b); simpl; rewrite IH; reflexivity. }
  rewrite H. lia.
Qed.

End WorldFacts.

(** ** Confirmation and deletion *)

Section StageFacts.

Variable env : Env.
Variable L : MessageID -> TemplateData -> gostring.

Lemma printRows_spec (bs : list gostring) :
  forall w, printRows bs w =
            (Done tt, mkWorld (stdout w ++ map tableRow bs) (stderr w) (trace w)).
Proof.
  induction bs as [|b bs IH]; intros [so se tr].
  - simpl. rewrite app_nil_r. reflexivity.
  - cbn [printRows map]. unfold bind at 1. unfold tableRow at 1.
    destruct (length (SplitN b (str "/") 2) =? 2); unfold print at 1;
      rewrite IH; cbn [stdout stderr trace]; rewrite <- app_assoc; reflexivity.
Qed.

Lemma notifySkipped_spec (bs : list gostring) :
  forall w, notifySkipped L bs w =
            (Done tt,
             mkWorld (stdout w
                      ++ map (fun b => Println (L ProtectedBranchSkipped
                                                  [(str "Branch", b)])) bs)
                     (stderr w) (trace w)).
Proof.
  induction bs as [|b bs IH]; intros [so se tr].
  - simpl. rewrite app_nil_r. reflexivity.
  - cbn [notifySkipped map]. unfold bind at 1. unfold print at 1.
    rewrite IH. cbn [stdout stderr trace]. rewrite <- app_assoc. reflexivity.
Qed.

(** Up to the prompt: the table is shown and the prompt is run. *)
Lemma confirmAndDelete_spec (bs : list gostring) (w : World) :
  confirmAndDelete env L bs w =
  let w1 := mkWorld (stdout w ++ confirmationTable L bs) (stderr w)
                    (trace w ++ [thePrompt]) in
  match survey_AskOne env with
  | Answered true => deleteBranches env L bs w1
  | _ =>
    (Exit 0%Z,
     mkWorld (stdout w1 ++ [Println (L DeletionCancelled [])])
             (stderr w1) (trace w1))
  end.
Proof.
  destruct w as [so se tr].
  unfold confirmAndDelete, askOne, confirmationTable.
  unfold bind, print, run. rewrite printRows_spec.
  destruct (survey_AskOne env) as [[|]|e];
    cbn [stdout stderr trace ret negb os_Exit];
    rewrite <- ?app_assoc; cbn [app]; rewrite <- ?app_assoc; reflexivity.
Qed.

Lemma confirmAndDelete_cancel (bs : list gostring) (w : World) :
  survey_AskOne env <> Answered true ->
  confirmAndDelete env L bs w =
  (Exit 0%Z,
   mkWorld (stdout w ++ confirmationTable L bs
                   ++ [Println (L DeletionCancelled [])])
           (stderr w) (trace w ++ [thePrompt])).
Proof.
  intros H. rewrite confirmAndDelete_spec. cbv zeta.
  cbn [stdout stderr trace]. rewrite <- app_assoc.
  destruct (survey_AskOne env) as [[|]|e]; [congruence | reflexivity..].
Qed.

End StageFacts.

(** ** Which commands a step of the program runs *)

Section Adds.

Variable env : Env.
Variable L : MessageID -> TemplateData -> gostring.
Variable P : Command -> bool.

Lemma adds_ret {A} (a : A) : adds P (ret a).
Proof. intros w. exists []. simpl. rewrite app_nil_r. auto. Qed.

Lemma adds_exit {A} (code : Z) : adds P (@os_Exit A code).
Proof. intros w. exists []. simpl. rewrite app_nil_r. auto. Qed.

Lemma adds_print (p : Print) : adds P (print p).
Proof. intros w. exists []. simpl. rewrite app_nil_r. auto. Qed.

Lemma adds_eprint (p : Print) : adds P (eprint p).
Proof. intros w. exists []. simpl. rewrite app_nil_r. auto. Qed.

Lemma adds_run (c : Command) : P c = true -> adds P (run c).
Proof. intros H w. exists [c]. simpl. rewrite H. auto. Qed.

Lemma adds_bind {A B} (m : M A) (k : A -> M B) :
  adds P m -> (forall a, adds P (k a)) -> adds P (bind m k).
Proof.
  intros Hm Hk w. destruct (Hm w) as (cs & E & F). unfold bind.
  destruct (m w) as [[a|code] w1]; simpl in E.
  - destruct (Hk a w1) as (cs' & E' & F'). exists (cs ++ cs').
    rewrite E', E, app_assoc, forallb_app, F, F'. auto.
  - exists cs. auto.
Qed.

Lemma adds_if {A} (b : bool) (m1 m2 : M A) :
  adds P m1 -> adds P m2 -> adds P (if b then m1 else m2).
Proof. destruct b; auto. Qed.

Ltac adds_auto :=
  repeat match goal with
         | |- adds _ (ret _) => apply adds_ret
         | |- adds _ (os_Exit _) => apply adds_exit
         | |- adds _ (print _) => apply adds_print
         | |- adds _ (eprint _) => apply adds_eprint
         | |- adds _ (if _ then _ else _) => apply adds_if
         | |- adds _ (bind _ _) => apply adds_bind; [|intros ?]
         end.

Lemma adds_notifySkipped (bs : list gostring) : adds P (notifySkipped L bs).
Proof. induction bs as [|b bs IH]; cbn [notifySkipped]; adds_auto. exact IH. Qed.

Lemma adds_printRows (bs : list gostring) : adds P (printRows bs).
Proof. induction bs as [|b bs IH]; cbn [printRows]; adds_auto. exact IH. Qed.

Lemma adds_gitBranchMerged : P GitBranchMerged = true -> adds P (gitBranchMerged env).
Proof.
  intros H w. exists [GitBranchMerged]. simpl. rewrite H. auto.
Qed.

Lemma adds_gitPushDelete (r n : gostring) :
  P (GitPushDelete r n) = true -> adds P (gitPushDelete env r n).
Proof.
  intros H w. exists [GitPushDelete r n]. simpl. rewrite H. auto.
Qed.

Lemma adds_deleteBranches (bs : list gostring) :
  (forall r n, P (GitPushDelete r n) = true) ->
  adds P (deleteBranches env L bs).
Proof.
  intros H. induction bs as [|b bs IH]; cbn [deleteBranches]; adds_auto.
  - apply adds_gitPushDelete. apply H.
  - destruct a as [out [e|]]; adds_auto.
  - exact IH.
Qed.

Hypothesis P_fzf : forall preview items, P (Fzf preview items) = true.
Hypothesis P_ask : forall message default, P (AskConfirm message default) = true.

(** From the confirmation on, only the prompt is run unless the answer is
    yes. *)
Hypothesis P_delete :
  survey_AskOne env <> Answered true
  \/ forall r n, P (GitPushDelete r n) = true.

Lemma adds_confirmAndDelete (bs : list gostring) :
  adds P (confirmAndDelete env L bs).
Proof.
  destruct P_delete as [H|H].
  - intros w. rewrite confirmAndDelete_cancel by exact H.
    exists [thePrompt]. simpl. unfold thePrompt. rewrite P_ask. auto.
  - unfold confirmAndDelete. adds_auto; try apply adds_printRows.
    + unfold askOne. adds_auto; [apply adds_run; apply P_ask|].
      destruct (survey_AskOne env); adds_auto.
    + apply adds_deleteBranches. exact H.
Qed.

Lemma adds_planAndDelete (fzfStdout : gostring) :
  adds P (planAndDelete env L fzfStdout).
Proof.
  unfold planAndDelete. adds_auto.
  destruct (partitionSelected _ _ _) as [del prot].
  adds_auto; [apply adds_notifySkipped | apply adds_confirmAndDelete].
Qed.

Lemma adds_selectAndDelete (fzfItems : list gostring) :
  adds P (selectAndDelete env L fzfItems).
Proof.
  unfold selectAndDelete. adds_auto.
  destruct (os_Executable env) as [path [e|]]; adds_auto.
  destruct (stdinPipe env) as [e|]; adds_auto.
  - apply adds_run. apply P_fzf.
  - destruct (fzf env _ fzfItems) as [out [e|]].
    + destruct (err_exit e) as [[|[p|p|]|]|]; adds_auto.
      repeat (destruct p as [p|p|]; adds_auto).
    + apply adds_planAndDelete.
Qed.

Lemma adds_listBranches (lines items : list gostring) :
  P GitBranchMerged = true ->
  adds P (listBranches env L lines items).
Proof.
  intros P_merged w. rewrite listBranches_spec. eexists. split; [reflexivity|].
  apply forallb_forall. intros c Hc. apply repeat_spec in Hc. subst.
  exact P_merged.
Qed.

End Adds.

(** The whole run only runs commands of the kind [P] when [P] holds of the
    listing, the queries, the selector, the prompt and the log, and either
    of the delete commands as well or the answer to the prompt is not
    yes. *)
Lemma adds_main (env : Env) (P : Command -> bool) :
  (forall preview items, P (Fzf preview items) = true) ->
  (forall message default, P (AskConfirm message default) = true) ->
  (survey_AskOne env <> Answered true
   \/ forall r n, P (GitPushDelete r n) = true) ->
  (forall ref, P (GitLog ref) = true) ->
  P GitBranchRemote = true ->
  P GitBranchMerged = true ->
  adds P (main env).
Proof.
  intros P_fzf P_ask P_delete P_log P_list P_merged.
  unfold main.
  repeat match goal with
         | |- adds _ (ret _) => apply adds_ret
         | |- adds _ (os_Exit _) => apply adds_exit
         | |- adds _ (print _) => apply adds_print
         | |- adds _ (eprint _) => apply adds_eprint
         | |- adds _ (if _ then _ else _) => apply adds_if
         | |- adds _ (bind _ _) => apply adds_bind; [|intros ?]
         | |- adds _ (match ?x with Some _ => _ | None => _ end) => destruct x
         end.
  - apply adds_run. apply P_log.
  - unfold manageBranches.
    apply adds_bind; [apply adds_run; exact P_list | intros _].
    destruct (git_branch_r env) as [output [e|]].
    + apply adds_bind; [apply adds_print | intros _; apply adds_exit].
    + apply adds_bind; [apply adds_listBranches; exact P_merged | intros items].
      apply adds_selectAndDelete; assumption.
Qed.

Lemma filter_none (kind : Command -> bool) (cs : list Command) :
  forallb (fun c => negb (kind c)) cs = true -> filter kind cs = [].
Proof.
  induction cs as [|c cs IH]; [reflexivity|]. cbn [forallb filter].
  intros F. apply andb_true_iff in F. destruct F as [Fc F].
  destruct (kind c); [discriminate Fc | exact (IH F)].
Qed.


(** ** Where the prompt is run *)

Ltac adds_steps :=
  repeat match goal with
         | |- adds _ (ret _) => apply adds_ret
         | |- adds _ (os_Exit _) => apply adds_exit
         | |- adds _ (print _) => apply adds_print
         | |- adds _ (eprint _) => apply adds_eprint
         | |- adds _ (run _) => apply adds_run; reflexivity
         | |- adds _ (if _ then _ else _) => apply adds_if
         | |- adds _ (bind _ _) => apply adds_bind; [|intros ?]
         | |- adds _ (match ?x with Some _ => _ | None => _ end) => destruct x
         end.

Section ViaConfirm.

Variable env : Env.
Variable L : MessageID -> TemplateData -> gostring.

Lemma adds_not_prompted {A} (m : M A) (w : World) :
  adds notPrompt m -> ~ prompted w -> ~ prompted (snd (m w)).
Proof.
  intros H Hw (message & default & Hin).
  destruct (H w) as (cs & E & F). rewrite E in Hin.
  apply in_app_or in Hin. destruct Hin as [Hin|Hin].
  - apply Hw. exists message, default. exact Hin.
  - rewrite forallb_forall in F. specialize (F _ Hin). discriminate.
Qed.

Lemma viaConfirm_stop (m : M unit) : adds notPrompt m -> viaConfirm env L m.
Proof. intros H w Hw. left. apply adds_not_prompted; assumption. Qed.

Lemma viaConfirm_bind {A} (m : M A) (k : A -> M unit) :
  adds notPrompt m -> (forall a, viaConfirm env L (k a)) ->
  viaConfirm env L (bind m k).
Proof.
  intros Hm Hk w Hw. pose proof (adds_not_prompted m w Hm Hw) as H1.
  unfold bind. destruct (m w) as [[a|code] w1]; simpl in H1.
  - apply Hk. exact H1.
  - left. exact H1.
Qed.

Lemma viaConfirm_planAndDelete (fzfStdout : gostring) :
  viaConfirm env L (planAndDelete env L fzfStdout).
Proof.
  unfold planAndDelete. apply viaConfirm_bind; [adds_steps | intros _].
  destruct (partitionSelected _ _ _) as [[|b del] prot].
  - apply viaConfirm_stop.
    apply adds_bind; [apply adds_notifySkipped | intros _].
    intros w. exists []. simpl. rewrite app_nil_r. auto.
  - apply viaConfirm_bind; [apply adds_notifySkipped | intros _].
    cbn [length Nat.eqb].
    apply viaConfirm_bind; [adds_steps | intros _].
    intros w Hw. right. exists (b :: del), w. split; [reflexivity | discriminate].
Qed.

Lemma viaConfirm_selectAndDelete (fzfItems : list gostring) :
  viaConfirm env L (selectAndDelete env L fzfItems).
Proof.
  unfold selectAndDelete. apply viaConfirm_bind; [adds_steps | intros _].
  destruct (os_Executable env) as [path [e|]];
    [apply viaConfirm_stop; adds_steps|].
  destruct (stdinPipe env) as [e|]; [apply viaConfirm_stop; adds_steps|].
  apply viaConfirm_bind; [adds_steps | intros _].
  destruct (fzf env _ fzfItems) as [out [e|]].
  - apply viaConfirm_stop.
    destruct (err_exit e) as [[|p|p]|]; adds_steps.
    repeat (destruct p as [p|p|]; adds_steps).
  - apply viaConfirm_planAndDelete.
Qed.

End ViaConfirm.

(** A run that gets to the prompt gets there through the confirmation of a
    list of branches to delete that is not empty. *)
Lemma viaConfirm_main (env : Env) :
  viaConfirm env (localize env (selectLang env)) (main env).
Proof.
  unfold main.
  apply viaConfirm_bind; [adds_steps | intros _].
  apply viaConfirm_bind; [adds_steps | intros _].
  destruct (lookPath_fzf env); [apply viaConfirm_stop; adds_steps|].
  unfold manageBranches. apply viaConfirm_bind; [adds_steps | intros _].
  destruct (git_branch_r env) as [output [e|]];
    [apply viaConfirm_stop; adds_steps|].
  apply viaConfirm_bind; [apply adds_listBranches; reflexivity | intros items].
  apply viaConfirm_selectAndDelete.
Qed.

Lemma not_prompted_empty : ~ prompted emptyWorld.
Proof. intros (message & default & []). Qed.

(** A run that gets to the prompt and is not answered yes ends there, with
    the cancellation message and status 0. *)
Lemma main_cancelled (env : Env) :
  survey_AskOne env <> Answered true ->
  prompted (snd (main env emptyWorld)) ->
  fst (main env emptyWorld) = Exit 0%Z
  /\ last (stdout (snd (main env emptyWorld))) (Println [])
     = Println (localize env (selectLang env) DeletionCancelled []).
Proof.
  intros Hno Hp.
  destruct (viaConfirm_main env emptyWorld not_prompted_empty)
    as [H|(bs & w' & E & _)]; [contradiction|].
  rewrite E, confirmAndDelete_cancel by exact Hno. cbn [fst snd stdout].
  split; [reflexivity|]. rewrite !app_assoc. apply last_last.
Qed.

(** ** The listing and the merged-branch query *)





(** C2. On the lines "  origin/foo" and "origin/HEAD -> origin/main" the
    listing loop trims the first and keeps the second: the pointer line
    does not end in "/HEAD", is not protected, and is listed as a branch,
    merged or unmerged. *)
Theorem head_pointer_line_is_listed (env : Env)
    (L : MessageID -> TemplateData -> gostring) (w : World) :
  let lines := [str "  origin/foo"; str "origin/HEAD -> origin/main"] in
  candidates lines = [str "origin/foo"; str "origin/HEAD -> origin/main"]
  /\ exists st1 st2 w',
      listBranches env L lines [] w =
      (Done [decorated L st1 (str "origin/foo");
             decorated L st2 (str "origin/HEAD -> origin/main")], w')
      /\ st2 <> Protected.
Proof.
  intros lines.
  assert (Hc : candidates lines
               = [str "origin/foo"; str "origin/HEAD -> origin/main"])
    by (vm_compute; reflexivity).
  split; [exact Hc|].
  rewrite listBranches_spec, Hc. unfold classified.
  set (n := ran isMergedQuery w).
  assert (H1 : isProtectedBranch (str "origin/foo") = false)
    by (vm_compute; reflexivity).
  assert (H2 : isProtectedBranch (str "origin/HEAD -> origin/main") = false)
    by (vm_compute; reflexivity).
  cbn [statuses]. rewrite H1, H2. cbn [combine map fst snd app].
  do 3 eexists. split; [reflexivity|].
  destruct (git_branch_merged env (S n)) as [o [e|]]; [discriminate|].
  destruct (mergedIn o _); discriminate.
Qed.

(** The listing loop lists exactly the candidates: a blank line gives no
    item and every item is the decoration of a trimmed line. *)
Lemma listBranches_items (env : Env)
    (L : MessageID -> TemplateData -> gostring)
    (lines : list gostring) (w : World) :
  exists sts w',
    listBranches env L lines [] w =
    (Done (map (fun p => decorated L (fst p) (snd p))
               (combine sts (candidates lines))), w')
    /\ length sts = length (candidates lines).
Proof.
  rewrite listBranches_spec. unfold classified. do 2 eexists.
  split; [reflexivity|].
  generalize (ran isMergedQuery w). generalize (candidates lines).
  induction l as [|b l IH]; intros n; simpl; [reflexivity|].
  destruct (isProtectedBranch b); simpl; rewrite IH; reflexivity.
Qed.

Section FailingQuery.

Variable env : Env.
Hypothesis query_fails : forall n, snd (git_branch_merged env n) <> None.

Lemma statuses_failing (n : nat) (cands : list gostring) :
  statuses env n cands =
  map (fun b => if isProtectedBranch b then Protected else Unmerged) cands.
Proof.
  revert n; induction cands as [|b cands IH]; intros n; [reflexivity|].
  cbn [statuses map]. destruct (isProtectedBranch b); rewrite IH; [reflexivity|].
  pose proof (query_fails n) as H.
  destruct (git_branch_merged env n) as [o [e|]]; [reflexivity|].
  exfalso; apply H; reflexivity.
Qed.

Lemma warnings_failing (n : nat) (cands : list gostring) :
  length (warnings env n cands) = length (unprotected cands).
Proof.
  revert n; induction cands as [|b cands IH]; intros n; [reflexivity|].
  unfold unprotected in *. cbn [warnings filter].
  destruct (isProtectedBranch b); cbn [negb]; [apply IH|].
  pose proof (query_fails n) as H.
  destruct (snd (git_branch_merged env n)); [|exfalso; apply H; reflexivity].
  cbn [length]. rewrite IH. reflexivity.
Qed.

Lemma classified_failing (L : MessageID -> TemplateData -> gostring)
    (n : nat) (cands : list gostring) :
  classified env L n cands =
  map (fun b => decorated L (if isProtectedBranch b then Protected
                             else Unmerged) b) cands.
Proof.
  unfold classified. rewrite statuses_failing.
  induction cands as [|b cands IH]; [reflexivity|].
  cbn [map combine fst snd]. rewrite IH. reflexivity.
Qed.

End FailingQuery.

Lemma warnings_form (env : Env) (n : nat) (cands : list gostring) :
  Forall (fun p => exists e : error,
              p = Printf (str "Warning: Could not get merged branches: %v\n")
                         [err_text e])
         (warnings env n cands).
Proof.
  revert n; induction cands as [|b cands IH]; intros n; [constructor|].
  cbn [warnings]. destruct (isProtectedBranch b); [apply IH|].
  destruct (snd (git_branch_merged env n)) as [e|]; [|apply IH].
  constructor; [exists e; reflexivity | apply IH].
Qed.

(** The listing loop at a candidate that is not protected: it runs the
    query and goes on with the rest, the candidate being listed by the
    outcome of that very query. *)
Lemma listBranches_unprotected (env : Env)
    (L : MessageID -> TemplateData -> gostring)
    (line : gostring) (rest fzfItems : list gostring) (w : World) :
  TrimSpace line <> [] ->
  HasSuffix (TrimSpace line) (str "/HEAD") = false ->
  isProtectedBranch (TrimSpace line) = false ->
  listBranches env L (line :: rest) fzfItems w =
  match git_branch_merged env (ran isMergedQuery w) with
  | (output, None) =>
    listBranches env L rest
      (fzfItems
       ++ [if mergedIn output (TrimSpace line)
           then ColorGreen ++ TrimSpace line
                ++ " " :: L MergedIndicator [] ++ ColorReset
           else ColorRed ++ TrimSpace line
                ++ " " :: L UnmergedIndicator [] ++ ColorReset])
      (mkWorld (stdout w) (stderr w) (trace w ++ [GitBranchMerged]))
  | (_, Some e) =>
    listBranches env L rest
      (fzfItems
       ++ [ColorRed ++ TrimSpace line
           ++ " " :: L UnmergedIndicator [] ++ ColorReset])
      (mkWorld (stdout w)
               (stderr w
                ++ [Printf (str "Warning: Could not get merged branches: %v\n")
                           [err_text e]])
               (trace w ++ [GitBranchMerged]))
  end.
Proof.
  intros Hne Hhead Hprot. apply eqs_neq in Hne.
  cbn [listBranches]. rewrite Hne, Hhead, Hprot. cbn [negb andb].
  unfold bind at 1. unfold bind at 1. rewrite isMergedToHead_spec.
  destruct (git_branch_merged env (ran isMergedQuery w)) as [output [e|]];
    [reflexivity|].
  destruct (mergedIn output (TrimSpace line)); reflexivity.
Qed.

(** C6, as the code has it. The query is run anew for every candidate
    that is not protected, and a failure counts for the candidate it was
    run for, not for the whole run.
    - A call of the query that fails writes a warning and answers false.
    - The listing loop then lists the candidate the call was made for as
      unmerged and goes on with the rest of the listing.
    - A candidate whose own call succeeds is listed by the output of that
      call, merged when the output has it, whatever happened to the calls
      before.
    - The loop never ends the run.
    - When every call fails, every candidate that is not protected is
      listed as unmerged, none as merged, nothing is written on the
      standard output and one warning is written for each of them. *)
Theorem failed_query_lists_unmerged (env : Env)
    (L : MessageID -> TemplateData -> gostring) :
  (forall (branch : gostring) (w : World) (output : gostring) (e : error),
      git_branch_merged env (ran isMergedQuery w) = (output, Some e) ->
      isMergedToHead env branch w =
      (Done false,
       mkWorld (stdout w)
               (stderr w ++ [Printf (str "Warning: Could not get merged branches: %v\n")
                                    [err_text e]])
               (trace w ++ [GitBranchMerged])))
  /\ (forall (line : gostring) (rest fzfItems : list gostring) (w : World)
             (output : gostring) (e : error),
         TrimSpace line <> [] ->
         HasSuffix (TrimSpace line) (str "/HEAD") = false ->
         isProtectedBranch (TrimSpace line) = false ->
         git_branch_merged env (ran isMergedQuery w) = (output, Some e) ->
         listBranches env L (line :: rest) fzfItems w =
         listBranches env L rest
           (fzfItems
            ++ [ColorRed ++ TrimSpace line
                ++ " " :: L UnmergedIndicator [] ++ ColorReset])
           (mkWorld (stdout w)
                    (stderr w
                     ++ [Printf (str "Warning: Could not get merged branches: %v\n")
                                [err_text e]])
                    (trace w ++ [GitBranchMerged])))
  /\ (forall (line : gostring) (rest fzfItems : list gostring) (w : World)
             (output : gostring),
         TrimSpace line <> [] ->
         HasSuffix (TrimSpace line) (str "/HEAD") = false ->
         isProtectedBranch (TrimSpace line) = false ->
         git_branch_merged env (ran isMergedQuery w) = (output, None) ->
         listBranches env L (line :: rest) fzfItems w =
         listBranches env L rest
           (fzfItems
            ++ [if existsb (fun mergedLine =>
                              eqs (TrimSpace mergedLine) (TrimSpace line))
                           (Split output newline)
                then ColorGreen ++ TrimSpace line
                     ++ " " :: L MergedIndicator [] ++ ColorReset
                else ColorRed ++ TrimSpace line
                     ++ " " :: L UnmergedIndicator [] ++ ColorReset])
           (mkWorld (stdout w) (stderr w) (trace w ++ [GitBranchMerged])))
  /\ (forall (lines fzfItems : list gostring) (w : World),
         exists items w',
           listBranches env L lines fzfItems w = (Done items, w'))
  /\ ((forall n, snd (git_branch_merged env n) <> None) ->
      forall (lines fzfItems : list gostring) (w : World),
      exists w' ws,
        listBranches env L lines fzfItems w =
        (Done (fzfItems
               ++ map (fun b =>
                         if isProtectedBranch b
                         then ColorYellow ++ b
                              ++ " " :: L ProtectedIndicator [] ++ ColorReset
                         else ColorRed ++ b
                              ++ " " :: L UnmergedIndicator [] ++ ColorReset)
                      (candidates lines)), w')
        /\ stdout w' = stdout w
        /\ stderr w' = stderr w ++ ws
        /\ length ws = length (unprotected (candidates lines))
        /\ Forall (fun p =>
                     exists e : error,
                       p = Printf (str "Warning: Could not get merged branches: %v\n")
                                  [err_text e]) ws).
Proof.
  split; [|split; [|split; [|split]]].
  - intros branch w output e H. rewrite isMergedToHead_spec, H. reflexivity.
  - intros line rest fzfItems w output e Hne Hhead Hprot H.
    rewrite listBranches_unprotected by assumption. rewrite H. reflexivity.
  - intros line rest fzfItems w output Hne Hhead Hprot H.
    rewrite listBranches_unprotected by assumption. rewrite H.
    unfold mergedIn. rewrite TrimSpace_idempotent. reflexivity.
  - intros lines fzfItems w. rewrite listBranches_spec.
    do 2 eexists. reflexivity.
  - intros H lines fzfItems w. rewrite listBranches_spec.
    rewrite classified_failing by exact H.
    exists (mkWorld (stdout w)
                    (stderr w
                     ++ warnings env (ran isMergedQuery w) (candidates lines))
                    (trace w
                     ++ repeat GitBranchMerged
                               (length (unprotected (candidates lines))))),
           (warnings env (ran isMergedQuery w) (candidates lines)).
    split.
    + f_equal. f_equal. f_equal. apply map_ext. intros b.
      destruct (isProtectedBranch b); reflexivity.
    + cbn [stdout stderr]. split; [reflexivity|]. split; [reflexivity|].
      split; [apply warnings_failing; exact H | apply warnings_form].
Qed.

Lemma failed_query_lists_unmerged_witness :
  exists w',
    listBranches failingQueryEnv (sampleLocalize (str "en"))
                 (Split (str "  origin/main\n  origin/a\n  origin/b\n") newline)
                 [] emptyWorld =
    (Done [ColorYellow ++ str "origin/main (protected)" ++ ColorReset;
           ColorRed ++ str "origin/a (unmerged)" ++ ColorReset;
           ColorRed ++ str "origin/b (unmerged)" ++ ColorReset], w')
    /\ length (stderr w') = 2.
Proof.
  destruct (proj2 (proj2 (proj2 (proj2
                     (failed_query_lists_unmerged
                        failingQueryEnv (sampleLocalize (str "en"))))))
                  (fun n => @Some_ne_None error (exitError 128))
                  (Split (str "  origin/main\n  origin/a\n  origin/b\n") newline)
                  [] emptyWorld)
    as (w' & ws & E & _ & Herr & Hlen & _).
  exists w'. split.
  - rewrite E. vm_compute. reflexivity.
  - rewrite Herr, length_app, Hlen. vm_compute. reflexivity.
Defined.

(** C6, as the specification words it, does not hold: a run in which the
    merged-branch query fails can still list a branch as merged. Here the
    query fails when it is run for origin/a and succeeds when it is run
    for origin/b: one warning is written, origin/a is listed as unmerged
    and origin/b as merged. *)
Lemma failed_query_yet_merged :
  snd (git_branch_merged transientFailureEnv 0) = Some (exitError 1)
  /\ listBranches transientFailureEnv (sampleLocalize (str "en"))
                  (Split (str "  origin/a\n  origin/b\n") newline)
                  [] emptyWorld =
     (Done [ColorRed ++ str "origin/a (unmerged)" ++ ColorReset;
            ColorGreen ++ str "origin/b (merged)" ++ ColorReset],
      mkWorld []
              [Printf (str "Warning: Could not get merged branches: %v\n")
                      [str "exit status 1"]]
              [GitBranchMerged; GitBranchMerged]).
Proof.
  split; vm_compute; reflexivity.
Qed.

(** ** Confirmation and deletion *)

Section DeletionFacts.

Variable env : Env.
Variable L : MessageID -> TemplateData -> gostring.

(** The deletion loop never ends the run: it runs the delete command of
    every branch that has a remote and a name, whatever the outcome of the
    commands before, and reports each outcome. *)
Lemma deleteBranches_spec (bs : list gostring) :
  forall w,
    deleteBranches env L bs w =
    (Done tt,
     mkWorld (stdout w ++ deletionReport env L (ran isDelete w) bs)
             (stderr w) (trace w ++ flat_map deleteCommand bs)).
Proof.
  induction bs as [|b bs IH]; intros [so se tr].
  - simpl. rewrite !app_nil_r. reflexivity.
  - cbn [deleteBranches deletionReport flat_map]. unfold deleteCommand at 1.
    rewrite SplitN_2 by discriminate.
    destruct (Index b (str "/")) as [m|].
    + cbn [length Nat.eqb negb nth]. unfold bind at 1. unfold bind at 1.
      unfold gitPushDelete at 1. unfold bind at 1. unfold run at 1.
      unfold ret at 1. cbn [stdout stderr trace].
      set (n := ran isDelete (mkWorld so se tr)).
      assert (Hn : forall so' se' c,
                 isDelete c = true ->
                 ran isDelete (mkWorld so' se' (tr ++ [c])) = S n).
      { intros so' se' c Hc. subst n. unfold ran. cbn [trace].
        rewrite filter_app, length_app. cbn [filter]. rewrite Hc.
        cbn [length]. lia. }
      destruct (git_push_delete env n _ _) as [out [e|]];
        unfold bind at 1; unfold print at 1; unfold print at 1;
        rewrite IH; cbn [stdout stderr trace];
        rewrite Hn by reflexivity;
        rewrite <- !app_assoc; reflexivity.
    + cbn [length Nat.eqb negb]. unfold bind at 1. unfold print at 1.
      rewrite IH. unfold ran. cbn [stdout stderr trace app].
      rewrite <- !app_assoc. reflexivity.
Qed.

End DeletionFacts.

(** C8. The deletion loop is best-effort: for every list of branches it
    runs to its end and attempts the delete of every branch with a remote
    and a name, in order, whatever the outcome of the deletes before; when
    the first of two deletes fails and the second succeeds, both are
    attempted and the output is one failure message and one success
    message, each followed by the output of its command. *)
Theorem deletion_is_best_effort (env : Env)
    (L : MessageID -> TemplateData -> gostring) :
  (forall (bs : list gostring) (w : World),
      deleteBranches env L bs w =
      (Done tt,
       mkWorld (stdout w ++ deletionReport env L (ran isDelete w) bs)
               (stderr w) (trace w ++ flat_map deleteCommand bs)))
  /\ (forall (b1 b2 r1 n1 r2 n2 out1 out2 : gostring) (e1 : error) (w : World),
         SplitN b1 (str "/") 2 = [r1; n1] ->
         SplitN b2 (str "/") 2 = [r2; n2] ->
         git_push_delete env (ran isDelete w) r1 n1 = (out1, Some e1) ->
         git_push_delete env (S (ran isDelete w)) r2 n2 = (out2, None) ->
         deleteBranches env L [b1; b2] w =
         (Done tt,
          mkWorld (stdout w
                   ++ [Println (L ErrorDeletingBranch
                                  [(str "Branch", b1); (str "Error", err_text e1)]);
                       Println out1;
                       Println (L BranchDeletedSuccessfully [(str "Branch", b2)]);
                       Println out2])
                  (stderr w)
                  (trace w ++ [GitPushDelete r1 n1; GitPushDelete r2 n2]))).
Proof.
  split; [intros bs w; apply deleteBranches_spec|].
  intros b1 b2 r1 n1 r2 n2 out1 out2 e1 w H1 H2 D1 D2.
  rewrite deleteBranches_spec. cbn [deletionReport flat_map].
  unfold deleteCommand. rewrite H1, H2, D1, D2. reflexivity.
Qed.

Lemma deletion_is_best_effort_witness :
  deleteBranches firstDeleteFailsEnv (sampleLocalize (str "en"))
                 [str "origin/a"; str "origin/b"] emptyWorld =
  (Done tt,
   mkWorld [Println (str "ErrorDeletingBranch");
            Println (str "error: unable to delete 'a': remote ref does not exist\n");
            Println (str "BranchDeletedSuccessfully");
            Println (str " - [deleted]         b\n")]
           []
           [GitPushDelete (str "origin") (str "a");
            GitPushDelete (str "origin") (str "b")]).
Proof.
  exact (proj2 (deletion_is_best_effort firstDeleteFailsEnv
                                        (sampleLocalize (str "en")))
               (str "origin/a") (str "origin/b")
               (str "origin") (str "a") (str "origin") (str "b")
               _ _ _ emptyWorld eq_refl eq_refl eq_refl eq_refl).
Defined.

(** The run as a whole runs no delete command unless the answer to the
    prompt is yes. *)
Lemma main_no_delete (env : Env) :
  survey_AskOne env <> Answered true ->
  deletes (snd (main env emptyWorld)) = [].
Proof.
  intros H.
  destruct (adds_main env (fun c => negb (isDelete c))) with (w := emptyWorld)
    as (cs & E & F); auto.
  unfold deletes. rewrite E. cbn [emptyWorld trace app].
  apply filter_none. exact F.
Qed.

(** C9. Deletion is opt-in: when the answer to the prompt is no, which is
    also its default, the confirmation of a list of branches to delete ends
    the run with the cancellation message and status 0, the prompt being
    the only command it runs; so does every run of [main] that gets to the
    prompt, and no run of [main] runs a delete command. *)
Theorem deletion_is_opt_in (env : Env) :
  survey_AskOne env = Answered false ->
  (forall (L : MessageID -> TemplateData -> gostring)
          (branchesToDelete : list gostring) (w : World),
      branchesToDelete <> [] ->
      confirmAndDelete env L branchesToDelete w =
      (Exit 0%Z,
       mkWorld (stdout w ++ confirmationTable L branchesToDelete
                       ++ [Println (L DeletionCancelled [])])
               (stderr w) (trace w ++ [thePrompt])))
  /\ deletes (snd (main env emptyWorld)) = []
  /\ (prompted (snd (main env emptyWorld)) ->
      fst (main env emptyWorld) = Exit 0%Z
      /\ last (stdout (snd (main env emptyWorld))) (Println [])
         = Println (localize env (selectLang env) DeletionCancelled [])).
Proof.
  intros H. split; [|split].
  - intros L bs w _. apply confirmAndDelete_cancel. congruence.
  - apply main_no_delete. congruence.
  - apply main_cancelled. congruence.
Qed.

Lemma twoBranchesEnv_prompted : prompted (snd (main twoBranchesEnv emptyWorld)).
Proof.
  exists (str "Proceed with deletion?"), false. vm_compute. auto 10.
Qed.

Lemma deletion_is_opt_in_witness :
  deletes (snd (main twoBranchesEnv emptyWorld)) = []
  /\ fst (main twoBranchesEnv emptyWorld) = Exit 0%Z
  /\ last (stdout (snd (main twoBranchesEnv emptyWorld))) (Println [])
     = Println (str "DeletionCancelled").
Proof.
  destruct (deletion_is_opt_in twoBranchesEnv eq_refl) as (_ & Hd & Hc).
  split; [exact Hd | exact (Hc twoBranchesEnv_prompted)].
Defined.

Lemma bind_ext {A B} (m : M A) (k k' : A -> M B) (w : World) :
  (forall a w', k a w' = k' a w') -> bind m k w = bind m k' w.
Proof.
  intros H. unfold bind. destruct (m w) as [[a|code] w']; [apply H | reflexivity].
Qed.

Section OtherAnswer.

Variable env : Env.
Variable answer : AskResult.
Hypothesis not_yes : survey_AskOne env <> Answered true.
Hypothesis not_yes' : answer <> Answered true.

Lemma listBranches_withAnswer (L : MessageID -> TemplateData -> gostring)
    (lines : list gostring) :
  forall items w,
    listBranches (withAnswer env answer) L lines items w
    = listBranches env L lines items w.
Proof.
  induction lines as [|line lines IH]; intros items w; [reflexivity|].
  cbn [listBranches].
  destruct (negb (eqs (TrimSpace line) [])
            && negb (HasSuffix (TrimSpace line) (str "/HEAD"))); [|apply IH].
  apply bind_ext. intros [indicator color] w'. apply IH.
Qed.

Lemma confirmAndDelete_withAnswer (L : MessageID -> TemplateData -> gostring)
    (bs : list gostring) (w : World) :
  confirmAndDelete (withAnswer env answer) L bs w = confirmAndDelete env L bs w.
Proof.
  rewrite !confirmAndDelete_cancel by assumption. reflexivity.
Qed.

Lemma main_withAnswer (w : World) :
  main (withAnswer env answer) w = main env w.
Proof.
  unfold main. cbn [withAnswer flag_get_remote_log flag_help lookPath_fzf
                    localize git_log].
  replace (selectLang (withAnswer env answer)) with (selectLang env)
    by reflexivity.
  apply bind_ext; intros _ w1. apply bind_ext; intros _ w2.
  destruct (lookPath_fzf env); [reflexivity|].
  unfold manageBranches. cbn [withAnswer git_branch_r].
  apply bind_ext; intros _ w3.
  destruct (git_branch_r env) as [output [e|]]; [reflexivity|].
  unfold bind at 1. rewrite listBranches_withAnswer. unfold bind at 1.
  destruct (listBranches env _ _ _ w3) as [[items|code] w4]; [|reflexivity].
  unfold selectAndDelete. cbn [withAnswer os_Executable stdinPipe fzf].
  apply bind_ext; intros _ w5.
  destruct (os_Executable env) as [path [e|]]; [reflexivity|].
  destruct (stdinPipe env); [reflexivity|].
  apply bind_ext; intros _ w6.
  destruct (fzf env _ items) as [out [e|]]; [reflexivity|].
  unfold planAndDelete.
  apply bind_ext; intros _ w7.
  destruct (partitionSelected _ _ _) as [del prot].
  apply bind_ext; intros _ w8. apply bind_ext; intros _ w9.
  apply confirmAndDelete_withAnswer.
Qed.

End OtherAnswer.

(** C10. When the prompt fails, [confirm] keeps its value false: the run
    is the run of the answer no. The confirmation of a list of branches to
    delete ends the run with the cancellation message and status 0, the
    prompt being the only command it runs; so does every run of [main]
    that gets to the prompt, and no run of [main] runs a delete command. *)
Theorem prompt_failure_is_no (env : Env) (e : error) :
  survey_AskOne env = AskFailed e ->
  (forall w, main env w = main (withAnswer env (Answered false)) w)
  /\ (forall (L : MessageID -> TemplateData -> gostring)
             (branchesToDelete : list gostring) (w : World),
         confirmAndDelete env L branchesToDelete w =
         (Exit 0%Z,
          mkWorld (stdout w ++ confirmationTable L branchesToDelete
                          ++ [Println (L DeletionCancelled [])])
                  (stderr w) (trace w ++ [thePrompt])))
  /\ deletes (snd (main env emptyWorld)) = []
  /\ (prompted (snd (main env emptyWorld)) ->
      fst (main env emptyWorld) = Exit 0%Z
      /\ last (stdout (snd (main env emptyWorld))) (Println [])
         = Println (localize env (selectLang env) DeletionCancelled [])).
Proof.
  intros H. split; [|split; [|split]].
  - intros w. symmetry. apply main_withAnswer; congruence.
  - intros L bs w. apply confirmAndDelete_cancel. congruence.
  - apply main_no_delete. congruence.
  - apply main_cancelled. congruence.
Qed.

Lemma closedInputEnv_prompted : prompted (snd (main closedInputEnv emptyWorld)).
Proof.
  exists (str "Proceed with deletion?"), false. vm_compute. auto 10.
Qed.

Lemma prompt_failure_is_no_witness :
  main closedInputEnv emptyWorld
  = main (withAnswer closedInputEnv (Answered false)) emptyWorld
  /\ deletes (snd (main closedInputEnv emptyWorld)) = []
  /\ fst (main closedInputEnv emptyWorld) = Exit 0%Z.
Proof.
  destruct (prompt_failure_is_no closedInputEnv (mkError (str "EOF") None)
                                 eq_refl) as (Hm & _ & Hd & Hc).
  split; [apply Hm | split; [exact Hd | exact (proj1 (Hc closedInputEnv_prompted))]].
Defined.

(** ** The end-to-end example *)

(** C7. The selection of the decorated lines of "origin/main" (protected)
    and "origin/feature-x" (merged) is split into the skipped
    ["origin/main"], with one notice, and ["origin/feature-x"] to delete;
    after a yes, one delete command is run, for the remote "origin" and
    the branch "feature-x", and one success message is written. The run of
    the scenario from the listing on does the same. *)
Theorem end_to_end_example (env : Env)
    (L : MessageID -> TemplateData -> gostring) (w : World)
    (deleteOutput : gostring) :
  L ProtectedIndicator [] = str "(protected)" ->
  L MergedIndicator [] = str "(merged)" ->
  survey_AskOne env = Answered true ->
  git_push_delete env (ran isDelete w) (str "origin") (str "feature-x")
  = (deleteOutput, None) ->
  let selection :=
    decorated L Protected (str "origin/main") ++ newline
    ++ decorated L Merged (str "origin/feature-x") ++ newline in
  partitionSelected (Split (TrimSpace selection) newline) [] []
  = ([str "origin/feature-x"], [str "origin/main"])
  /\ planAndDelete env L selection w =
     (Done tt,
      mkWorld (stdout w
               ++ [Println (L ProtectedBranchSkipped
                              [(str "Branch", str "origin/main")])]
               ++ confirmationTable L [str "origin/feature-x"]
               ++ [Println (L BranchDeletedSuccessfully
                              [(str "Branch", str "origin/feature-x")]);
                   Println deleteOutput])
              (stderr w)
              (trace w ++ [thePrompt;
                           GitPushDelete (str "origin") (str "feature-x")]))
  /\ (deletes (snd (main scenarioEnv emptyWorld))
      = [GitPushDelete (str "origin") (str "feature-x")]
      /\ fst (main scenarioEnv emptyWorld) = Done tt
      /\ stdout (snd (main scenarioEnv emptyWorld))
         = [Println (str "ProtectedBranchSkipped")]
           ++ confirmationTable (sampleLocalize (str "en"))
                                [str "origin/feature-x"]
           ++ [Println (str "BranchDeletedSuccessfully");
               Println (str " - [deleted]         feature-x\n")]).
Proof.
  intros Hp Hm Ha Hd selection. subst selection. unfold decorated.
  rewrite Hp, Hm.
  set (selection := decorate ColorYellow (str "origin/main") (str "(protected)")
                    ++ newline
                    ++ decorate ColorGreen (str "origin/feature-x") (str "(merged)")
                    ++ newline).
  assert (Hpart : partitionSelected (Split (TrimSpace selection) newline) [] []
                  = ([str "origin/feature-x"], [str "origin/main"]))
    by (vm_compute; reflexivity).
  assert (Hne : eqs (TrimSpace selection) [] = false)
    by (vm_compute; reflexivity).
  split; [exact Hpart|]. split.
  - destruct w as [so se tr].
    unfold planAndDelete. cbv zeta. rewrite Hne, Hpart.
    unfold bind at 1. unfold ret at 1. unfold bind at 1.
    rewrite notifySkipped_spec. cbn [length Nat.eqb map].
    unfold bind at 1. unfold ret at 1.
    rewrite confirmAndDelete_spec, Ha. cbv zeta.
    rewrite deleteBranches_spec. cbn [stdout stderr trace].
    replace (ran isDelete
               (mkWorld ((so ++ [Println (L ProtectedBranchSkipped
                                            [(str "Branch", str "origin/main")])])
                         ++ confirmationTable L [str "origin/feature-x"])
                        se (tr ++ [thePrompt])))
      with (ran isDelete (mkWorld so se tr))
      by (unfold ran; cbn [trace]; rewrite filter_app, app_nil_r; reflexivity).
    cbn [deletionReport flat_map]. unfold deleteCommand.
    change (SplitN (str "origin/feature-x") (str "/") 2)
      with [str "origin"; str "feature-x"].
    cbv beta iota. rewrite Hd. cbn [deletionReport app].
    rewrite <- !app_assoc. reflexivity.
  - vm_compute. repeat split.
Qed.

Lemma end_to_end_example_witness :
  planAndDelete scenarioEnv (sampleLocalize (str "en"))
                (decorate ColorYellow (str "origin/main") (str "(protected)")
                 ++ newline
                 ++ decorate ColorGreen (str "origin/feature-x") (str "(merged)")
                 ++ newline)
                emptyWorld =
  (Done tt,
   mkWorld ([Println (str "ProtectedBranchSkipped")]
            ++ confirmationTable (sampleLocalize (str "en"))
                                 [str "origin/feature-x"]
            ++ [Println (str "BranchDeletedSuccessfully");
                Println (str " - [deleted]         feature-x\n")])
           []
           [thePrompt; GitPushDelete (str "origin") (str "feature-x")]).
Proof.
  exact (proj1 (proj2 (end_to_end_example
                         scenarioEnv (sampleLocalize (str "en")) emptyWorld
                         (str " - [deleted]         feature-x\n")
                         eq_refl eq_refl eq_refl eq_refl))).
Defined.

(* ================================================================= *)
(** * Further properties of the code *)

(** ** [cleanBranchName] *)

Section CleanMore.

Lemma ansiMatch_before_space (s t : gostring) :
  s <> [] -> ansiMatch (s ++ " " :: t) = ansiMatch s.
Proof.
  intros Hs. destruct (ansiMatch s) as [n|] eqn:E.
  - apply ansiMatch_app. exact E.
  - apply ansiMatch_space; assumption.
Qed.

(** The scan of a string followed by a space is the scan of the string,
    the space, and the scan of what follows: no match has a space in it. *)
Lemma ansiScan_before_space (b t : gostring) :
  forall k, k <= length b ->
            ansiScan k (b ++ " " :: t) = ansiScan k b ++ " " :: ansiScan 0 t.
Proof.
  induction b as [|c b IH]; intros k Hk.
  - assert (k = 0) by (simpl in Hk; lia). subst. reflexivity.
  - change ((c :: b) ++ " " :: t) with (c :: (b ++ " " :: t)).
    destruct k as [|k]; cbn [ansiScan].
    + change (c :: (b ++ " " :: t)) with ((c :: b) ++ " " :: t).
      rewrite ansiMatch_before_space by discriminate.
      destruct (ansiMatch (c :: b)) as [[|n]|] eqn:E.
      * rewrite IH by lia. reflexivity.
      * apply ansiMatch_bound in E. cbn [length] in E.
        rewrite IH by lia. reflexivity.
      * rewrite IH by lia. reflexivity.
    + cbn [length] in Hk. apply IH. lia.
Qed.

Lemma HasPrefix_app_long (a x sep : gostring) :
  length sep <= length a -> HasPrefix (a ++ x) sep = HasPrefix a sep.
Proof.
  revert a; induction sep as [|p sep IH]; intros a H; [reflexivity|].
  destruct a as [|c a]; [simpl in H; lia|].
  simpl. rewrite IH by (simpl in H; lia). reflexivity.
Qed.

(** What comes before the first " (" is not changed by appending " (" and
    more. *)
Lemma SplitN_paren_before (u v : gostring) :
  nth 0 (SplitN (u ++ " " :: "(" :: v) (str " (") 2) []
  = nth 0 (SplitN u (str " (") 2) [].
Proof.
  rewrite !SplitN_2 by discriminate.
  destruct (Index u (str " (")) as [m|] eqn:E.
  - pose proof (Index_Some _ _ _ E) as (Hle & Hp & Hmin).
    assert (Hlen : m + 2 <= length u).
    { apply HasPrefix_iff in Hp. destruct Hp as [t Ht].
      apply (f_equal (@length ascii)) in Ht.
      rewrite length_skipn, length_app in Ht. simpl in Ht. lia. }
    assert (E' : Index (u ++ " " :: "(" :: v) (str " (") = Some m).
    { apply Index_first.
      - rewrite skipn_app_le by lia. rewrite HasPrefix_app_long; [exact Hp|].
        rewrite length_skipn. simpl. lia.
      - intros j Hj. rewrite skipn_app_le by lia.
        rewrite HasPrefix_app_long; [apply Hmin; exact Hj|].
        rewrite length_skipn. simpl. lia.
      - rewrite length_app. lia. }
    rewrite E'. cbn [nth]. rewrite firstn_app.
    replace (m - length u) with 0 by lia. rewrite firstn_O, app_nil_r.
    reflexivity.
  - rewrite Index_paren_app by exact E. cbn [nth].
    rewrite firstn_app, Nat.sub_diag, firstn_all, firstn_O, app_nil_r.
    reflexivity.
Qed.

Lemma ansiScan_no_ESC (x : gostring) : ~ In ESC x -> ansiScan 0 x = x.
Proof.
  induction x as [|c x IH]; intros H; [reflexivity|].
  cbn [ansiScan ansiMatch].
  destruct (Ascii.eqb_spec c ESC) as [->|Hc].
  - exfalso. apply H. left; reflexivity.
  - rewrite IH; [reflexivity | intros Hin; apply H; right; exact Hin].
Qed.

End CleanMore.

(** X1. The cleaned name is in normal form: it neither starts nor ends
    with white space (trimming it changes nothing), it contains no " (",
    and it is not longer than the argument. *)
Theorem cleanBranchName_normal_form (x : gostring) :
  TrimSpace (cleanBranchName x) = cleanBranchName x
  /\ Index (cleanBranchName x) (str " (") = None
  /\ length (cleanBranchName x) <= length x.
Proof.
  split; [|split].
  - unfold cleanBranchName. apply TrimSpace_idempotent.
  - apply cleanBranchName_no_paren.
  - destruct (cleanBranchName_piece x) as (i & k & ->).
    rewrite length_firstn, length_skipn.
    pose proof (ansiScan_length 0 x) as H.
    unfold ansiStripper_ReplaceAllString. lia.
Qed.

(** X2. Everything from the first " (" on is discarded: a name followed by
    " (" and any text cleans to what the name alone cleans to. *)
Theorem cleanBranchName_drops_indicator (b t : gostring) :
  cleanBranchName (b ++ str " (" ++ t) = cleanBranchName b.
Proof.
  unfold cleanBranchName, ansiStripper_ReplaceAllString.
  change (b ++ str " (" ++ t) with (b ++ " " :: ("(" :: t)).
  rewrite ansiScan_before_space by lia.
  rewrite (ansiScan_step "(" t). cbn [ansiMatch].
  change (Ascii.eqb "(" ESC) with false. cbv iota.
  rewrite SplitN_paren_before. reflexivity.
Qed.

(** X3. A name as git prints it is left as it is: cleaning is the identity
    on a trimmed string with no ESC byte and no " (" in it. *)
Theorem cleanBranchName_plain (x : gostring) :
  TrimSpace x = x -> ~ In ESC x -> Index x (str " (") = None ->
  cleanBranchName x = x.
Proof.
  intros Ht He Hp. unfold cleanBranchName, ansiStripper_ReplaceAllString.
  rewrite ansiScan_no_ESC by exact He.
  rewrite SplitN_2_none by (discriminate || exact Hp). exact Ht.
Qed.

Lemma cleanBranchName_plain_witness :
  cleanBranchName (str "origin/feature/login-form") = str "origin/feature/login-form".
Proof.
  apply cleanBranchName_plain; [reflexivity | | reflexivity].
  vm_compute. intuition discriminate.
Defined.

(** ** [isProtectedBranch] *)

(** X4. Only the first "/" counts: a branch whose name portion itself
    contains a "/", such as "origin/team/main", is not protected. *)
Theorem nested_name_not_protected (b name : gostring) :
  NamePortion b name -> In "/" name -> isProtectedBranch b = false.
Proof.
  intros Hn Hin. unfold isProtectedBranch.
  rewrite (NamePortion_compute b name Hn). cbn [existsb].
  assert (H1 : eqs name (str "main") = false).
  { apply eqs_neq. intros ->. vm_compute in Hin. intuition discriminate. }
  assert (H2 : eqs name (str "master") = false).
  { apply eqs_neq. intros ->. vm_compute in Hin. intuition discriminate. }
  rewrite H1, H2. reflexivity.
Qed.

Lemma nested_name_not_protected_witness :
  isProtectedBranch (str "origin/team/main") = false.
Proof.
  apply (nested_name_not_protected (str "origin/team/main") (str "team/main")).
  - apply (NamePortion_after (str "origin") (str "team/main")).
    vm_compute. intuition discriminate.
  - vm_compute. auto 10.
Defined.

(** ** The partition of the selection *)

Lemma partitionSelected_acc (selected : list gostring) :
  forall del prot,
    partitionSelected selected del prot =
    (del ++ filter (fun b => negb (isProtectedBranch b))
                   (map cleanBranchName selected),
     prot ++ filter isProtectedBranch (map cleanBranchName selected)).
Proof.
  induction selected as [|item selected IH]; intros del prot.
  - simpl. rewrite !app_nil_r. reflexivity.
  - cbn [partitionSelected map filter].
    destruct (isProtectedBranch (cleanBranchName item)); cbn [negb];
      rewrite IH, <- app_assoc; reflexivity.
Qed.

(** X5. The selected lines are cleaned and split, in order, into the
    branches that are not protected, to delete, and the protected ones, to
    skip: no line is lost, and no branch to delete is protected. *)
Theorem partitionSelected_filters (selected : list gostring) :
  let cleaned := map cleanBranchName selected in
  partitionSelected selected [] [] =
  (filter (fun b => negb (isProtectedBranch b)) cleaned,
   filter isProtectedBranch cleaned)
  /\ length (fst (partitionSelected selected [] []))
     + length (snd (partitionSelected selected [] [])) = length selected
  /\ Forall (fun b => isProtectedBranch b = false)
            (fst (partitionSelected selected [] []))
  /\ Forall (fun b => isProtectedBranch b = true)
            (snd (partitionSelected selected [] [])).
Proof.
  intros cleaned. rewrite partitionSelected_acc. cbn [app fst snd].
  fold cleaned. split; [reflexivity|]. split; [|split].
  - rewrite <- (length_map cleanBranchName selected). fold cleaned.
    induction cleaned as [|b l IH]; [reflexivity|].
    cbn [filter]. destruct (isProtectedBranch b); cbn [negb length]; lia.
  - apply Forall_forall. intros b Hb. apply filter_In in Hb.
    destruct Hb as [_ Hb]. destruct (isProtectedBranch b); [discriminate | reflexivity].
  - apply Forall_forall. intros b Hb. apply filter_In in Hb. tauto.
Qed.

(** ** The delete commands of the deletion loop *)

Lemma deleteCommand_cases (branch : gostring) :
  (exists remoteName branchName,
      deleteCommand branch = [GitPushDelete remoteName branchName]
      /\ branch = remoteName ++ "/" :: branchName
      /\ ~ In "/" remoteName
      /\ Contains branch (str "/") = true)
  \/ (deleteCommand branch = [] /\ ~ In "/" branch
      /\ Contains branch (str "/") = false).
Proof.
  unfold deleteCommand, Contains. rewrite SplitN_2 by discriminate.
  destruct (Index branch (str "/")) as [m|] eqn:E.
  - left. apply Index_byte_Some in E. destruct E as (r & t & -> & Hr & ->).
    rewrite firstn_app, Nat.sub_diag, firstn_all, firstn_O, app_nil_r.
    rewrite skipn_app. replace (length r + length (str "/") - length r) with 1
      by (simpl; lia).
    rewrite skipn_all2 by (simpl; lia). cbn [app skipn].
    exists r, t. auto.
  - right. apply Index_byte_None in E. auto.
Qed.

(** X6. The commands of the deletion loop are exactly the delete
    commands of the branches that have a "/", one for each, in the order
    of the branches, and nothing else: the n-th command is the one of the
    n-th such branch, and the remote and the branch name it is given are
    the two sides of the first "/" of that branch (put together again
    they are the branch, and the remote has no "/"). So the commands are
    determined by the branches alone, not by what the earlier commands
    answered. *)
Theorem deleteBranches_commands (env : Env)
    (L : MessageID -> TemplateData -> gostring)
    (branchesToDelete : list gostring) (w : World) :
  exists cs,
    trace (snd (deleteBranches env L branchesToDelete w)) = trace w ++ cs
    /\ Forall2 (fun branch c =>
                  exists remoteName branchName,
                    c = GitPushDelete remoteName branchName
                    /\ branch = remoteName ++ "/" :: branchName
                    /\ ~ In "/" remoteName)
               (filter (fun b => existsb (Ascii.eqb "/") b) branchesToDelete)
               cs.
Proof.
  rewrite deleteBranches_spec. cbn [snd trace].
  exists (flat_map deleteCommand branchesToDelete).
  split; [reflexivity|].
  induction branchesToDelete as [|b bs IH]; [constructor|].
  cbn [flat_map filter].
  destruct (deleteCommand_cases b) as [(r & n & -> & Hs & Hr & _)|(-> & Hn & _)].
  - replace (existsb (Ascii.eqb "/") b) with true.
    + cbn [app]. constructor; [exists r, n; auto | exact IH].
    + symmetry. apply existsb_exists. exists "/"%char. split.
      * rewrite Hs. apply in_or_app. right. left. reflexivity.
      * apply Ascii.eqb_refl.
  - replace (existsb (Ascii.eqb "/") b) with false; [exact IH|].
    symmetry. apply not_true_is_false. intros H.
    apply existsb_exists in H. destruct H as (c & Hc & Hceq).
    apply Ascii.eqb_eq in Hceq. subst c. exact (Hn Hc).
Qed.

(** ** The language of the messages *)

(** X7. The messages are shown in English or in Japanese, nothing else:
    in Japanese exactly when the flag is "ja", or when there is no flag
    and LANG contains "ja". Any other value of the flag gives English,
    whatever LANG is. *)
Theorem selectLang_en_or_ja (env : Env) :
  (selectLang env = str "ja" \/ selectLang env = str "en")
  /\ (selectLang env = str "ja" <->
      flag_lang env = str "ja"
      \/ (flag_lang env = [] /\ Contains (getenv_LANG env) (str "ja") = true)).
Proof.
  unfold selectLang.
  destruct (eqs (flag_lang env) []) eqn:Ef; cbn [negb].
  - apply eqs_eq in Ef. rewrite Ef.
    destruct (Contains (getenv_LANG env) (str "ja")); cbn.
    + split; [left; reflexivity|]. split; auto.
    + split; [right; reflexivity|]. split; [discriminate|].
      intros [H|[_ H]]; discriminate.
  - apply eqs_neq in Ef.
    destruct (eqs (flag_lang env) (str "ja")) eqn:Ej; cbn [negb].
    + apply eqs_eq in Ej. split; [left; exact Ej|]. split; auto.
    + apply eqs_neq in Ej. split; [right; reflexivity|].
      split; [discriminate|]. intros [H|[H _]]; contradiction.
Qed.

(** ** The membership test of the merged-branch query *)

(** X8. The test compares trimmed lines with the trimmed branch: a branch
    counts as merged exactly when some line of the output is equal to it
    up to surrounding white space, so white space around the argument
    makes no difference, for the test and for [isMergedToHead]. *)
Theorem mergedIn_trimmed (env : Env) (output branch : gostring) (w : World) :
  (mergedIn output branch = true <->
   exists line, In line (Split output newline)
                /\ TrimSpace line = TrimSpace branch)
  /\ mergedIn output (TrimSpace branch) = mergedIn output branch
  /\ isMergedToHead env (TrimSpace branch) w = isMergedToHead env branch w.
Proof.
  assert (H : forall o, mergedIn o (TrimSpace branch) = mergedIn o branch).
  { intros o. unfold mergedIn. rewrite TrimSpace_idempotent. reflexivity. }
  split; [|split].
  - unfold mergedIn. rewrite existsb_exists.
    split; intros (line & Hin & Heq); exists line; split; auto;
      apply eqs_eq; exact Heq.
  - apply H.
  - rewrite !isMergedToHead_spec.
    destruct (git_branch_merged env (ran isMergedQuery w)) as [o [e|]];
      [reflexivity|]. rewrite H. reflexivity.
Qed.

(** ** [getRemoteBranchDetail] *)

Section SplitByte.

Variable c : ascii.

(** With enough fuel the loop of [genSplit] does not depend on its fuel. *)
Lemma genSplit_fuel (n : nat) :
  forall (m : nat) (s : gostring),
    length s <= n -> length s <= m -> genSplit s [c] n = genSplit s [c] m.
Proof.
  induction n as [|n IH]; intros m s Hn Hm.
  - destruct s; [|simpl in Hn; lia]. destruct m; reflexivity.
  - destruct m as [|m]; [destruct s; [reflexivity | simpl in Hm; lia]|].
    cbn [genSplit]. destruct (Index s [c]) as [k|] eqn:E; [|reflexivity].
    f_equal. apply Index_Some in E. destruct E as (Hk & Hp & _).
    apply HasPrefix_iff in Hp. destruct Hp as [t Ht].
    assert (0 < length s).
    { apply (f_equal (@length ascii)) in Ht. rewrite length_skipn in Ht.
      simpl in Ht. lia. }
    apply IH; rewrite length_skipn; simpl; lia.
Qed.

Lemma Split_byte_none (s : gostring) : ~ In c s -> Split s [c] = [s].
Proof.
  intros H. unfold Split. destruct (length s); cbn [genSplit]; [reflexivity|].
  rewrite Index_byte_absent by exact H. reflexivity.
Qed.

Lemma Split_byte_cons (r t : gostring) :
  ~ In c r -> Split (r ++ c :: t) [c] = r :: Split t [c].
Proof.
  intros H. unfold Split. rewrite length_app. cbn [length].
  replace (length r + S (length t)) with (S (length r + length t)) by lia.
  cbn [genSplit]. rewrite Index_byte_first by exact H.
  rewrite firstn_app, Nat.sub_diag, firstn_all, firstn_O, app_nil_r.
  rewrite skipn_app. replace (length r + length [c] - length r) with 1
    by (simpl; lia).
  rewrite skipn_all2 by (simpl; lia). cbn [app skipn].
  apply (f_equal (cons r)). apply genSplit_fuel; lia.
Qed.

(** A string is either without [c] or a piece without [c], then [c], then
    the rest. *)
Lemma byte_cases (s : gostring) :
  ~ In c s \/ exists r t, s = r ++ c :: t /\ ~ In c r.
Proof.
  destruct (Index s [c]) as [m|] eqn:E.
  - right. apply Index_byte_Some in E. destruct E as (r & t & Hs & Hr & _).
    exists r, t. auto.
  - left. apply Index_byte_None. exact E.
Qed.

Lemma count_occ_absent (s : gostring) :
  ~ In c s -> count_occ ascii_dec s c = 0.
Proof. intros H. apply count_occ_not_In. exact H. Qed.

(** There is one piece more than there are separators, and no piece has a
    separator in it. *)
Lemma Split_byte_pieces (n : nat) :
  forall s, length s <= n ->
            length (Split s [c]) = S (count_occ ascii_dec s c)
            /\ Forall (fun piece => ~ In c piece) (Split s [c]).
Proof.
  induction n as [|n IH]; intros s Hn.
  - destruct s; [|simpl in Hn; lia]. split; [reflexivity|].
    constructor; [intros [] | constructor].
  - destruct (byte_cases s) as [H|(r & t & -> & Hr)].
    + rewrite Split_byte_none, count_occ_absent by exact H.
      split; [reflexivity | constructor; [exact H | constructor]].
    + rewrite Split_byte_cons by exact Hr.
      rewrite length_app in Hn. cbn [length] in Hn.
      destruct (IH t ltac:(lia)) as [Hl Hf].
      rewrite count_occ_app, (count_occ_absent r Hr), count_occ_cons_eq
        by reflexivity.
      cbn [length]. rewrite Hl. split; [reflexivity|].
      constructor; assumption.
Qed.

End SplitByte.

(** The first four lines of a text with at least three line breaks. *)
Lemma Split_four_lines (s : gostring) :
  3 <= lineBreaks s ->
  exists l0 l1 l2 l3 more rest,
    Split s newline = l0 :: l1 :: l2 :: l3 :: more
    /\ s = l0 ++ "010" :: l1 ++ "010" :: l2 ++ "010" :: l3 ++ rest
    /\ (rest = [] \/ exists r, rest = "010" :: r)
    /\ ~ In "010" l0 /\ ~ In "010" l1 /\ ~ In "010" l2 /\ ~ In "010" l3.
Proof.
  unfold lineBreaks, newline. intros H.
  destruct (byte_cases "010" s) as [N|(l0 & s1 & -> & N0)];
    [rewrite count_occ_absent in H by exact N; lia|].
  rewrite count_occ_app, (count_occ_absent _ l0 N0), count_occ_cons_eq in H
    by reflexivity.
  destruct (byte_cases "010" s1) as [N|(l1 & s2 & -> & N1)];
    [rewrite count_occ_absent in H by exact N; lia|].
  rewrite count_occ_app, (count_occ_absent _ l1 N1), count_occ_cons_eq in H
    by reflexivity.
  destruct (byte_cases "010" s2) as [N|(l2 & s3 & -> & N2)];
    [rewrite count_occ_absent in H by exact N; lia|].
  rewrite !Split_byte_cons by assumption.
  destruct (byte_cases "010" s3) as [N3|(l3 & s4 & -> & N3)].
  - exists l0, l1, l2, s3, [], []. rewrite Split_byte_none by exact N3.
    rewrite app_nil_r. repeat split; auto.
  - exists l0, l1, l2, l3, (Split s4 ["010"]), ("010" :: s4).
    rewrite Split_byte_cons by exact N3. repeat split; eauto.
Qed.

(** X9. [getRemoteBranchDetail] asks for the log of the cleaned name. It
    fails with the error of the command when the command fails, and with
    "unexpected git log output" when the trimmed output has fewer than
    three line breaks. Otherwise the detail has the cleaned name, and its
    hash, author, date and message are the first four lines of the trimmed
    output, none with a line break in it; further lines are dropped. *)
Theorem getRemoteBranchDetail_cases (git_log_1 : gostring -> CmdResult)
    (branchName : gostring) :
  let output := fst (git_log_1 (cleanBranchName branchName)) in
  let err := snd (git_log_1 (cleanBranchName branchName)) in
  match getRemoteBranchDetail git_log_1 branchName with
  | inr (GitLogFailed e o) => err = Some e /\ o = output
  | inr (UnexpectedOutput o) =>
    err = None /\ o = output /\ lineBreaks (TrimSpace output) < 3
  | inl d =>
    err = None /\ 3 <= lineBreaks (TrimSpace output)
    /\ Name d = cleanBranchName branchName
    /\ (exists rest,
           TrimSpace output
           = Hash d ++ "010" :: Author d ++ "010" :: Date d
                    ++ "010" :: Message d ++ rest
           /\ (rest = [] \/ exists r, rest = "010" :: r))
    /\ ~ In "010" (Hash d) /\ ~ In "010" (Author d)
    /\ ~ In "010" (Date d) /\ ~ In "010" (Message d)
  end.
Proof.
  intros output err. subst output err. unfold getRemoteBranchDetail.
  destruct (git_log_1 (cleanBranchName branchName)) as [output [e|]];
    cbn [fst snd]; [auto|].
  destruct (Split_byte_pieces "010" (length (TrimSpace output))
                              (TrimSpace output) (le_n _)) as [Hlen _].
  fold newline in Hlen. fold (lineBreaks (TrimSpace output)) in Hlen.
  destruct (Nat.ltb_spec (length (Split (TrimSpace output) newline)) 4) as [Hlt|Hge].
  - repeat split. lia.
  - assert (H3 : 3 <= lineBreaks (TrimSpace output)) by lia.
    destruct (Split_four_lines _ H3)
      as (l0 & l1 & l2 & l3 & more & rest & -> & Hs & Hrest & N0 & N1 & N2 & N3).
    cbn [nth Name Hash Author Date Message].
    repeat split; auto. exists rest. split; assumption.
Qed.

(** ** The runs of [main] *)

Section Unfold.

Variable env : Env.
Variable L : MessageID -> TemplateData -> gostring.

Lemma planAndDelete_unfold (fzfStdout : gostring) (w : World) :
  planAndDelete env L fzfStdout w =
  if eqs (TrimSpace fzfStdout) []
  then (Exit 0%Z, addOut w [Println (L NoBranchesSelected [])])
  else
    let p := partitionSelected (Split (TrimSpace fzfStdout) newline) [] [] in
    let w1 := addOut w (map (skipNotice L) (snd p)) in
    if length (fst p) =? 0
    then (Exit 0%Z, addOut w1 [Println (L NoBranchesSelected [])])
    else confirmAndDelete env L (fst p) w1.
Proof.
  unfold planAndDelete. cbv zeta.
  destruct (eqs (TrimSpace fzfStdout) []); [reflexivity|].
  unfold bind at 1. unfold ret at 1.
  destruct (partitionSelected _ _ _) as [del prot]. cbn [fst snd].
  unfold bind at 1. rewrite notifySkipped_spec.
  destruct (length del =? 0); reflexivity.
Qed.

Lemma selectAndDelete_unfold (fzfItems : list gostring) (w : World) :
  selectAndDelete env L fzfItems w =
  if length fzfItems =? 0
  then (Exit 0%Z, addOut w [Println (L NoRemoteBranches [])])
  else
    match snd (os_Executable env) with
    | Some e =>
      (Exit 1%Z,
       addErr w [Printf (str "Error getting executable path: %v\n") [err_text e]])
    | None =>
      match stdinPipe env with
      | Some e =>
        (Exit 1%Z,
         addErr w [Printf (str "Error creating stdin pipe for fzf: %v\n")
                          [err_text e]])
      | None =>
        let preview := fst (os_Executable env) ++ str " -get-remote-log {}" in
        let w1 := addCmd w [Fzf preview fzfItems] in
        match snd (fzf env preview fzfItems) with
        | Some e =>
          match err_exit e with
          | Some 130%Z =>
            (Exit 0%Z, addOut w1 [Println (L DeletionCancelled [])])
          | _ =>
            (Exit 1%Z,
             addErr w1 [Printf (str "Error running fzf: %v\n") [err_text e]])
          end
        | None => planAndDelete env L (fst (fzf env preview fzfItems)) w1
        end
      end
    end.
Proof.
  unfold selectAndDelete.
  destruct (length fzfItems =? 0); [reflexivity|].
  unfold bind at 1. unfold ret at 1.
  destruct (os_Executable env) as [path [e|]]; cbn [fst snd]; [reflexivity|].
  destruct (stdinPipe env) as [e|]; [reflexivity|].
  unfold bind at 1. unfold run at 1. cbv zeta.
  destruct (fzf env _ fzfItems) as [out [e|]]; cbn [fst snd]; [|reflexivity].
  destruct (err_exit e) as [[|p|p]|]; try reflexivity.
  do 8 (destruct p as [p|p|]; try reflexivity).
Qed.

End Unfold.

Lemma no_delete_before_prompt (env : Env) : ran isDelete (promptedWorld env) = 0.
Proof.
  unfold ran, promptedWorld, plannedWorld, selectedWorld, listedWorld, addOut,
    addCmd. cbn [trace]. rewrite !filter_app. cbn [filter isDelete thePrompt app].
  rewrite app_nil_r.
  induction (length (unprotected (listingCandidates env))) as [|k IH];
    [reflexivity | exact IH].
Qed.

(** Every run of [main] is one of the runs of [Run]. *)
Lemma main_run (env : Env) : Run env (main env emptyWorld).
Proof.
  unfold main. fold (localizer env).
  destruct (eqs (flag_get_remote_log env) []) eqn:Eg; cbn [negb].
  2: { apply eqs_neq in Eg.
       pose proof (Run_log env _ Eg eq_refl) as H.
       destruct (git_log env (cleanBranchName (flag_get_remote_log env)));
         exact H. }
  apply eqs_eq in Eg.
  destruct (flag_help env) eqn:Eh; [apply Run_help; assumption|].
  destruct (lookPath_fzf env) as [e|] eqn:Ef;
    [apply (Run_no_fzf env e); assumption|].
  unfold bind at 1. unfold ret at 1. unfold bind at 1. unfold ret at 1.
  unfold manageBranches. unfold bind at 1. unfold run at 1.
  destruct (git_branch_r env) as [output [e|]] eqn:El.
  { apply (Run_listing_failed env e); try assumption. rewrite El; reflexivity. }
  assert (Hreach : reachesListing env = true).
  { unfold reachesListing. rewrite Eg, Eh, Ef, El. reflexivity. }
  unfold bind at 1. rewrite listBranches_spec.
  rewrite selectAndDelete_unfold.
  change (ran isMergedQuery
              (mkWorld (stdout emptyWorld) (stderr emptyWorld)
                       (trace emptyWorld ++ [GitBranchRemote]))) with 0.
  replace (candidates (Split output newline)) with (listingCandidates env)
    by (unfold listingCandidates; rewrite El; reflexivity).
  cbn [emptyWorld stdout stderr trace app].
  fold (selectorItems env). fold (listedWorld env).
  destruct (length (selectorItems env) =? 0) eqn:Ei.
  { apply Run_no_branches; [exact Hreach|].
    apply Nat.eqb_eq in Ei. unfold selectorItems in Ei.
    rewrite classified_length in Ei. apply length_zero_iff_nil. exact Ei. }
  assert (Hc : listingCandidates env <> []).
  { intros H. unfold selectorItems in Ei. rewrite H in Ei. discriminate. }
  destruct (snd (os_Executable env)) as [e|] eqn:Ex;
    [apply (Run_no_executable env e); assumption|].
  destruct (stdinPipe env) as [e|] eqn:Ep;
    [apply (Run_no_pipe env e); assumption|].
  assert (Hsel : reachesSelector env) by (repeat split; assumption).
  cbv zeta. fold (previewCommand env). fold (selectedWorld env).
  fold (selectorResult env).
  destruct (snd (selectorResult env)) as [e|] eqn:Es.
  { destruct (err_exit e) as [code|] eqn:Ec.
    - destruct (Z.eq_dec code 130) as [->|Hne].
      + apply (Run_selector_cancelled env e); assumption.
      + assert (Hx : err_exit e <> Some 130%Z) by congruence.
        pose proof (Run_selector_failed env e Hsel Es Hx) as H.
        destruct code as [|p|p]; try exact H.
        do 8 (destruct p as [p|p|]; try exact H).
        congruence.
    - apply (Run_selector_failed env e); [assumption..|congruence]. }
  assert (Hplan : reachesPlan env) by (split; assumption).
  rewrite planAndDelete_unfold. fold (selection env).
  destruct (eqs (selection env) []) eqn:En.
  { apply eqs_eq in En. apply Run_nothing_selected; assumption. }
  apply eqs_neq in En. cbv zeta.
  fold (toDelete env). fold (skipped env). fold (plannedWorld env).
  destruct (length (toDelete env) =? 0) eqn:Ed.
  { apply Nat.eqb_eq, length_zero_iff_nil in Ed.
    apply Run_nothing_to_delete; assumption. }
  assert (Hd : toDelete env <> []).
  { intros H. rewrite H in Ed. discriminate. }
  assert (Hprompt : reachesPrompt env) by (repeat split; assumption).
  rewrite confirmAndDelete_spec. cbv zeta. fold (promptedWorld env).
  destruct (survey_AskOne env) as [[|]|e] eqn:Ea.
  - rewrite deleteBranches_spec, no_delete_before_prompt.
    apply Run_deleted; assumption.
  - apply Run_not_confirmed; [assumption | congruence].
  - apply Run_not_confirmed; [assumption | congruence].
Qed.

(** ** What the runs have in common *)

Lemma reachesListing_inv (env : Env) :
  reachesListing env = true ->
  flag_get_remote_log env = [] /\ flag_help env = false
  /\ lookPath_fzf env = None /\ snd (git_branch_r env) = None.
Proof.
  unfold reachesListing. rewrite !andb_true_iff, eqs_eq, negb_true_iff.
  intros [[[H1 H2] H3] H4].
  destruct (lookPath_fzf env); [discriminate|].
  destruct (snd (git_branch_r env)); [discriminate|]. auto.
Qed.

(** A run that does not end at one of its branches goes on with the next
    step. *)
Lemma main_reaches_listing (env : Env) :
  reachesListing env = true ->
  main env emptyWorld
  = selectAndDelete env (localizer env) (selectorItems env) (listedWorld env).
Proof.
  intros H. apply reachesListing_inv in H. destruct H as (Eg & Eh & Ef & El).
  unfold main. fold (localizer env). rewrite Eg, Eh, Ef. cbn [eqs negb].
  unfold bind at 1. unfold ret at 1. unfold bind at 1. unfold ret at 1.
  unfold manageBranches. unfold bind at 1. unfold run at 1.
  unfold selectorItems, listedWorld, listingCandidates.
  destruct (git_branch_r env) as [output [e|]]; [discriminate|].
  unfold bind at 1. rewrite listBranches_spec. reflexivity.
Qed.

Lemma selectorItems_nonempty (env : Env) :
  listingCandidates env <> [] -> (length (selectorItems env) =? 0) = false.
Proof.
  intros H. unfold selectorItems. rewrite classified_length.
  destruct (listingCandidates env); [congruence | reflexivity].
Qed.

Lemma main_reaches_selector (env : Env) :
  reachesSelector env ->
  main env emptyWorld =
  match snd (selectorResult env) with
  | Some e =>
    match err_exit e with
    | Some 130%Z =>
      (Exit 0%Z,
       addOut (selectedWorld env) [Println (localizer env DeletionCancelled [])])
    | _ =>
      (Exit 1%Z,
       addErr (selectedWorld env)
              [Printf (str "Error running fzf: %v\n") [err_text e]])
    end
  | None =>
    planAndDelete env (localizer env) (fst (selectorResult env))
                  (selectedWorld env)
  end.
Proof.
  intros (Hl & Hc & Hx & Hp).
  rewrite main_reaches_listing by exact Hl.
  rewrite selectAndDelete_unfold, selectorItems_nonempty, Hx, Hp by exact Hc.
  reflexivity.
Qed.

Lemma main_reaches_plan (env : Env) :
  reachesPlan env ->
  main env emptyWorld =
  if eqs (selection env) []
  then (Exit 0%Z,
        addOut (selectedWorld env)
               [Println (localizer env NoBranchesSelected [])])
  else if length (toDelete env) =? 0
       then (Exit 0%Z,
             addOut (plannedWorld env)
                    [Println (localizer env NoBranchesSelected [])])
       else confirmAndDelete env (localizer env) (toDelete env)
                             (plannedWorld env).
Proof.
  intros (Hs & Hr). rewrite main_reaches_selector, Hr by exact Hs.
  apply planAndDelete_unfold.
Qed.

(** Up to the selector only the listing, the queries and the selector are
    run. *)
Lemma kinds_before_prompt (env : Env) (P : Command -> bool) :
  P GitBranchRemote = true -> P GitBranchMerged = true ->
  (forall preview items, P (Fzf preview items) = true) ->
  forallb P (trace (listedWorld env)) = true
  /\ forallb P (trace (selectedWorld env)) = true.
Proof.
  intros H1 H2 H3.
  assert (H : forallb P (trace (listedWorld env)) = true).
  { unfold listedWorld. cbn [trace forallb]. rewrite H1. cbn [andb].
    induction (length (unprotected (listingCandidates env))) as [|k IH];
      [reflexivity|]. cbn [repeat forallb]. rewrite H2. exact IH. }
  split; [exact H|].
  unfold selectedWorld, addCmd. cbn [trace]. rewrite forallb_app, H.
  cbn [forallb]. rewrite H3. reflexivity.
Qed.

Lemma forallb_not_In (P : Command -> bool) (cs : list Command) (c : Command) :
  forallb P cs = true -> P c = false -> ~ In c cs.
Proof.
  intros H Hc Hin. rewrite forallb_forall in H. rewrite (H c Hin) in Hc.
  discriminate.
Qed.

Lemma not_prompted_kinds (w : World) :
  forallb notPrompt (trace w) = true -> ~ prompted w.
Proof.
  intros H (message & default & Hin).
  exact (forallb_not_In notPrompt _ (AskConfirm message default) H eq_refl Hin).
Qed.

Lemma no_deletes_kinds (w : World) :
  forallb (fun c => negb (isDelete c)) (trace w) = true -> deletes w = [].
Proof. intros H. apply filter_none. exact H. Qed.

Lemma quiet_before_prompt (env : Env) :
  (~ prompted (listedWorld env) /\ deletes (listedWorld env) = [])
  /\ (~ prompted (selectedWorld env) /\ deletes (selectedWorld env) = []).
Proof.
  destruct (kinds_before_prompt env notPrompt) as [A B]; try reflexivity.
  destruct (kinds_before_prompt env (fun c => negb (isDelete c))) as [C D];
    try reflexivity.
  repeat split; (apply not_prompted_kinds || apply no_deletes_kinds); assumption.
Qed.


(** ** Properties of every run *)

Ltac run_cases env :=
  let H := fresh "Hrun" in
  let r := fresh "r" in
  let E := fresh "Er" in
  pose proof (main_run env) as H;
  remember (main env emptyWorld) as r eqn:E; clear E;
  destruct H.


Lemma quiet_listed (env : Env) (so se : list Print) :
  ~ prompted (mkWorld so se (trace (listedWorld env)))
  /\ deletes (mkWorld so se (trace (listedWorld env))) = [].
Proof. exact (proj1 (quiet_before_prompt env)). Qed.

Lemma quiet_selected (env : Env) (so se : list Print) :
  ~ prompted (mkWorld so se (trace (selectedWorld env)))
  /\ deletes (mkWorld so se (trace (selectedWorld env))) = [].
Proof. exact (proj2 (quiet_before_prompt env)). Qed.


Lemma firstn_prefix {A} (a b : list A) : firstn (length a) (a ++ b) = a.
Proof. rewrite firstn_app, Nat.sub_diag, firstn_all, firstn_O, app_nil_r. reflexivity. Qed.

(** X11. The commands of a run are run in a fixed order: unless it shows a
    log, a run runs an initial part of the sequence made of the listing,
    one merged-branch query for each candidate that is not protected, the
    selector, the prompt, and the delete commands of the branches to
    delete. *)
Theorem commands_in_order (env : Env) :
  flag_get_remote_log env = [] ->
  exists n,
    trace (snd (main env emptyWorld))
    = firstn n ((GitBranchRemote
                 :: repeat GitBranchMerged
                           (length (unprotected (listingCandidates env))))
                ++ [Fzf (previewCommand env) (selectorItems env)]
                ++ [thePrompt]
                ++ flat_map deleteCommand (toDelete env)).
Proof.
  intros Hg.
  set (a := GitBranchRemote
            :: repeat GitBranchMerged
                      (length (unprotected (listingCandidates env)))).
  set (f := [Fzf (previewCommand env) (selectorItems env)]).
  set (d := flat_map deleteCommand (toDelete env)).
  assert (Ha : forall so se, trace (mkWorld so se a) = a) by reflexivity.
  run_cases env; cbn [snd addOut addErr trace];
    unfold promptedWorld, plannedWorld, selectedWorld, listedWorld,
      addOut, addErr, addCmd; cbn [trace]; fold a; fold f; fold d.
  - contradiction.
  - exists 0. reflexivity.
  - exists 0. reflexivity.
  - exists 1. reflexivity.
  - exists (length a). rewrite firstn_prefix. reflexivity.
  - exists (length a). rewrite firstn_prefix. reflexivity.
  - exists (length a). rewrite firstn_prefix. reflexivity.
  - exists (length (a ++ f)). rewrite app_assoc, firstn_prefix. reflexivity.
  - exists (length (a ++ f)). rewrite app_assoc, firstn_prefix. reflexivity.
  - exists (length (a ++ f)). rewrite app_assoc, firstn_prefix. reflexivity.
  - exists (length (a ++ f)). rewrite app_assoc, firstn_prefix. reflexivity.
  - exists (length ((a ++ f) ++ [thePrompt])).
    rewrite app_assoc, (app_assoc (a ++ f)), firstn_prefix. reflexivity.
  - exists (length (((a ++ f) ++ [thePrompt]) ++ d)).
    rewrite app_assoc, (app_assoc (a ++ f)), firstn_all. reflexivity.
Qed.

Lemma commands_in_order_witness :
  exists n,
    trace (snd (main scenarioEnv emptyWorld))
    = firstn n ((GitBranchRemote
                 :: repeat GitBranchMerged
                           (length (unprotected (listingCandidates scenarioEnv))))
                ++ [Fzf (previewCommand scenarioEnv) (selectorItems scenarioEnv)]
                ++ [thePrompt]
                ++ flat_map deleteCommand (toDelete scenarioEnv)).
Proof. exact (commands_in_order scenarioEnv eq_refl). Defined.

(** ** What is deleted *)

Lemma toDelete_spec (env : Env) :
  toDelete env
  = filter (fun b => negb (isProtectedBranch b))
           (map cleanBranchName (Split (selection env) newline))
  /\ skipped env
     = filter isProtectedBranch
              (map cleanBranchName (Split (selection env) newline)).
Proof.
  unfold toDelete, skipped. rewrite partitionSelected_acc. auto.
Qed.

Lemma toDelete_unprotected (env : Env) (b : gostring) :
  In b (toDelete env) -> isProtectedBranch b = false.
Proof.
  rewrite (proj1 (toDelete_spec env)). intros H. apply filter_In in H.
  destruct H as [_ H]. destruct (isProtectedBranch b); [discriminate | reflexivity].
Qed.

(** The delete command of a branch that is not protected does not name
    main or master. *)
Lemma deleteCommand_unprotected (b : gostring) (c : Command) :
  isProtectedBranch b = false -> In c (deleteCommand b) ->
  deletesProtected c = false.
Proof.
  unfold isProtectedBranch, deleteCommand.
  destruct (SplitN b (str "/") 2) as [|r [|n [|x l]]];
    intros H Hin; try solve [destruct Hin].
  destruct Hin as [<-|[]]. revert H.
  cbv zeta. cbn [length Nat.eqb nth existsb]. rewrite orb_false_r.
  auto.
Qed.

Lemma In_deletes (w : World) (c : Command) :
  In c (trace w) -> isDelete c = true -> In c (deletes w).
Proof. intros H Hc. apply filter_In. auto. Qed.

Lemma deletesProtected_isDelete (c : Command) :
  isDelete c = false -> deletesProtected c = false.
Proof. destruct c; (discriminate || reflexivity). Qed.

Lemma In_quiet (w : World) (c : Command) :
  deletes w = [] -> In c (trace w) -> isDelete c = false.
Proof.
  intros Hq Hin. destruct (isDelete c) eqn:E; [|reflexivity].
  pose proof (In_deletes w c Hin E) as H. rewrite Hq in H. destruct H.
Qed.

(** The commands of a run that are not in its last part, the delete
    commands of the branches to delete, are no delete commands. *)
Lemma run_commands (env : Env) (c : Command) :
  In c (trace (snd (main env emptyWorld))) ->
  isDelete c = false
  \/ (reachesPrompt env /\ survey_AskOne env = Answered true
      /\ In c (flat_map deleteCommand (toDelete env))
      /\ In (Fzf (previewCommand env) (selectorItems env))
            (trace (snd (main env emptyWorld)))).
Proof.
  assert (Hp : forall so se, deletes (mkWorld so se (trace (promptedWorld env))) = []).
  { intros so se. unfold deletes, promptedWorld, plannedWorld, addOut.
    cbn [trace]. rewrite filter_app.
    change (filter isDelete (trace (selectedWorld env)))
      with (deletes (selectedWorld env)).
    rewrite (proj2 (proj2 (quiet_before_prompt env))). reflexivity. }
  run_cases env;
    try match goal with
        | r : option error |- _ => destruct r
        end;
    cbn [snd addOut addErr trace]; intros Hin.
  1-5: left; cbn in Hin; intuition (subst; reflexivity).
  - left. exact (In_quiet _ _ (proj2 (quiet_listed env [] [])) Hin).
  - left. exact (In_quiet _ _ (proj2 (quiet_listed env [] [])) Hin).
  - left. exact (In_quiet _ _ (proj2 (quiet_listed env [] [])) Hin).
  - left. exact (In_quiet _ _ (proj2 (quiet_selected env [] [])) Hin).
  - left. exact (In_quiet _ _ (proj2 (quiet_selected env [] [])) Hin).
  - left. exact (In_quiet _ _ (proj2 (quiet_selected env [] [])) Hin).
  - left. exact (In_quiet _ _ (proj2 (quiet_selected env [] [])) Hin).
  - left. exact (In_quiet _ _ (Hp [] []) Hin).
  - apply in_app_or in Hin. destruct Hin as [Hin|Hin].
    + left. exact (In_quiet _ _ (Hp [] []) Hin).
    + right. split; [assumption|]. split; [assumption|]. split; [assumption|].
      apply in_or_app. left. unfold promptedWorld, plannedWorld, selectedWorld,
                               addOut, addCmd. cbn [trace].
      apply in_or_app. left. apply in_or_app. right. left. reflexivity.
Qed.

(** X12. No run deletes a protected branch: whatever the selector returns
    and whatever the answers of the commands, no command of a run is a
    delete of the branch name main or master. *)
Theorem protected_never_deleted (env : Env) (c : Command) :
  In c (trace (snd (main env emptyWorld))) -> deletesProtected c = false.
Proof.
  intros H. destruct (run_commands env c H) as [Hc|(_ & _ & Hin & _)].
  - apply deletesProtected_isDelete. exact Hc.
  - apply in_flat_map in Hin. destruct Hin as (b & Hb & Hin).
    apply (deleteCommand_unprotected b); [|exact Hin].
    apply (toDelete_unprotected env). exact Hb.
Qed.

(** X13. Only what was selected and confirmed is deleted: a delete command
    of a run was answered yes at the prompt, comes after the selector, and
    its remote and branch name are the two sides of the first "/" of the
    cleaned form of a line the selector returned. *)
Theorem only_selected_deleted (env : Env) (remoteName branchName : gostring) :
  In (GitPushDelete remoteName branchName) (trace (snd (main env emptyWorld))) ->
  survey_AskOne env = Answered true
  /\ In (Fzf (previewCommand env) (selectorItems env))
        (trace (snd (main env emptyWorld)))
  /\ ~ In "/" remoteName
  /\ exists line,
      In line (Split (selection env) newline)
      /\ cleanBranchName line = remoteName ++ "/" :: branchName.
Proof.
  intros H. destruct (run_commands env _ H) as [Hc|(_ & Ha & Hin & Hf)];
    [discriminate|].
  split; [exact Ha|]. split; [exact Hf|].
  apply in_flat_map in Hin. destruct Hin as (b & Hb & Hin).
  destruct (deleteCommand_cases b) as [(r & n & E & Hs & Hr & _)|(E & _)];
    rewrite E in Hin; [|destruct Hin].
  destruct Hin as [Hin|[]]. inversion Hin; subst r n.
  split; [exact Hr|].
  rewrite (proj1 (toDelete_spec env)) in Hb. apply filter_In in Hb.
  destruct Hb as [Hb _]. apply in_map_iff in Hb. destruct Hb as (line & Hl & Hin').
  exists line. split; [exact Hin' | congruence].
Qed.

Lemma scenario_delete :
  In (GitPushDelete (str "origin") (str "feature-x"))
     (trace (snd (main scenarioEnv emptyWorld))).
Proof. vm_compute. auto 10. Defined.

Lemma protected_never_deleted_witness :
  deletesProtected (GitPushDelete (str "origin") (str "feature-x")) = false.
Proof. exact (protected_never_deleted scenarioEnv _ scenario_delete). Defined.

Lemma only_selected_deleted_witness :
  exists line,
    In line (Split (selection scenarioEnv) newline)
    /\ cleanBranchName line = str "origin" ++ "/" :: str "feature-x".
Proof.
  exact (proj2 (proj2 (proj2 (only_selected_deleted
                                scenarioEnv (str "origin") (str "feature-x")
                                scenario_delete)))).
Defined.

(** ** The ways a run ends early *)

(** X14. With the flag -get-remote-log the run only shows a log: the one
    command it runs is the log command, on the cleaned value of the flag,
    whatever the other flags are, and it ends with status 0 when that
    command succeeded and with status 1 when it failed; in that case
    [main] reports the failure, with the cleaned value and the error, on
    the standard error. The log command writes on the streams of the run
    by itself: what it writes there is not described here. *)
Theorem log_mode (env : Env) :
  flag_get_remote_log env <> [] ->
  let ref := cleanBranchName (flag_get_remote_log env) in
  trace (snd (main env emptyWorld)) = [GitLog ref]
  /\ match git_log env ref with
     | None => fst (main env emptyWorld) = Exit 0%Z
     | Some e => fst (main env emptyWorld) = Exit 1%Z
                 /\ In (Printf (str "Error getting log for %s: %v\n")
                               [ref; err_text e])
                       (stderr (snd (main env emptyWorld)))
     end.
Proof.
  intros H ref. apply eqs_neq in H. unfold main. rewrite H. cbn [negb].
  fold ref. unfold bind, run, eprint, os_Exit.
  destruct (git_log env ref); cbn; auto.
Qed.

(** X15. The preview of a selector line shows the log of the branch the
    line was made from: with the decorated line of a trimmed branch
    without color code and " (" as the value of -get-remote-log, the log
    command is run on that branch. *)
Theorem preview_of_decorated_line (env : Env) (b rest color : gostring) :
  TrimSpace b = b ->
  ansiStripper_ReplaceAllString b = b ->
  Index b (str " (") = None ->
  In color [ColorGreen; ColorRed; ColorYellow] ->
  flag_get_remote_log env = decorate color b ("(" :: rest) ->
  trace (snd (main env emptyWorld)) = [GitLog b].
Proof.
  intros Ht Ha Hp Hc Hf.
  assert (Hne : eqs (flag_get_remote_log env) [] = false).
  { apply eqs_neq. rewrite Hf. unfold decorate.
    destruct Hc as [<-|[<-|[<-|[]]]]; discriminate. }
  unfold main. rewrite Hne. cbn [negb]. rewrite Hf.
  rewrite clean_decorate by assumption.
  unfold bind, run, eprint, os_Exit. destruct (git_log env b); reflexivity.
Qed.

(** X16. When help is asked for (and no log), or when fzf is not
    installed, the run ends without running any command: with the help
    text and status 0 in the first case, help coming first, with the two
    lines about fzf and status 1 in the second. *)
Theorem no_command_without_fzf_or_with_help (env : Env) :
  flag_get_remote_log env = [] ->
  flag_help env = true \/ lookPath_fzf env <> None ->
  trace (snd (main env emptyWorld)) = []
  /\ stderr (snd (main env emptyWorld)) = []
  /\ (flag_help env = true ->
      fst (main env emptyWorld) = Exit 0%Z
      /\ length (stdout (snd (main env emptyWorld))) = 1)
  /\ (flag_help env = false ->
      main env emptyWorld
      = (Exit 1%Z,
         mkWorld [Println (localizer env FzfNotFound []);
                  Println (localizer env InstallFzf [])] [] [])).
Proof.
  intros Hg H. unfold main. fold (localizer env). rewrite Hg. cbn [eqs negb].
  destruct (flag_help env).
  - cbn. repeat split; discriminate.
  - destruct H as [H|H]; [discriminate|].
    destruct (lookPath_fzf env); [|congruence].
    cbn. repeat split; discriminate.
Qed.

Lemma filter_all {A} (f : A -> bool) (l : list A) :
  Forall (fun x => f x = true) l -> filter f l = l.
Proof.
  induction 1 as [|x l Hx _ IH]; [reflexivity|].
  cbn [filter]. rewrite Hx, IH. reflexivity.
Qed.

Lemma filter_nothing {A} (f : A -> bool) (l : list A) :
  Forall (fun x => f x = true) l -> filter (fun x => negb (f x)) l = [].
Proof.
  induction 1 as [|x l Hx _ IH]; [reflexivity|].
  cbn [filter]. rewrite Hx, IH. reflexivity.
Qed.

(** X17. When the selector fails, what it wrote is not looked at and
    nothing is asked or deleted: the exit code 130 of a cancelled selector
    ends the run with the cancellation message and status 0, any other
    failure with a message on the standard error and status 1. *)
Theorem selector_failure (env : Env) (e : error) :
  reachesSelector env -> snd (selectorResult env) = Some e ->
  ~ prompted (snd (main env emptyWorld))
  /\ deletes (snd (main env emptyWorld)) = []
  /\ (err_exit e = Some 130%Z ->
      main env emptyWorld
      = (Exit 0%Z,
         addOut (selectedWorld env)
                [Println (localizer env DeletionCancelled [])]))
  /\ (err_exit e <> Some 130%Z ->
      main env emptyWorld
      = (Exit 1%Z,
         addErr (selectedWorld env)
                [Printf (str "Error running fzf: %v\n") [err_text e]])).
Proof.
  intros Hs He. rewrite main_reaches_selector, He by exact Hs.
  destruct (quiet_selected env (stdout (selectedWorld env)
                                ++ [Println (localizer env DeletionCancelled [])])
                           (stderr (selectedWorld env))) as [Q1 Q2].
  destruct (quiet_selected env (stdout (selectedWorld env))
                           (stderr (selectedWorld env)
                            ++ [Printf (str "Error running fzf: %v\n") [err_text e]]))
    as [Q3 Q4].
  destruct (err_exit e) as [code|] eqn:Ec.
  - destruct (Z.eq_dec code 130) as [->|Hne].
    + repeat split; try assumption. congruence.
    + assert (Hx : Some code <> Some 130%Z) by congruence.
      destruct code as [|p|p]; try (repeat split; try assumption; congruence).
      do 8 (destruct p as [p|p|];
            try (repeat split; try assumption; congruence)).
  - repeat split; try assumption. discriminate.
Qed.

(** X18. When every line the selector returned cleans to a protected
    branch, the run writes one notice for each line, in order, then that
    no branch is selected, and ends with status 0 before the prompt. *)
Theorem only_protected_selected (env : Env) :
  reachesPlan env ->
  Forall (fun line => isProtectedBranch (cleanBranchName line) = true)
         (Split (selection env) newline) ->
  main env emptyWorld
  = (Exit 0%Z,
     addOut (selectedWorld env)
            (map (fun line => skipNotice (localizer env) (cleanBranchName line))
                 (Split (selection env) newline)
             ++ [Println (localizer env NoBranchesSelected [])]))
  /\ ~ prompted (snd (main env emptyWorld))
  /\ deletes (snd (main env emptyWorld)) = [].
Proof.
  intros Hp Hall.
  assert (Hmap : Forall (fun b => isProtectedBranch b = true)
                        (map cleanBranchName (Split (selection env) newline))).
  { apply Forall_forall. intros b Hb. apply in_map_iff in Hb.
    destruct Hb as (line & <- & Hin). rewrite Forall_forall in Hall. auto. }
  assert (Hdel : toDelete env = []).
  { rewrite (proj1 (toDelete_spec env)). apply filter_nothing. exact Hmap. }
  assert (Hskip : skipped env
                  = map cleanBranchName (Split (selection env) newline)).
  { rewrite (proj2 (toDelete_spec env)). apply filter_all. exact Hmap. }
  assert (Hne : eqs (selection env) [] = false).
  { apply eqs_neq. intros E. rewrite E in Hall.
    inversion Hall as [|x l Hx _]. discriminate Hx. }
  assert (E : main env emptyWorld
              = (Exit 0%Z,
                 addOut (selectedWorld env)
                        (map (fun line => skipNotice (localizer env)
                                                     (cleanBranchName line))
                             (Split (selection env) newline)
                         ++ [Println (localizer env NoBranchesSelected [])]))).
  { rewrite main_reaches_plan, Hne, Hdel by exact Hp. cbn [length Nat.eqb].
    unfold plannedWorld, addOut. cbn [stdout stderr trace].
    rewrite Hskip, map_map, <- app_assoc. reflexivity. }
  rewrite E. split; [reflexivity|]. cbn [snd addOut]. apply quiet_selected.
Qed.

(** X19. A listing with nothing but blank lines and lines that end in
    "/HEAD" ends the run after the listing: no query and no selector are
    run, the run writes that there is no remote branch and ends with
    status 0. *)
Theorem nothing_to_list (env : Env) :
  reachesListing env = true ->
  Forall (fun line => TrimSpace line = []
                      \/ HasSuffix (TrimSpace line) (str "/HEAD") = true)
         (Split (fst (git_branch_r env)) newline) ->
  main env emptyWorld
  = (Exit 0%Z,
     mkWorld [Println (localizer env NoRemoteBranches [])] []
             [GitBranchRemote]).
Proof.
  intros Hr Hall.
  assert (Hc : listingCandidates env = []).
  { unfold listingCandidates.
    induction Hall as [|line lines Hl _ IH]; [reflexivity|].
    rewrite candidates_cons.
    destruct Hl as [Hl|Hl]; rewrite Hl; cbn [eqs negb andb];
      [exact IH | rewrite andb_false_r; exact IH]. }
  rewrite main_reaches_listing by exact Hr.
  rewrite selectAndDelete_unfold. unfold selectorItems, listedWorld.
  rewrite Hc. reflexivity.
Qed.

(** X20. After a yes at the prompt the run returns normally, whatever the
    outcome of the delete commands, and its delete commands are those of
    the selected lines that do not clean to a protected branch, in the
    order of the selection. *)
Theorem confirmed_deletion (env : Env) :
  reachesPrompt env -> survey_AskOne env = Answered true ->
  fst (main env emptyWorld) = Done tt
  /\ deletes (snd (main env emptyWorld))
     = flat_map deleteCommand
                (filter (fun b => negb (isProtectedBranch b))
                        (map cleanBranchName (Split (selection env) newline)))
  /\ stdout (snd (main env emptyWorld))
     = stdout (promptedWorld env)
       ++ deletionReport env (localizer env) 0 (toDelete env).
Proof.
  intros (Hp & Hn & Hd) Ha.
  assert (E : main env emptyWorld
              = (Done tt,
                 mkWorld (stdout (promptedWorld env)
                          ++ deletionReport env (localizer env) 0 (toDelete env))
                         (stderr (promptedWorld env))
                         (trace (promptedWorld env)
                          ++ flat_map deleteCommand (toDelete env)))).
  { rewrite main_reaches_plan by exact Hp.
    apply eqs_neq in Hn. rewrite Hn.
    destruct (toDelete env) as [|b l] eqn:Et; [congruence|].
    cbn [length Nat.eqb]. rewrite confirmAndDelete_spec, Ha. cbv zeta.
    rewrite <- Et. fold (promptedWorld env).
    rewrite deleteBranches_spec, no_delete_before_prompt. reflexivity. }
  rewrite E. cbn [fst snd stdout]. split; [reflexivity|]. split; [|reflexivity].
  unfold deletes. cbn [trace]. rewrite filter_app.
  change (filter isDelete (trace (promptedWorld env)))
    with (deletes (promptedWorld env)).
  assert (Hq : deletes (promptedWorld env) = []).
  { unfold deletes, promptedWorld, plannedWorld, addOut. cbn [trace].
    rewrite filter_app.
    change (filter isDelete (trace (selectedWorld env)))
      with (deletes (selectedWorld env)).
    rewrite (proj2 (proj2 (quiet_before_prompt env))). reflexivity. }
  rewrite Hq. cbn [app]. rewrite (proj1 (toDelete_spec env)).
  apply filter_all. apply Forall_forall. intros c Hc.
  apply in_flat_map in Hc. destruct Hc as (b & _ & Hc).
  destruct (deleteCommand_cases b) as [(r & n & E' & _)|(E' & _)];
    rewrite E' in Hc; [|destruct Hc].
  destruct Hc as [<-|[]]. reflexivity.
Qed.

(** ** The listing *)

Lemma candidates_facts (lines : list gostring) :
  length (candidates lines) <= length lines
  /\ Forall (fun b => TrimSpace b = b /\ b <> []
                      /\ HasSuffix b (str "/HEAD") = false
                      /\ exists line, In line lines /\ b = TrimSpace line)
            (candidates lines).
Proof.
  induction lines as [|line lines [IHl IHf]]; [split; [auto | constructor]|].
  rewrite candidates_cons.
  destruct (eqs (TrimSpace line) []) eqn:Ee; cbn [negb andb].
  - split; [cbn [length]; lia|].
    eapply Forall_impl; [|exact IHf].
    intros b (H1 & H2 & H3 & l & Hl & Hb). repeat split; auto.
    exists l. split; [right; exact Hl | exact Hb].
  - destruct (HasSuffix (TrimSpace line) (str "/HEAD")) eqn:Es; cbn [negb].
    + split; [cbn [length]; lia|].
      eapply Forall_impl; [|exact IHf].
      intros b (H1 & H2 & H3 & l & Hl & Hb). repeat split; auto.
      exists l. split; [right; exact Hl | exact Hb].
    + split; [cbn [length]; lia|]. constructor.
      * repeat split; [apply TrimSpace_idempotent | apply eqs_neq; exact Ee
                       | exact Es |].
        exists line. split; [left; reflexivity | reflexivity].
      * eapply Forall_impl; [|exact IHf].
        intros b (H1 & H2 & H3 & l & Hl & Hb). repeat split; auto.
        exists l. split; [right; exact Hl | exact Hb].
Qed.

(** X21. The listing loop never ends the run and writes nothing on the
    standard output. It makes one line for the selector for each line of
    the listing that, once trimmed, is not empty and does not end in
    "/HEAD", in the order of the listing; each is the decoration of the
    trimmed line with one of the three statuses. *)
Theorem listing_items (env : Env)
    (L : MessageID -> TemplateData -> gostring)
    (lines : list gostring) (w : World) :
  exists sts w',
    listBranches env L lines [] w =
    (Done (map (fun p => decorated L (fst p) (snd p))
               (combine sts (candidates lines))), w')
    /\ length sts = length (candidates lines)
    /\ length (candidates lines) <= length lines
    /\ stdout w' = stdout w
    /\ Forall (fun b => TrimSpace b = b /\ b <> []
                        /\ HasSuffix b (str "/HEAD") = false
                        /\ exists line, In line lines /\ b = TrimSpace line)
              (candidates lines).
Proof.
  destruct (candidates_facts lines) as [Hl Hf].
  rewrite listBranches_spec. unfold classified.
  exists (statuses env (ran isMergedQuery w) (candidates lines)).
  eexists. split; [reflexivity|]. split; [|auto].
  generalize (ran isMergedQuery w). generalize (candidates lines).
  induction l as [|b l IH]; intros n; simpl; [reflexivity|].
  destruct (isProtectedBranch b); simpl; rewrite IH; reflexivity.
Qed.

(** ** Sample runs *)

Lemma log_mode_witness :
  trace (snd (main previewEnv emptyWorld))
  = [GitLog (cleanBranchName (flag_get_remote_log previewEnv))].
Proof.
  refine (proj1 (log_mode previewEnv _)). discriminate.
Defined.

Lemma preview_of_decorated_line_witness :
  trace (snd (main previewEnv emptyWorld)) = [GitLog (str "origin/feature-x")].
Proof.
  apply (preview_of_decorated_line previewEnv (str "origin/feature-x")
                                   (str "merged)") ColorGreen);
    [reflexivity | reflexivity | reflexivity | simpl; auto | reflexivity].
Defined.

Lemma no_command_without_fzf_or_with_help_witness :
  trace (snd (main (withoutFzf scenarioEnv) emptyWorld)) = []
  /\ fst (main (withoutFzf scenarioEnv) emptyWorld) = Exit 1%Z.
Proof.
  destruct (no_command_without_fzf_or_with_help (withoutFzf scenarioEnv) eq_refl)
    as (Ht & _ & _ & Hm).
  - right. discriminate.
  - split; [exact Ht|]. rewrite (Hm eq_refl). reflexivity.
Defined.

Lemma scenario_reachesSelector (selector : gostring -> list gostring
                                          -> gostring * option error) :
  reachesSelector (withSelector scenarioEnv selector).
Proof.
  repeat split; try reflexivity. vm_compute. discriminate.
Defined.

Lemma selector_failure_witness :
  main cancelledEnv emptyWorld
  = (Exit 0%Z,
     addOut (selectedWorld cancelledEnv)
            [Println (localizer cancelledEnv DeletionCancelled [])]).
Proof.
  exact (proj1 (proj2 (proj2 (selector_failure
                                cancelledEnv _
                                (scenario_reachesSelector _) eq_refl)))
               eq_refl).
Defined.

Lemma only_protected_selected_witness :
  ~ prompted (snd (main onlyProtectedEnv emptyWorld))
  /\ fst (main onlyProtectedEnv emptyWorld) = Exit 0%Z.
Proof.
  assert (Hs : Split (selection onlyProtectedEnv) newline
               = [ColorYellow ++ str "origin/main (protected)" ++ ColorReset;
                  ColorYellow ++ str "origin/master (protected)" ++ ColorReset])
    by (vm_compute; reflexivity).
  destruct (only_protected_selected onlyProtectedEnv) as (E & Hp & _).
  - repeat split; try reflexivity. vm_compute. discriminate.
  - rewrite Hs. repeat constructor; vm_compute; reflexivity.
  - split; [exact Hp | rewrite E; reflexivity].
Defined.

Lemma nothing_to_list_witness :
  main emptyListingEnv emptyWorld
  = (Exit 0%Z,
     mkWorld [Println (str "NoRemoteBranches")] [] [GitBranchRemote]).
Proof.
  apply (nothing_to_list emptyListingEnv); [reflexivity|].
  assert (Hs : Split (fst (git_branch_r emptyListingEnv)) newline
               = [[]; str "  origin/HEAD"; []])
    by (vm_compute; reflexivity).
  rewrite Hs.
  constructor; [left; vm_compute; reflexivity|].
  constructor; [right; vm_compute; reflexivity|].
  constructor; [left; vm_compute; reflexivity|]. constructor.
Defined.

Lemma confirmed_deletion_witness :
  fst (main scenarioEnv emptyWorld) = Done tt
  /\ deletes (snd (main scenarioEnv emptyWorld))
     = [GitPushDelete (str "origin") (str "feature-x")].
Proof.
  destruct (confirmed_deletion scenarioEnv) as (Hd & He & _).
  - repeat split; try reflexivity; vm_compute; discriminate.
  - reflexivity.
  - split; [exact Hd | rewrite He; vm_compute; reflexivity].
Defined.

